(** * Biometric security (face + voice): template store, matcher and workflows

    A shallow embedding of [utils.py] and of the page handlers of
    [steamlit_app.py], and the properties of the specification checked
    against it.

    Modelling choices, all following the source:
    - Python floats are IEEE binary64, here Rocq's primitive floats; the
      literals [0.55] and [0.6] denote the same binary64 values in both.
    - The face encoder, the speaker model and scikit-learn's
      [cosine_similarity] are libraries outside the repository: what they
      compute is given by the methods of the class [Collaborators].  What
      loading the speaker model and the temporary file of a clip do to the
      file tree is written out.
    - The file system is a finite map from locations to nodes, with POSIX
      path resolution written out (no symbolic links, no permissions, no
      limits on name length).  The order in which a directory yields its
      entries is the system's, a component of the world.
      [np.save]/[np.load] and [json.dump]/[json.load] are library
      serialisers: a file holds the value that was serialised into it.
    - Python exceptions are an error monad over the world (file system,
      heap of dict objects, Streamlit screen, the module global
      [_speaker_model]); the world is kept when an exception is raised,
      as after a partial write.
    - A metadata dict is a heap object passed by reference. *)

From Stdlib Require Import Floats Ascii String.
From stdpp Require Import gmap strings list fin_maps.

Set Warnings "-inexact-float".
Set Default Proof Using "Type".

Local Open Scope string_scope.

(** ** Values *)

Definition bytes := list Byte.byte.

(** A one-dimensional numpy array of floats. *)
Definition vec := list float.

(** Scalars that a metadata dict holds and that JSON carries unchanged. *)
Inductive pyscalar :=
  | PyNone
  | PyBool (b : bool)
  | PyInt (z : Z)
  | PyFloat (f : float)
  | PyStr (s : string).

Abbreviation pydict := (gmap string pyscalar).

(** A reference to a dict object. *)
Abbreviation ref := positive.

(** ** Exceptions *)

Inductive exn :=
  | FileNotFoundError (msg : string)
  | FileExistsError
  | NotADirectoryError
  | IsADirectoryError
  | ValueError (msg : string)
  | LibraryError (msg : string).

Definition ENOENT : exn := FileNotFoundError "No such file or directory".

Definition is_FileNotFoundError (e : exn) : bool :=
  match e with FileNotFoundError _ => true | _ => false end.

Inductive outcome (A : Type) :=
  | Returns (a : A)
  | Raises (e : exn).
Arguments Returns {A} a.
Arguments Raises {A} e.

(** ** Paths (pathlib.PurePosixPath) *)

Module PurePath.

(** Cut a string at every slash.  The result is never empty. *)
Fixpoint split_slash (s : string) : list string :=
  match s with
  | EmptyString => [""]
  | String c r =>
      if Ascii.eqb c "/"%char then "" :: split_slash r
      else match split_slash r with
           | [] => [String c ""]
           | h :: t => String c h :: t
           end
  end.

Definition starts_with_slash (s : string) : bool :=
  match s with
  | String c _ => Ascii.eqb c "/"%char
  | EmptyString => false
  end.

(** pathlib drops empty components and ["."] when it parses; [".."] stays. *)
Definition kept (c : string) : bool :=
  negb (String.eqb c "") && negb (String.eqb c ".").

Record t := Make { anchored : bool; parts : list string }.

(** [Path(s)] *)
Definition Path (s : string) : t :=
  {| anchored := starts_with_slash s;
     parts := List.filter kept (split_slash s) |}.

(** [p / s]: an absolute right operand replaces the left one. *)
Definition joinpath (p : t) (s : string) : t :=
  let q := Path s in
  if anchored q then q
  else {| anchored := anchored p; parts := parts p ++ parts q |}.

(** A username that is one ordinary directory name. *)
Fixpoint no_slash_nul (s : string) : bool :=
  match s with
  | EmptyString => true
  | String c r =>
      negb (Ascii.eqb c "/"%char) && negb (Ascii.eqb c "000"%char) && no_slash_nul r
  end.

Definition plain_name (s : string) : bool :=
  no_slash_nul s && kept s && negb (String.eqb s "..").

End PurePath.

Notation "p // s" := (PurePath.joinpath p s) (at level 40, left associativity).

(** ** File system, heap and screen *)

(** A resolved absolute location, innermost name first; [[]] is the root. *)
Abbreviation location := (list string).

Inductive content :=
  | Npy (v : vec)
  | Json (d : pydict)
  | Raw (b : bytes).

Inductive node :=
  | Dir
  | File (c : content).

(** What the pages put on the screen.  Static decoration (titles, headers,
    hints shown on every run) is left out. *)
Inductive message :=
  | FaceMatch (score : float) (ok : bool)
  | VoiceMatch (score : float) (ok : bool)
  | AccessGranted
  | AccessDenied
  | EnterUsername
  | UploadBoth
  | ProvideAdminInputs
  | AdminAuthenticated
  | AdminAuthFailed
  | NoUsersFound
  | ProvideInitInputs
  | AdminInitialized (u : string)
  | UsersAlreadyExist
  | ProvideEnrollInputs
  | UsernameAlreadyExists
  | UserEnrolled (u : string)
  | AvailableUsers (us : list string)
  | NoUsersEnrolled
  | UserList (us : list string)
  | UserMeta (u : string) (d : pydict)
  | UserMetaError (u : string) (e : exn).

Inductive event :=
  | st_write (m : message)
  | st_success (m : message)
  | st_error (m : message)
  | st_info (m : message)
  | st_warning (m : message)
  | st_markdown (m : message)
  | st_exception (e : exn).

(** The order in which the system yields the entries of a directory: some
    rearrangement of them, the same one for the same entries. *)
Record listing := Listing {
  arrange :> list (string * node) → list (string * node);
  arrange_perm : ∀ l, arrange l ≡ₚ l }.

(** [speaker_model] tells whether the module global [_speaker_model] of
    [utils.py] holds the model. *)
Record world := World {
  cwd : location;
  files : gmap location node;
  heap : gmap ref pydict;
  screen : list event;
  speaker_model : bool;
  scandir : listing }.

Definition set_files (f : gmap location node → gmap location node) (w : world) : world :=
  {| cwd := cwd w; files := f (files w); heap := heap w; screen := screen w;
     speaker_model := speaker_model w; scandir := scandir w |}.

Definition set_heap (f : gmap ref pydict → gmap ref pydict) (w : world) : world :=
  {| cwd := cwd w; files := files w; heap := f (heap w); screen := screen w;
     speaker_model := speaker_model w; scandir := scandir w |}.

Definition set_screen (f : list event → list event) (w : world) : world :=
  {| cwd := cwd w; files := files w; heap := heap w; screen := f (screen w);
     speaker_model := speaker_model w; scandir := scandir w |}.

Definition set_speaker_model (b : bool) (w : world) : world :=
  {| cwd := cwd w; files := files w; heap := heap w; screen := screen w;
     speaker_model := b; scandir := scandir w |}.

(** Is there a directory, or a regular file, at location [k]? *)
Definition is_dir_at (t : gmap location node) (k : location) : bool :=
  match t !! k with Some Dir => true | _ => false end.

Definition is_file_at (t : gmap location node) (k : location) : bool :=
  match t !! k with Some (File _) => true | _ => false end.

(** ** The monad of Python computations *)

Definition py (A : Type) := world → outcome A * world.

Definition ret {A} (a : A) : py A := λ w, (Returns a, w).

Definition raise {A} (e : exn) : py A := λ w, (Raises e, w).

Definition bind {A B} (m : py A) (k : A → py B) : py B :=
  λ w, match m w with
       | (Returns a, w') => k a w'
       | (Raises e, w') => (Raises e, w')
       end.

(** [try: m  except Exception as e: h e] *)
Definition try_except {A} (m : py A) (h : exn → py A) : py A :=
  λ w, match m w with
       | (Returns a, w') => (Returns a, w')
       | (Raises e, w') => h e w'
       end.

(** [try: m  finally: c]: [c] runs whatever [m] did, and what [m] did
    stands unless [c] raises. *)
Definition try_finally {A} (m : py A) (c : py unit) : py A :=
  λ w, match m w with
       | (o, w') =>
           match c w' with
           | (Returns _, w'') => (o, w'')
           | (Raises e, w'') => (Raises e, w'')
           end
       end.

Definition lift {A} (o : outcome A) : py A := λ w, (o, w).

Definition gets {A} (f : world → A) : py A := λ w, (Returns (f w), w).

Declare Scope py_scope.
Delimit Scope py_scope with py.
Notation "x <- m ;; k" := (bind m (λ x, k))
  (at level 100, m at next level, right associativity) : py_scope.
Notation "m ;; k" := (bind m (λ _, k))
  (at level 100, right associativity) : py_scope.
Local Open Scope py_scope.

Definition emit (e : event) : py unit :=
  λ w, (Returns (), set_screen (λ s, (s ++ [e])%list) w).

(** [_speaker_model = ...]: the module global gets the model. *)
Definition assign_speaker_model : py unit :=
  λ w, (Returns (), set_speaker_model true w).

(** *** Dict objects *)

(** [{...}]: a new dict object. *)
Definition new_dict (d : pydict) : py ref :=
  λ w, let l := fresh (dom (heap w)) in
       (Returns l, set_heap (<[l := d]>) w).

Definition dict_read (l : ref) : py pydict :=
  gets (λ w, default ∅ (heap w !! l)).

(** [d.update({k: v})] *)
Definition dict_update (l : ref) (k : string) (v : pyscalar) : py unit :=
  λ w, (Returns (), set_heap (alter (<[k := v]>) l) w).

(** Truth value of a dict: false exactly when it is empty. *)
Definition dict_truthy (l : ref) : py bool :=
  d <- dict_read l ;; ret (negb (Nat.eqb (size d) 0)).

(** *** POSIX path resolution *)

(** Follow the components from [cur]; every directory that is entered or
    left through [".."] has to exist and be a directory. *)
Fixpoint walk (t : gmap location node) (cur : location) (ps : list string)
  : outcome location :=
  match ps with
  | [] => Returns cur
  | c :: rest =>
      match t !! cur with
      | Some Dir => walk t (if String.eqb c ".." then tail cur else c :: cur) rest
      | Some (File _) => Raises NotADirectoryError
      | None => Raises ENOENT
      end
  end.

Definition resolve (w : world) (p : PurePath.t) : outcome location :=
  walk (files w) (if PurePath.anchored p then [] else cwd w) (PurePath.parts p).

(** [os.mkdir(p)] *)
Definition os_mkdir (p : PurePath.t) : py unit :=
  λ w, match resolve w p with
       | Raises e => (Raises e, w)
       | Returns l =>
           match files w !! l with
           | Some _ => (Raises FileExistsError, w)
           | None => (Returns (), set_files (<[l := Dir]>) w)
           end
       end.

(** [p.is_dir()], [p.exists()]: resolution errors count as "no". *)
Definition is_dir (p : PurePath.t) : py bool :=
  gets (λ w, match resolve w p with
             | Returns l => match files w !! l with Some Dir => true | _ => false end
             | Raises _ => false
             end).

Definition exists_ (p : PurePath.t) : py bool :=
  gets (λ w, match resolve w p with
             | Returns l => bool_decide (is_Some (files w !! l))
             | Raises _ => false
             end).

(** [p.mkdir(exist_ok=True)] without [parents]. *)
Definition mkdir_exist_ok (p : PurePath.t) : py unit :=
  try_except (os_mkdir p) (λ e,
    if is_FileNotFoundError e then raise e
    else (d <- is_dir p ;; if d then ret () else raise e)).

(** [p.mkdir(parents=True, exist_ok=True)], by recursion on the reversed
    components of [p]: a missing parent is created first, then [p]. *)
Fixpoint mkdir_parents (anch : bool) (rparts : list string) : py unit :=
  let self := PurePath.Make anch (rev rparts) in
  try_except (os_mkdir self) (λ e,
    if is_FileNotFoundError e then
      match rparts with
      | [] => raise e
      | _ :: up => (mkdir_parents anch up ;; mkdir_exist_ok self)
      end
    else (d <- is_dir self ;; if d then ret () else raise e)).

Definition mkdir (p : PurePath.t) : py unit :=
  mkdir_parents (PurePath.anchored p) (rev (PurePath.parts p)).

(** [open(p, "w")] followed by writing [c], and [np.save(p, ...)]. *)
Definition write_file (p : PurePath.t) (c : content) : py unit :=
  λ w, match resolve w p with
       | Raises e => (Raises e, w)
       | Returns l =>
           match files w !! l with
           | Some Dir => (Raises IsADirectoryError, w)
           | _ => (Returns (), set_files (<[l := File c]>) w)
           end
       end.

(** [open(p, "r")] and reading the whole file. *)
Definition read_file (p : PurePath.t) : py content :=
  λ w, match resolve w p with
       | Raises e => (Raises e, w)
       | Returns l =>
           match files w !! l with
           | Some (File c) => (Returns c, w)
           | Some Dir => (Raises IsADirectoryError, w)
           | None => (Raises ENOENT, w)
           end
       end.

(** A node of the tree as an entry of directory [d], when it is one. *)
Definition child_of (d : location) (kn : location * node) : option (string * node) :=
  match fst kn with
  | n :: d' => if decide (d' = d) then Some (n, snd kn) else None
  | [] => None
  end.

(** What directory [d] holds: its entries by name. *)
Definition children (t : gmap location node) (d : location) : gmap string node :=
  list_to_map (omap (child_of d) (map_to_list t)).

(** The entries of directory [d], name and node, in the order the system
    yields them. *)
Definition entries (w : world) (d : location) : list (string * node) :=
  scandir w (map_to_list (children (files w) d)).

(** [p.iterdir()] *)
Definition iterdir (p : PurePath.t) : py (list (string * node)) :=
  λ w, match resolve w p with
       | Raises e => (Raises e, w)
       | Returns l =>
           match files w !! l with
           | Some Dir => (Returns (entries w l), w)
           | Some (File _) => (Raises NotADirectoryError, w)
           | None => (Raises ENOENT, w)
           end
       end.

(** [os.remove] of the file at location [l]. *)
Definition os_remove (l : location) : py unit :=
  λ w, match files w !! l with
       | Some (File _) => (Returns (), set_files (delete l) w)
       | Some Dir => (Raises IsADirectoryError, w)
       | None => (Raises ENOENT, w)
       end.

(** Reading the bytes of the file at location [l]. *)
Definition read_bytes (l : location) : py bytes :=
  λ w, match files w !! l with
       | Some (File (Raw b)) => (Returns b, w)
       | Some (File _) => (Raises (ValueError "not a sound file"), w)
       | Some Dir => (Raises IsADirectoryError, w)
       | None => (Raises ENOENT, w)
       end.

(** *** tempfile *)

(** The directory for temporary files: the first of [/tmp], [/var/tmp],
    [/usr/tmp] and the working directory that is a directory (no
    environment variable names another one). *)
Definition tempdir_candidates (w : world) : list location :=
  [["tmp"]; ["tmp"; "var"]; ["tmp"; "usr"]; cwd w].

Definition gettempdir (w : world) : option location :=
  List.find (is_dir_at (files w)) (tempdir_candidates w).

(** [tempfile.NamedTemporaryFile(delete=False, ...)], then [write],
    [flush] and [close]: a new file that holds [b], under a name that no
    entry of the directory has; its location is what [name] gives. *)
Definition NamedTemporaryFile (b : bytes) : py location :=
  λ w, match gettempdir w with
       | None => (Raises (FileNotFoundError "No usable temporary directory found"), w)
       | Some d =>
           let n := fresh (dom (children (files w) d)) in
           (Returns (n :: d), set_files (<[n :: d := File (Raw b)]>) w)
       end.

Definition np_save (p : PurePath.t) (v : vec) : py unit := write_file p (Npy v).

Definition np_load (p : PurePath.t) : py vec :=
  c <- read_file p ;;
  match c with
  | Npy v => ret v
  | _ => raise (ValueError "not a .npy file")
  end.

Definition json_load (p : PurePath.t) : py pydict :=
  c <- read_file p ;;
  match c with
  | Json d => ret d
  | _ => raise (ValueError "JSONDecodeError")
  end.

(** ** utils.py *)

(** The libraries the repository calls: [face_recognition] (image loading
    and [face_encodings]), SpeechBrain ([fetch] of a file of a pretrained
    model from its source, and the speaker model's [encode_file], squeezed
    to one dimension, on the bytes of a sound file) and scikit-learn's
    [cosine_similarity] on two one-row matrices.  Each may raise. *)
Class Collaborators := {
  face_encodings : bytes → outcome (list vec);
  fetch : string → string → outcome bytes;
  encode_file : bytes → outcome vec;
  cosine_similarity : vec → vec → outcome float }.

Definition BASE_USERS_DIR : string := "users".
Definition face_threshold : float := 0.55%float.
Definition voice_threshold : float := 0.6%float.

Definition speaker_source : string := "speechbrain/spkrec-ecapa-voxceleb".
Definition speaker_savedir : string := "pretrained_models/spkrec-ecapa-voxceleb".
Definition hparams_file : string := "hyperparams.yaml".

Section utils.
Context `{Collaborators}.

(** [SpeakerRecognition.from_hparams(source=..., savedir=...)], as the
    file tree sees it: the save directory is made, with its parents, and
    the hyperparameter file of the source is fetched into it.  The
    parameter files that this file names are fetched into the same
    directory; they are not listed one by one. *)
Definition from_hparams (source savedir : string) : py unit :=
  let d := PurePath.Path savedir in
  mkdir d ;;
  hp <- lift (fetch source hparams_file) ;;
  write_file (d // hparams_file) (Raw hp).

(** The model is loaded at the first call and kept in [_speaker_model]. *)
Definition get_speaker_model : py unit :=
  loaded <- gets speaker_model ;;
  if loaded then ret ()
  else
    (from_hparams speaker_source speaker_savedir ;;
     assign_speaker_model).

Definition get_face_encoding_from_image (image : bytes) : py vec :=
  encs <- lift (face_encodings image) ;;
  match encs with
  | [] => raise (ValueError "No face found in the image. Please upload a clear face image.")
  | e :: _ => ret e
  end.

(** The bytes go to the model through a temporary file, which is removed
    again whether the model raises or not. *)
Definition get_voice_embedding_from_wav (wav : bytes) : py vec :=
  get_speaker_model ;;
  temp_path <- NamedTemporaryFile wav ;;
  try_finally
    (sound <- read_bytes temp_path ;; lift (encode_file sound))
    (try_except (os_remove temp_path) (λ _, ret ())).

Definition cosine_score (a b : vec) : py float :=
  lift (cosine_similarity a b).

(** [score >= threshold, float(score)] *)
Definition is_face_match (enc1 enc2 : vec) (threshold : float) : py (bool * float) :=
  score <- cosine_score enc1 enc2 ;;
  ret (PrimFloat.leb threshold score, score).

Definition is_voice_match (enc1 enc2 : vec) (threshold : float) : py (bool * float) :=
  score <- cosine_score enc1 enc2 ;;
  ret (PrimFloat.leb threshold score, score).

Definition ensure_user_dir (base_dir username : string) : py PurePath.t :=
  let base := PurePath.Path base_dir in
  mkdir base ;;
  let ud := base // username in
  mkdir ud ;;
  ret ud.

(** [meta or {}]: the caller's dict when it is truthy, a new dict otherwise. *)
Definition meta_or_empty (meta : option ref) : py ref :=
  match meta with
  | None => new_dict ∅
  | Some l => t <- dict_truthy l ;; if t then ret l else new_dict ∅
  end.

Definition save_user_embeddings (base_dir username : string)
    (face_enc voice_enc : vec) (meta : option ref) : py unit :=
  ud <- ensure_user_dir base_dir username ;;
  np_save (ud // "face_enc.npy") face_enc ;;
  np_save (ud // "voice_enc.npy") voice_enc ;;
  meta_data <- meta_or_empty meta ;;
  dict_update meta_data "username" (PyStr username) ;;
  d <- dict_read meta_data ;;
  write_file (ud // "meta.json") (Json d).

Definition load_user_embeddings (base_dir username : string)
  : py (vec * vec * pydict) :=
  let ud := PurePath.Path base_dir // username in
  e <- exists_ ud ;;
  if negb e then raise (FileNotFoundError "User not found")
  else
    face_enc <- np_load (ud // "face_enc.npy") ;;
    voice_enc <- np_load (ud // "voice_enc.npy") ;;
    has_meta <- exists_ (ud // "meta.json") ;;
    meta <- (if has_meta then json_load (ud // "meta.json") else ret ∅) ;;
    ret (face_enc, voice_enc, meta).

Definition subdirectory (e : string * node) : option string :=
  match snd e with
  | Dir => Some (fst e)
  | File _ => None
  end.

Definition list_users (base_dir : string) : py (list string) :=
  let base := PurePath.Path base_dir in
  e <- exists_ base ;;
  if negb e then ret []
  else
    ps <- iterdir base ;;
    ret (omap subdirectory ps).

(** ** steamlit_app.py *)

Definition show_match_results (face_score : float) (face_ok : bool)
    (voice_score : float) (voice_ok : bool) : py unit :=
  emit (st_write (FaceMatch face_score face_ok)) ;;
  emit (st_write (VoiceMatch voice_score voice_ok)) ;;
  if face_ok && voice_ok then emit (st_success AccessGranted)
  else emit (st_error AccessDenied).

(** Truth value of a string: false exactly when it is empty. *)
Definition truthy (s : string) : bool := negb (String.eqb s "").


(** *** Authenticate *)
Record authenticate_inputs := {
  camera_input : option bytes;
  image_upload : option bytes;
  audio_file : option bytes;
  target_user : string;
  verify_button : bool }.

(** The camera capture when there is one, the uploaded image otherwise. *)
Definition img_input (i : authenticate_inputs) : option bytes :=
  match camera_input i with
  | Some b => Some b
  | None => image_upload i
  end.

Definition authenticate_page (i : authenticate_inputs) : py unit :=
  if verify_button i then
    if negb (truthy (target_user i)) then emit (st_error EnterUsername)
    else
      match audio_file i, img_input i with
      | Some wav_bytes, Some img_bytes =>
          try_except
            (face_enc_live <- get_face_encoding_from_image img_bytes ;;
             voice_enc_live <- get_voice_embedding_from_wav wav_bytes ;;
             stored <- load_user_embeddings BASE_USERS_DIR (target_user i) ;;
             let '(face_enc_stored, voice_enc_stored, _) := stored in
             fm <- is_face_match face_enc_live face_enc_stored face_threshold ;;
             vm <- is_voice_match voice_enc_live voice_enc_stored voice_threshold ;;
             show_match_results (snd fm) (fst fm) (snd vm) (fst vm))
            (λ e, emit (st_exception e))
      | _, _ => emit (st_error UploadBoth)
      end
  else ret ().

(** *** Admin Login / Enroll *)
Record admin_inputs := {
  admin_user : string;
  admin_img : option bytes;
  admin_audio : option bytes;
  admin_verify_button : bool;
  init_user : string;
  init_face : option bytes;
  init_voice : option bytes;
  create_admin_button : bool;
  admin_flag : bool;
  new_username : string;
  new_face : option bytes;
  new_voice : option bytes;
  enroll_button : bool }.

(** Step 1.  The value is the local variable [admin_authenticated]. *)
Definition admin_verify (i : admin_inputs) : py bool :=
  if admin_verify_button i then
    match truthy (admin_user i), admin_img i, admin_audio i with
    | true, Some img, Some audio =>
        try_except
          (face_enc_live <- get_face_encoding_from_image img ;;
           voice_enc_live <- get_voice_embedding_from_wav audio ;;
           stored <- load_user_embeddings BASE_USERS_DIR (admin_user i) ;;
           let '(face_enc_stored, voice_enc_stored, _) := stored in
           fm <- is_face_match face_enc_live face_enc_stored face_threshold ;;
           vm <- is_voice_match voice_enc_live voice_enc_stored voice_threshold ;;
           if fst fm && fst vm then (emit (st_success AdminAuthenticated) ;; ret true)
           else (emit (st_error AdminAuthFailed) ;; ret false))
          (λ e, emit (st_exception e) ;; ret false)
    | _, _, _ => emit (st_error ProvideAdminInputs) ;; ret false
    end
  else ret false.

(** Step 0.  The form exists only while [list_users] is empty. *)
Definition initialize_admin (i : admin_inputs) : py unit :=
  us <- list_users BASE_USERS_DIR ;;
  if Nat.eqb (length us) 0 then
    emit (st_warning NoUsersFound) ;;
    if create_admin_button i then
      match truthy (init_user i), init_face i, init_voice i with
      | true, Some face, Some voice =>
          try_except
            (fenc <- get_face_encoding_from_image face ;;
             venc <- get_voice_embedding_from_wav voice ;;
             meta <- new_dict {[ "role" := PyStr "admin" ]} ;;
             save_user_embeddings BASE_USERS_DIR (init_user i) fenc venc (Some meta) ;;
             emit (st_success (AdminInitialized (init_user i))))
            (λ e, emit (st_exception e))
      | _, _, _ => emit (st_error ProvideInitInputs)
      end
    else ret ()
  else emit (st_info UsersAlreadyExist).

(** The enrollment panel, shown when the checkbox [admin_flag] is ticked. *)
Definition enroll_panel (i : admin_inputs) : py unit :=
  if admin_flag i then
    if enroll_button i then
      match truthy (new_username i), new_face i, new_voice i with
      | true, Some face, Some voice =>
          us <- list_users BASE_USERS_DIR ;;
          if bool_decide (new_username i ∈ us) then emit (st_error UsernameAlreadyExists)
          else
            try_except
              (fenc <- get_face_encoding_from_image face ;;
               venc <- get_voice_embedding_from_wav voice ;;
               meta <- new_dict {[ "created_by" := PyStr "admin" ]} ;;
               save_user_embeddings BASE_USERS_DIR (new_username i) fenc venc (Some meta) ;;
               emit (st_success (UserEnrolled (new_username i))))
              (λ e, emit (st_exception e))
      | _, _, _ => emit (st_error ProvideEnrollInputs)
      end
    else ret ()
  else ret ().

(** One run of the page.  [admin_authenticated] is assigned and not read. *)
Definition admin_page (i : admin_inputs) : py unit :=
  admin_authenticated <- admin_verify i ;;
  initialize_admin i ;;
  enroll_panel i.

(** *** List Users *)
Fixpoint show_user_details (users : list string) : py unit :=
  match users with
  | [] => ret ()
  | u :: rest =>
      try_except
        (r <- load_user_embeddings BASE_USERS_DIR u ;;
         emit (st_write (UserMeta u (snd r))))
        (λ e, emit (st_write (UserMetaError u e))) ;;
      show_user_details rest
  end.

Definition list_users_page (details_button : bool) : py unit :=
  users <- list_users BASE_USERS_DIR ;;
  if Nat.eqb (length users) 0 then emit (st_info NoUsersEnrolled)
  else
    emit (st_write (UserList users)) ;;
    if details_button then show_user_details users else ret ().

End utils.

(** ** Stand-ins for the libraries, and small worlds, to run the model on *)

Definition float_of_byte (b : Byte.byte) : float :=
  PrimFloat.of_uint63 (Uint63.of_Z (Z.of_N (Byte.to_N b))).

Definition dot (a b : vec) : float :=
  foldr (λ xy acc, (fst xy * snd xy + acc)%float) 0%float (zip a b).

(** Cosine similarity computed in binary64, rows of zero norm left as they
    are; vectors of different length are refused. *)
Definition float_cosine (a b : vec) : outcome float :=
  if negb (Nat.eqb (length a) (length b)) then
    Raises (ValueError "Incompatible dimension for X and Y matrices")
  else
    let na := PrimFloat.sqrt (dot a a) in
    let nb := PrimFloat.sqrt (dot b b) in
    let na' := if PrimFloat.eqb na 0 then 1%float else na in
    let nb' := if PrimFloat.eqb nb 0 then 1%float else nb in
    Returns (dot a b / (na' * nb'))%float.

(** An image is read as one face whose encoding is its bytes; an empty
    image shows no face.  A clip is read likewise; an empty clip is refused. *)
Definition stub_models : Collaborators := {|
  face_encodings := λ b,
    match b with
    | [] => Returns []
    | _ => Returns [float_of_byte <$> b]
    end;
  fetch := λ _ _, Returns [];
  encode_file := λ b,
    match b with
    | [] => Raises (LibraryError "could not read audio")
    | _ => Returns (float_of_byte <$> b)
    end;
  cosine_similarity := float_cosine |}.

(** A system that yields the entries of a directory as the map has them. *)
Definition as_stored : listing := {| arrange := λ l, l; arrange_perm := λ l, reflexivity l |}.

(** A machine with the application directory [/app] and nothing else, the
    speaker model not loaded yet. *)
Definition fresh_world : world :=
  {| cwd := ["app"];
     files := {[ [] := Dir; ["app"] := Dir ]};
     heap := ∅;
     screen := [];
     speaker_model := false;
     scandir := as_stored |}.

Definition run {A} (m : py A) (w : world) : world := snd (m w).
Definition result {A} (m : py A) (w : world) : outcome A := fst (m w).

(** Sample biometric inputs for the stand-in models. *)
Definition alice_face : bytes := [Byte.x01; Byte.x00; Byte.x00; Byte.x00].
Definition alice_voice : bytes := [Byte.x00; Byte.x01; Byte.x00; Byte.x00].
Definition bob_face : bytes := [Byte.x00; Byte.x00; Byte.x01; Byte.x00].
Definition bob_voice : bytes := [Byte.x00; Byte.x00; Byte.x00; Byte.x01].

(** Pressing "Create Admin" with a username, an image and a clip. *)
Definition create_admin (u : string) (face voice : bytes) : admin_inputs :=
  {| admin_user := ""; admin_img := None; admin_audio := None;
     admin_verify_button := false;
     init_user := u; init_face := Some face; init_voice := Some voice;
     create_admin_button := true;
     admin_flag := false;
     new_username := ""; new_face := None; new_voice := None;
     enroll_button := false |}.

(** Ticking the checkbox and pressing "Enroll New User", the Admin Verify
    button untouched. *)
Definition enroll_unverified (u : string) (face voice : bytes) : admin_inputs :=
  {| admin_user := ""; admin_img := None; admin_audio := None;
     admin_verify_button := false;
     init_user := ""; init_face := None; init_voice := None;
     create_admin_button := false;
     admin_flag := true;
     new_username := u; new_face := Some face; new_voice := Some voice;
     enroll_button := true |}.

(** Pressing "Verify" with a username, an uploaded image and a clip. *)
Definition verify_with (u : string) (face voice : bytes) : authenticate_inputs :=
  {| camera_input := None; image_upload := Some face; audio_file := Some voice;
     target_user := u; verify_button := true |}.

(** A face at cosine 7/10 from alice's, a voice at cosine 1/2 from hers. *)
Definition tilted_face : bytes := [Byte.x07; Byte.x07; Byte.x01; Byte.x01].
Definition mixed_voice : bytes := [Byte.x01; Byte.x01; Byte.x01; Byte.x01].

(** A caller that holds an empty dict at reference 1. *)
Definition empty_meta_world : world := set_heap (<[1%positive := ∅]>) fresh_world.

(** The world after alice has been made the first admin. *)
Definition alice_world : world :=
  run (@admin_page stub_models (create_admin "alice" alice_face alice_voice))
      fresh_world.

(** A tree in which every node hangs in a directory. *)
Definition parent_is_dir (t : gmap location node) (k : location) : bool :=
  match k with
  | [] => true
  | _ :: d => match t !! d with Some Dir => true | _ => false end
  end.

Definition wf_tree (t : gmap location node) : Prop :=
  map_Forall (λ k _, parent_is_dir t k = true) t.

#[global] Instance wf_tree_dec t : Decision (wf_tree t).
Proof. unfold wf_tree. apply _. Defined.

(** The events a computation adds to the screen. *)
Definition shown {A} (m : py A) (w : world) : list event :=
  drop (length (screen w)) (screen (run m w)).

(** ** Predicates and views used in the statements *)

(** Only the file tree differs. *)
Definition same_env (w w' : world) : Prop :=
  cwd w' = cwd w ∧ heap w' = heap w ∧ screen w' = screen w ∧
  speaker_model w' = speaker_model w ∧ scandir w' = scandir w.

(** A computation that leaves the world as it found it. *)
Definition read_only {A} (m : py A) : Prop := ∀ w, snd (m w) = w.

(** The dict the caller handed over, as the heap has it. *)
Definition caller_dict (meta : option ref) (h : gmap ref pydict) : pydict :=
  match meta with
  | Some l => default ∅ (h !! l)
  | None => ∅
  end.

(** The object [meta or {}] denotes, and the heap once it exists. *)
Definition meta_object (meta : option ref) (h : gmap ref pydict)
  : ref * gmap ref pydict :=
  if negb (Nat.eqb (size (caller_dict meta h)) 0) then
    match meta with
    | Some l => (l, h)
    | None => (fresh (dom h), <[fresh (dom h) := ∅]> h)
    end
  else (fresh (dom h), <[fresh (dom h) := ∅]> h).

(** The heap once ["username"] has been set in that object. *)
Definition heap_after (meta : option ref) (u : string) (h : gmap ref pydict)
  : gmap ref pydict :=
  alter (<["username" := PyStr u]>) (meta_object meta h).1 (meta_object meta h).2.

(** The tree once a template is stored in directory [lu] under root [lb]. *)
Definition saved_files (lb lu : location) (f v : vec) (d : pydict)
    (t : gmap location node) : gmap location node :=
  <["meta.json" :: lu := File (Json d)]>
    (<["voice_enc.npy" :: lu := File (Npy v)]>
       (<["face_enc.npy" :: lu := File (Npy f)]>
          (<[lu := Dir]> (<[lb := Dir]> t)))).

(** The files of [w'] are those of [w] except at the locations in [K]. *)
Definition unchanged_outside (K : list location) (w w' : world) : Prop :=
  ∀ k, k ∉ K → files w' !! k = files w !! k.

(** The store root [b], the directory of user [u] and its three artifacts. *)
Definition template_locations (b u : string) (w : world) : list location :=
  [b :: cwd w; u :: b :: cwd w;
   "face_enc.npy" :: u :: b :: cwd w;
   "voice_enc.npy" :: u :: b :: cwd w;
   "meta.json" :: u :: b :: cwd w].

(** Worlds that look the same along the way to a user's artifacts. *)
Definition agree_on (K : list location) (w w2 : world) : Prop :=
  cwd w2 = cwd w ∧ ∀ k, k ∈ K → files w2 !! k = files w !! k.

(** Only the screen and the speaker model's being loaded may differ. *)
Definition same_store (w w' : world) : Prop :=
  cwd w' = cwd w ∧ files w' = files w ∧ heap w' = heap w ∧ scandir w' = scandir w.

(** A property of the world that a computation keeps, whatever its outcome. *)
Definition preserves (P : world → Prop) {A} (m : py A) : Prop :=
  ∀ w o w', P w → m w = (o, w') → P w'.

(** The tree is well formed and the working directory exists. *)
Definition good_world (w : world) : Prop :=
  wf_tree (files w) ∧ files w !! cwd w = Some Dir.

(** Nothing that [w0] holds is gone or has changed its kind in [w]:
    directories are still directories, regular files still regular files. *)
Definition kind_kept (w0 w : world) : Prop :=
  cwd w = cwd w0 ∧
  ∀ k, match files w0 !! k with
       | Some Dir => files w !! k = Some Dir
       | Some (File _) => ∃ c, files w !! k = Some (File c)
       | None => True
       end.

(** A location given by its components below a starting point, innermost
    first, and the locations above it up to the starting point. *)
Fixpoint uppers (rparts : list string) : list (list string) :=
  match rparts with
  | [] => [[]]
  | c :: up => (c :: up) :: uppers up
  end.

(** Where the speaker model is fetched to: the two directories of
    [speaker_savedir] and the hyperparameter file. *)
Definition model_locations (w : world) : list location :=
  ["pretrained_models" :: cwd w;
   "spkrec-ecapa-voxceleb" :: "pretrained_models" :: cwd w;
   "hyperparams.yaml" :: "spkrec-ecapa-voxceleb" :: "pretrained_models" :: cwd w].

(** The directory [pretrained_models] of the working directory, and the
    locations at or below it. *)
Definition model_dir (w : world) : location := "pretrained_models" :: cwd w.

Definition in_model_dir (w : world) (k : location) : Prop :=
  model_dir w `suffix_of` k.

(** [w'] is [w] but for the screen, the module global [_speaker_model] and
    what is in the directory [pretrained_models] of the working directory. *)
Definition same_but_model (w w' : world) : Prop :=
  cwd w' = cwd w ∧ heap w' = heap w ∧ scandir w' = scandir w ∧
  ∀ k, ¬ in_model_dir w k → files w' !! k = files w !! k.

(** A computation that neither reads nor writes the screen: what is on
    the screen can be added before or after it. *)
Definition screen_blind {A} (m : py A) : Prop :=
  ∀ f w, m (set_screen f w) = (fst (m w), set_screen f (snd (m w))).

(** Two outcomes of a load that agree on everything but the metadata. *)
Definition same_vectors (o o' : outcome (vec * vec * pydict)) : Prop :=
  match o, o' with
  | Returns (f, v, _), Returns (f', v', _) => f = f' ∧ v = v'
  | Raises e, Raises e' => e = e'
  | _, _ => False
  end.

(** What "Show user details" writes for one user. *)
Definition user_line (w : world) (u : string) : event :=
  match result (load_user_embeddings BASE_USERS_DIR u) w with
  | Returns r => st_write (UserMeta u (snd r))
  | Raises e => st_write (UserMetaError u e)
  end.

Section views.
Context `{Collaborators}.

(** The live face, the live voice and the stored template, in the order
    the page obtains them. *)
Definition verify_steps (img wav : bytes) (user : string)
  : py (vec * vec * (vec * vec * pydict)) :=
  face_enc_live <- get_face_encoding_from_image img ;;
  voice_enc_live <- get_voice_embedding_from_wav wav ;;
  stored <- load_user_embeddings BASE_USERS_DIR user ;;
  ret (face_enc_live, voice_enc_live, stored).

(** What a press of Verify with all three inputs puts on the screen. *)
Definition verify_events (img wav : bytes) (user : string) (w : world) : list event :=
  match result (verify_steps img wav user) w with
  | Raises e => [st_exception e]
  | Returns (fl, vl, (fs, vs, _)) =>
      match cosine_similarity fl fs with
      | Raises e => [st_exception e]
      | Returns sf =>
          match cosine_similarity vl vs with
          | Raises e => [st_exception e]
          | Returns sv =>
              [st_write (FaceMatch sf (PrimFloat.leb face_threshold sf));
               st_write (VoiceMatch sv (PrimFloat.leb voice_threshold sv));
               if PrimFloat.leb face_threshold sf && PrimFloat.leb voice_threshold sv
               then st_success AccessGranted else st_error AccessDenied]
          end
      end
  end.

(** What a press of "Admin Verify" with all three inputs decides, and what
    it reports. *)
Definition admin_verdict (img wav : bytes) (user : string) (w : world)
  : bool * event :=
  match result (verify_steps img wav user) w with
  | Raises e => (false, st_exception e)
  | Returns (fl, vl, (fs, vs, _)) =>
      match cosine_similarity fl fs with
      | Raises e => (false, st_exception e)
      | Returns sf =>
          match cosine_similarity vl vs with
          | Raises e => (false, st_exception e)
          | Returns sv =>
              if PrimFloat.leb face_threshold sf && PrimFloat.leb voice_threshold sv
              then (true, st_success AdminAuthenticated)
              else (false, st_error AdminAuthFailed)
          end
      end
  end.

(** The world an enrollment handler is left in when an extraction fails:
    the one it started in when the face fails, the one the voice
    extraction has left otherwise. *)
Definition after_extractions (face voice : bytes) (w : world) : world :=
  match result (get_face_encoding_from_image face) w with
  | Raises _ => w
  | Returns _ => run (get_voice_embedding_from_wav voice) w
  end.

(** Two outcomes of the three steps of a verification that agree on
    everything but the metadata. *)
Definition same_steps (o o' : outcome (vec * vec * (vec * vec * pydict))) : Prop :=
  match o, o' with
  | Returns (fl, vl, (fs, vs, _)), Returns (fl', vl', (fs', vs', _)) =>
      fl = fl' ∧ vl = vl' ∧ fs = fs' ∧ vs = vs'
  | Raises e, Raises e' => e = e'
  | _, _ => False
  end.

End views.

(** * Properties *)

(** ** Paths *)

Lemma split_slash_plain s :
  PurePath.no_slash_nul s = true → PurePath.split_slash s = [s].
Proof.
  induction s as [|c r IH]; simpl; [done|].
  intros Hs. apply andb_prop in Hs as [Hc Hr].
  apply andb_prop in Hc as [Hc _].
  apply negb_true_iff in Hc. rewrite Hc, (IH Hr). done.
Qed.

Lemma starts_with_slash_plain s :
  PurePath.no_slash_nul s = true → PurePath.starts_with_slash s = false.
Proof.
  destruct s as [|c r]; simpl; [done|].
  intros Hs. apply andb_prop in Hs as [Hc _].
  apply andb_prop in Hc as [Hc _]. by apply negb_true_iff in Hc.
Qed.

Lemma Path_plain s :
  PurePath.plain_name s = true →
  PurePath.Path s = PurePath.Make false [s].
Proof.
  unfold PurePath.plain_name, PurePath.Path. intros Hs.
  apply andb_prop in Hs as [Hs _]. apply andb_prop in Hs as [Hs Hk].
  rewrite starts_with_slash_plain, split_slash_plain by done.
  simpl. by rewrite Hk.
Qed.

Lemma plain_name_not_dotdot s :
  PurePath.plain_name s = true → String.eqb s ".." = false.
Proof.
  unfold PurePath.plain_name. intros Hs.
  apply andb_prop in Hs as [_ Hs]. by apply negb_true_iff in Hs.
Qed.

Lemma joinpath_plain p s :
  PurePath.plain_name s = true →
  p // s = PurePath.Make (PurePath.anchored p) (PurePath.parts p ++ [s]).
Proof. intros Hs. unfold PurePath.joinpath. by rewrite (Path_plain s Hs). Qed.

(** ** Path resolution *)

Lemma walk_app t c ps qs :
  walk t c (ps ++ qs) =
  match walk t c ps with
  | Returns l => walk t l qs
  | Raises e => Raises e
  end.
Proof.
  revert c. induction ps as [|p ps IH]; intros c; simpl; [done|].
  destruct (t !! c) as [[|?]|]; auto.
Qed.

(** Resolution only looks at which locations are directories. *)
Lemma walk_mono t t' c ps l :
  (∀ k, t !! k = Some Dir → t' !! k = Some Dir) →
  walk t c ps = Returns l → walk t' c ps = Returns l.
Proof.
  intros Hdir. revert c. induction ps as [|p ps IH]; intros c; simpl; [done|].
  destruct (t !! c) as [[|?]|] eqn:Hc; try done.
  rewrite (Hdir _ Hc). apply IH.
Qed.

Lemma walk_snoc t c ps l n :
  walk t c ps = Returns l → t !! l = Some Dir → String.eqb n ".." = false →
  walk t c (ps ++ [n]) = Returns (n :: l).
Proof. intros Hw Hl Hn. rewrite walk_app, Hw. simpl. by rewrite Hl, Hn. Qed.

Lemma resolve_mono w w' p l :
  cwd w' = cwd w →
  (∀ k, files w !! k = Some Dir → files w' !! k = Some Dir) →
  resolve w p = Returns l → resolve w' p = Returns l.
Proof. unfold resolve. intros -> Hdir. by apply walk_mono. Qed.

Lemma resolve_child w p n l :
  PurePath.plain_name n = true →
  resolve w p = Returns l → files w !! l = Some Dir →
  resolve w (p // n) = Returns (n :: l).
Proof.
  intros Hn Hp Hl. rewrite (joinpath_plain _ _ Hn). unfold resolve in *. simpl.
  apply walk_snoc; auto using plain_name_not_dotdot.
Qed.

Lemma insert_keeps_dirs (t : gmap location node) l nd :
  t !! l ≠ Some Dir →
  ∀ k, t !! k = Some Dir → <[l := nd]> t !! k = Some Dir.
Proof.
  intros Hl k Hk. destruct (decide (l = k)) as [->|Hne]; [done|].
  by rewrite lookup_insert_ne.
Qed.

(** ** The file-system calls *)

Lemma os_mkdir_returns p w w' :
  os_mkdir p w = (Returns (), w') →
  ∃ l, resolve w p = Returns l ∧ files w !! l = None ∧
       w' = set_files (<[l := Dir]>) w.
Proof.
  unfold os_mkdir. destruct (resolve w p) as [l|e]; [|done].
  destruct (files w !! l) eqn:Hl; [done|].
  intros [= <-]. eauto.
Qed.

Lemma os_mkdir_raises p w e w' :
  os_mkdir p w = (Raises e, w') → w' = w.
Proof.
  unfold os_mkdir. destruct (resolve w p) as [l|e0]; [|congruence].
  destruct (files w !! l); congruence.
Qed.

Lemma is_dir_true p w :
  fst (is_dir p w) = Returns true →
  ∃ l, resolve w p = Returns l ∧ files w !! l = Some Dir.
Proof.
  unfold is_dir, gets. simpl. destruct (resolve w p) as [l|]; [|done].
  destruct (files w !! l) as [[|?]|] eqn:Hl; try done. eauto.
Qed.

Lemma mkdir_exist_ok_returns p w w' :
  mkdir_exist_ok p w = (Returns (), w') →
  cwd w' = cwd w ∧ heap w' = heap w ∧ screen w' = screen w ∧
  ∃ l, resolve w p = Returns l ∧ files w' !! l = Some Dir ∧
       (w' = w ∨ files w !! l = None ∧ w' = set_files (<[l := Dir]>) w).
Proof.
  unfold mkdir_exist_ok, try_except.
  destruct (os_mkdir p w) as [[[]|e] w1] eqn:Hm.
  - intros [= <-]. apply os_mkdir_returns in Hm as (l & Hr & Hl & ->).
    repeat split; try done. exists l. simpl. rewrite lookup_insert_eq. eauto.
  - apply os_mkdir_raises in Hm as ->.
    destruct (is_FileNotFoundError e); [done|].
    unfold bind. destruct (is_dir p w) as [[b|?] w2] eqn:Hd; [|done].
    assert (w2 = w) as -> by (unfold is_dir, gets in Hd; congruence).
    destruct b; [|done]. intros [= <-].
    destruct (is_dir_true p w) as (l & Hr & Hl); [by rewrite Hd|].
    repeat split; try done. exists l. eauto.
Qed.

Lemma same_env_refl w : same_env w w.
Proof. by repeat split. Qed.

Lemma same_env_trans w1 w2 w3 : same_env w1 w2 → same_env w2 w3 → same_env w1 w3.
Proof. unfold same_env. intros (?&?&?&?&?) (?&?&?&?&?). repeat split; congruence. Qed.

Lemma same_env_set_files f w : same_env w (set_files f w).
Proof. by repeat split. Qed.

#[local] Hint Resolve same_env_refl same_env_set_files : core.

Lemma mkdir_exist_ok_env p w o w' :
  mkdir_exist_ok p w = (o, w') → same_env w w'.
Proof.
  unfold mkdir_exist_ok, try_except.
  destruct (os_mkdir p w) as [[[]|e] w1] eqn:Hm.
  - apply os_mkdir_returns in Hm as (l & _ & _ & ->). by intros [= <- <-].
  - apply os_mkdir_raises in Hm as ->.
    destruct (is_FileNotFoundError e); [by intros [= <- <-]|].
    unfold bind, is_dir, gets. simpl.
    match goal with |- context [if ?b then _ else _] => destruct b end;
      by intros [= <- <-].
Qed.

Lemma mkdir_parents_eq anch rparts :
  mkdir_parents anch rparts =
  let self := PurePath.Make anch (rev rparts) in
  try_except (os_mkdir self) (λ e,
    if is_FileNotFoundError e then
      match rparts with
      | [] => raise e
      | _ :: up => (mkdir_parents anch up ;; mkdir_exist_ok self)
      end
    else (d <- is_dir self ;; if d then ret () else raise e)).
Proof. by destruct rparts. Qed.

Lemma mkdir_parents_env anch rparts w o w' :
  mkdir_parents anch rparts w = (o, w') → same_env w w'.
Proof.
  revert w o w'. induction rparts as [|c up IH]; intros w o w';
    rewrite mkdir_parents_eq; cbv zeta; unfold try_except;
    (destruct (os_mkdir _ w) as [[[]|e] w1] eqn:Hm;
     [apply os_mkdir_returns in Hm as (l & _ & _ & ->); by intros [= <- <-]|];
     apply os_mkdir_raises in Hm as ->).
  - destruct (is_FileNotFoundError e); [by intros [= <- <-]|].
    unfold bind, is_dir, gets. simpl.
    match goal with |- context [if ?b then _ else _] => destruct b end;
      by intros [= <- <-].
  - destruct (is_FileNotFoundError e).
    + unfold bind. destruct (mkdir_parents anch up w) as [[[]|e1] w2] eqn:Hup.
      * intros Hok. eapply same_env_trans; [by eapply IH|by eapply mkdir_exist_ok_env].
      * intros [= <- <-]. by eapply IH.
    + unfold bind, is_dir, gets. simpl.
      match goal with |- context [if ?b then _ else _] => destruct b end;
        by intros [= <- <-].
Qed.

(** After [mkdir] has returned, the path names a directory. *)
Lemma mkdir_returns p w w' :
  mkdir p w = (Returns (), w') →
  same_env w w' ∧ ∃ l, resolve w' p = Returns l ∧ files w' !! l = Some Dir.
Proof.
  intros Hm. split; [by eapply mkdir_parents_env|].
  revert Hm. unfold mkdir. rewrite mkdir_parents_eq. cbv zeta.
  rewrite rev_involutive. destruct p as [anch ps]. simpl.
  set (self := PurePath.Make anch ps).
  unfold try_except.
  destruct (os_mkdir self w) as [[[]|e] w1] eqn:Hos.
  - intros [= <-]. apply os_mkdir_returns in Hos as (l & Hr & Hl & ->).
    exists l. split; [|by simpl; rewrite lookup_insert_eq].
    apply (resolve_mono w); [done| |done]. simpl.
    apply insert_keeps_dirs. by rewrite Hl.
  - apply os_mkdir_raises in Hos as ->.
    destruct (is_FileNotFoundError e).
    + destruct (rev ps) as [|c up]; [done|].
      unfold bind. destruct (mkdir_parents anch up w) as [[[]|e1] w2] eqn:Hup; [|done].
      intros Hok. destruct (mkdir_exist_ok_returns _ _ _ Hok) as (Hc & _ & _ & l & Hr & Hl & Hw).
      exists l. split; [|done].
      destruct Hw as [->|[Hnone ->]]; [done|].
      apply (resolve_mono w2); [done| |done]. simpl.
      apply insert_keeps_dirs. by rewrite Hnone.
    + unfold bind. destruct (is_dir self w) as [[b|?] w2] eqn:Hd; [|done].
      assert (w2 = w) as -> by (unfold is_dir, gets in Hd; congruence).
      destruct b; [|done]. intros [= <-].
      apply is_dir_true. by rewrite Hd.
Qed.

(** [mkdir] of one ordinary name inside an existing directory. *)
Lemma mkdir_child anch ps n l w :
  resolve w (PurePath.Make anch ps) = Returns l →
  files w !! l = Some Dir →
  String.eqb n ".." = false →
  mkdir (PurePath.Make anch (ps ++ [n])) w =
  match files w !! (n :: l) with
  | None => (Returns (), set_files (<[n :: l := Dir]>) w)
  | Some Dir => (Returns (), w)
  | Some (File _) => (Raises FileExistsError, w)
  end.
Proof.
  intros Hr Hl Hn. unfold mkdir. rewrite mkdir_parents_eq. cbv zeta.
  rewrite rev_involutive. simpl PurePath.anchored. simpl PurePath.parts.
  assert (resolve w (PurePath.Make anch (ps ++ [n])) = Returns (n :: l)) as Hself.
  { unfold resolve in *. simpl in *. by apply walk_snoc. }
  unfold try_except, os_mkdir. rewrite Hself.
  destruct (files w !! (n :: l)) as [nd|] eqn:Hnl; [|reflexivity].
  simpl. unfold bind, is_dir, gets. rewrite Hself, Hnl. by destruct nd.
Qed.

Lemma write_file_returns p c w w' :
  write_file p c w = (Returns (), w') →
  ∃ l, resolve w p = Returns l ∧ files w !! l ≠ Some Dir ∧
       w' = set_files (<[l := File c]>) w.
Proof.
  unfold write_file. destruct (resolve w p) as [l|e]; [|done].
  destruct (files w !! l) as [[|?]|] eqn:Hl; [done| |];
    intros [= <-]; exists l; by rewrite Hl.
Qed.

Lemma write_file_raises p c w e w' :
  write_file p c w = (Raises e, w') → w' = w.
Proof.
  unfold write_file. destruct (resolve w p) as [l|e0]; [|congruence].
  destruct (files w !! l) as [[|?]|]; congruence.
Qed.

Lemma write_file_at p c w l :
  resolve w p = Returns l → files w !! l ≠ Some Dir →
  write_file p c w = (Returns (), set_files (<[l := File c]>) w).
Proof.
  intros Hr Hl. unfold write_file. rewrite Hr.
  by destruct (files w !! l) as [[|?]|].
Qed.

(** *** Calls that leave the world as it is *)

Lemma read_only_ret {A} (a : A) : read_only (ret a).
Proof. done. Qed.

Lemma read_only_raise {A} e : read_only (@raise A e).
Proof. done. Qed.

Lemma read_only_lift {A} (o : outcome A) : read_only (lift o).
Proof. done. Qed.

Lemma read_only_gets {A} (f : world → A) : read_only (gets f).
Proof. done. Qed.

Lemma read_only_bind {A B} (m : py A) (k : A → py B) :
  read_only m → (∀ a, read_only (k a)) → read_only (bind m k).
Proof.
  intros Hm Hk w. unfold bind. specialize (Hm w).
  destruct (m w) as [[a|e] w1]; simpl in Hm; subst; [apply Hk|done].
Qed.

Lemma read_only_read_file p : read_only (read_file p).
Proof.
  intros w. unfold read_file. destruct (resolve w p) as [l|]; [|done].
  by destruct (files w !! l) as [[|?]|].
Qed.

Lemma read_only_iterdir p : read_only (iterdir p).
Proof.
  intros w. unfold iterdir. destruct (resolve w p) as [l|]; [|done].
  by destruct (files w !! l) as [[|?]|].
Qed.

Lemma read_only_np_load p : read_only (np_load p).
Proof.
  apply read_only_bind; [apply read_only_read_file|].
  intros [| |]; done.
Qed.

Lemma read_only_json_load p : read_only (json_load p).
Proof.
  apply read_only_bind; [apply read_only_read_file|].
  intros [| |]; done.
Qed.

Lemma read_only_run {A} (m : py A) w : read_only m → m w = (result m w, w).
Proof. intros Hm. unfold result. rewrite <-(Hm w) at 3. by destruct (m w). Qed.

Lemma bind_read_only {A B} (m : py A) (k : A → py B) w :
  read_only m →
  bind m k w =
  match result m w with
  | Returns a => k a w
  | Raises e => (Raises e, w)
  end.
Proof. intros Hm. unfold bind. by rewrite (read_only_run m w Hm). Qed.

(** ** The entries of a directory *)

Lemma NoDup_omap_inj {A B} (f : A → option B) (l : list A) :
  (∀ x y z, x ∈ l → y ∈ l → f x = Some z → f y = Some z → x = y) →
  NoDup l → NoDup (omap f l).
Proof.
  intros Hinj Hl. induction Hl as [|x l Hx Hl IH]; simpl; [constructor|].
  assert (NoDup (omap f l)) as IH'.
  { apply IH. intros a b z Ha Hb. apply Hinj; by constructor. }
  destruct (f x) as [z|] eqn:Hfx; [|done].
  constructor; [|done].
  intros Hz. apply list_elem_of_omap in Hz as (y & Hy & Hfy).
  assert (x = y) as -> by (eapply Hinj; eauto; by constructor).
  done.
Qed.

Lemma elem_of_child_entries (t : gmap location node) d n nd :
  (n, nd) ∈ omap (child_of d) (map_to_list t) ↔ t !! (n :: d) = Some nd.
Proof.
  rewrite list_elem_of_omap. split.
  - intros ([k x] & Hkx & Hf). apply elem_of_map_to_list in Hkx.
    unfold child_of in Hf. simpl in Hf. destruct k as [|n' d']; [done|].
    destruct (decide (d' = d)) as [->|]; [|done]. by simplify_eq.
  - intros Hn. exists (n :: d, nd). split; [by apply elem_of_map_to_list|].
    unfold child_of. simpl. by rewrite decide_True.
Qed.

Lemma NoDup_child_entries (t : gmap location node) d :
  NoDup (omap (child_of d) (map_to_list t)).
Proof.
  apply NoDup_omap_inj; [|apply NoDup_map_to_list].
  intros [k1 x1] [k2 x2] [n nd] _ _. unfold child_of. simpl.
  destruct k1 as [|n1 d1]; [done|]. destruct k2 as [|n2 d2]; [done|].
  destruct (decide (d1 = d)) as [->|]; [|done].
  destruct (decide (d2 = d)) as [->|]; [|done].
  by intros [= -> ->] [= -> ->].
Qed.

(** A directory holds under a name what the tree has one step below it. *)
Lemma lookup_children (t : gmap location node) (d : location) (n : string) :
  children t d !! n = t !! (n :: d).
Proof.
  apply option_eq. intros nd. unfold children.
  rewrite <-elem_of_list_to_map; [apply elem_of_child_entries|].
  apply NoDup_fmap_fst; [|apply NoDup_child_entries].
  intros x y1 y2 H1%elem_of_child_entries H2%elem_of_child_entries. congruence.
Qed.


Lemma elem_of_entries (w : world) d n nd :
  (n, nd) ∈ entries w d ↔ files w !! (n :: d) = Some nd.
Proof.
  unfold entries. rewrite (arrange_perm (scandir w)).
  by rewrite elem_of_map_to_list, lookup_children.
Qed.

Lemma NoDup_entries (w : world) d : NoDup (entries w d).
Proof.
  unfold entries. rewrite (arrange_perm (scandir w)). apply NoDup_map_to_list.
Qed.

Lemma elem_of_subdirectories (w : world) d n :
  n ∈ omap subdirectory (entries w d) ↔ files w !! (n :: d) = Some Dir.
Proof.
  rewrite list_elem_of_omap. split.
  - intros ([n' nd] & Hin & Hs). apply elem_of_entries in Hin.
    unfold subdirectory in Hs. simpl in Hs. destruct nd; by simplify_eq.
  - intros Hn. exists (n, Dir). by rewrite elem_of_entries.
Qed.

Lemma NoDup_subdirectories (w : world) d :
  NoDup (omap subdirectory (entries w d)).
Proof.
  apply NoDup_omap_inj; [|apply NoDup_entries].
  intros [n1 nd1] [n2 nd2] n H1 H2. unfold subdirectory. simpl.
  apply elem_of_entries in H1, H2.
  destruct nd1, nd2; try done. by intros [= ->] [= ->].
Qed.

(** ** The store: [list_users] *)

Lemma list_users_eq base w :
  list_users base w =
  (match resolve w (PurePath.Path base) with
   | Returns l =>
       match files w !! l with
       | Some Dir => Returns (omap subdirectory (entries w l))
       | Some (File _) => Raises NotADirectoryError
       | None => Returns []
       end
   | Raises _ => Returns []
   end, w).
Proof.
  unfold list_users, bind, exists_, gets, iterdir.
  destruct (resolve w (PurePath.Path base)) as [l|e] eqn:Hr; [|done].
  destruct (files w !! l) as [[|?]|] eqn:Hl; simpl; rewrite ?Hr, ?Hl; done.
Qed.

Lemma read_only_list_users base : read_only (list_users base).
Proof. intros w. by rewrite list_users_eq. Qed.


(** ** The store: [save_user_embeddings] and [load_user_embeddings] *)

Lemma meta_steps {B} meta u (k : pydict → py B) w :
  (meta_data <- meta_or_empty meta ;;
   dict_update meta_data "username" (PyStr u) ;;
   d <- dict_read meta_data ;;
   k d) w =
  k (<["username" := PyStr u]> (caller_dict meta (heap w)))
    (set_heap (heap_after meta u) w).
Proof.
  unfold set_heap, heap_after, meta_object, caller_dict.
  destruct meta as [l|]; simpl.
  - unfold bind at 1. unfold meta_or_empty, bind at 1, dict_truthy, bind at 1.
    unfold dict_read at 1, gets at 1. cbv beta iota. unfold ret at 1.
    destruct (negb (size (default ∅ (heap w !! l)) =? 0)%nat) eqn:Ht.
    + unfold ret at 1. unfold bind, dict_update, dict_read, gets, set_heap. simpl.
      rewrite lookup_alter_eq.
      destruct (heap w !! l) as [m|] eqn:Hm; simpl; [done|].
      simpl in Ht. by rewrite map_size_empty in Ht.
    + unfold new_dict, bind, dict_update, dict_read, gets, set_heap. simpl.
      rewrite alter_insert_eq, lookup_insert_eq. simpl.
      apply negb_false_iff, Nat.eqb_eq, map_size_empty_inv in Ht.
      by rewrite Ht.
  - unfold bind, meta_or_empty, new_dict, dict_update, dict_read, gets, set_heap. simpl.
    rewrite map_size_empty. simpl.
    by rewrite alter_insert_eq, lookup_insert_eq.
Qed.

Lemma ensure_user_dir_returns base u w ud w1 :
  ensure_user_dir base u w = (Returns ud, w1) →
  ud = PurePath.Path base // u ∧ same_env w w1 ∧
  ∃ l, resolve w1 ud = Returns l ∧ files w1 !! l = Some Dir.
Proof.
  unfold ensure_user_dir, bind.
  destruct (mkdir (PurePath.Path base) w) as [[[]|e] w0] eqn:Hb; [|done].
  destruct (mkdir (PurePath.Path base // u) w0) as [[[]|e] w0'] eqn:Hu; [|done].
  intros [= <- <-]. split; [done|].
  apply mkdir_returns in Hb as [Hb _]. apply mkdir_returns in Hu as [Hu Hl].
  split; [by eapply same_env_trans|done].
Qed.

Lemma location_ne_child (n : string) (l : location) : n :: l ≠ l.
Proof. intros Heq. apply (f_equal length) in Heq. simpl in Heq. lia. Qed.

(** Writing one artifact into the user's directory. *)
Lemma write_child_returns ud n c w w' l :
  PurePath.plain_name n = true →
  resolve w ud = Returns l → files w !! l = Some Dir →
  write_file (ud // n) c w = (Returns (), w') →
  files w !! (n :: l) ≠ Some Dir ∧
  w' = set_files (<[n :: l := File c]>) w ∧
  resolve w' ud = Returns l ∧ files w' !! l = Some Dir.
Proof.
  intros Hn Hr Hl Hw. apply write_file_returns in Hw as (l' & Hr' & Hl' & ->).
  rewrite (resolve_child _ _ _ _ Hn Hr Hl) in Hr'. injection Hr' as <-.
  split; [done|]. split; [done|]. split.
  - apply (resolve_mono w); [done| |done]. simpl. by apply insert_keeps_dirs.
  - simpl. rewrite lookup_insert_ne; [done|apply location_ne_child].
Qed.

Lemma write_child_at ud n c w l :
  PurePath.plain_name n = true →
  resolve w ud = Returns l → files w !! l = Some Dir →
  files w !! (n :: l) ≠ Some Dir →
  write_file (ud // n) c w = (Returns (), set_files (<[n :: l := File c]>) w).
Proof.
  intros Hn Hr Hl Hnd. apply write_file_at; [|done].
  by apply resolve_child.
Qed.

(** What a call that returns has done. *)
Lemma save_user_embeddings_returns base u f v meta w w' :
  save_user_embeddings base u f v meta w = (Returns (), w') →
  ∃ w1 l,
    ensure_user_dir base u w = (Returns (PurePath.Path base // u), w1) ∧
    resolve w1 (PurePath.Path base // u) = Returns l ∧
    files w1 !! l = Some Dir ∧
    resolve w' (PurePath.Path base // u) = Returns l ∧
    files w' !! l = Some Dir ∧
    cwd w' = cwd w ∧ screen w' = screen w ∧
    heap w' = heap_after meta u (heap w) ∧
    files w' =
      <["meta.json" :: l :=
          File (Json (<["username" := PyStr u]> (caller_dict meta (heap w))))]>
        (<["voice_enc.npy" :: l := File (Npy v)]>
           (<["face_enc.npy" :: l := File (Npy f)]> (files w1))).
Proof.
  unfold save_user_embeddings. unfold bind at 1.
  destruct (ensure_user_dir base u w) as [[ud|e] w1] eqn:He; [|done].
  destruct (ensure_user_dir_returns _ _ _ _ _ He) as (-> & (Hc & Hh & Hs & _) & l & Hr & Hl).
  unfold bind at 1, np_save.
  destruct (write_file _ (Npy f) w1) as [[[]|e] w2] eqn:H1; [|done].
  apply (write_child_returns _ _ _ _ _ l) in H1 as (_ & -> & Hr2 & Hl2); [|done..].
  unfold bind at 1.
  destruct (write_file _ (Npy v) _) as [[[]|e] w3] eqn:H2; [|done].
  apply (write_child_returns _ _ _ _ _ l) in H2 as (_ & -> & Hr3 & Hl3); [|done..].
  rewrite meta_steps. intros H3.
  apply (write_child_returns _ _ _ _ _ l) in H3 as (_ & -> & Hr4 & Hl4); [|done..].
  exists w1, l. do 3 (split; [done|]).
  split; [exact Hr4|]. split; [exact Hl4|].
  simpl. by rewrite Hh.
Qed.

Lemma read_child_at ud n c w l :
  PurePath.plain_name n = true →
  resolve w ud = Returns l → files w !! l = Some Dir →
  files w !! (n :: l) = Some (File c) →
  read_file (ud // n) w = (Returns c, w).
Proof.
  intros Hn Hr Hl Hf. unfold read_file.
  by rewrite (resolve_child _ _ _ _ Hn Hr Hl), Hf.
Qed.

Lemma exists_child_at ud n nd w l :
  PurePath.plain_name n = true →
  resolve w ud = Returns l → files w !! l = Some Dir →
  files w !! (n :: l) = Some nd →
  exists_ (ud // n) w = (Returns true, w).
Proof.
  intros Hn Hr Hl Hf. unfold exists_, gets.
  by rewrite (resolve_child _ _ _ _ Hn Hr Hl), Hf.
Qed.

Lemma load_user_embeddings_at base u w l f v d :
  resolve w (PurePath.Path base // u) = Returns l →
  files w !! l = Some Dir →
  files w !! ("face_enc.npy" :: l) = Some (File (Npy f)) →
  files w !! ("voice_enc.npy" :: l) = Some (File (Npy v)) →
  files w !! ("meta.json" :: l) = Some (File (Json d)) →
  load_user_embeddings base u w = (Returns (f, v, d), w).
Proof.
  intros Hr Hl Hf Hv Hm. unfold load_user_embeddings.
  unfold bind at 1. unfold exists_ at 1, gets. rewrite Hr, Hl. simpl.
  unfold bind at 1, np_load, bind at 1.
  rewrite (read_child_at _ "face_enc.npy" _ _ l eq_refl Hr Hl Hf). unfold ret at 1.
  unfold bind at 1, bind at 1.
  rewrite (read_child_at _ "voice_enc.npy" _ _ l eq_refl Hr Hl Hv). unfold ret at 1.
  unfold bind at 1.
  rewrite (exists_child_at _ "meta.json" _ _ l eq_refl Hr Hl Hm).
  unfold bind at 1, json_load, bind at 1.
  by rewrite (read_child_at _ "meta.json" _ _ l eq_refl Hr Hl Hm).
Qed.

Lemma read_only_exists_ p : read_only (exists_ p).
Proof. done. Qed.

Lemma read_only_load_user_embeddings base u :
  read_only (load_user_embeddings base u).
Proof.
  unfold load_user_embeddings.
  apply read_only_bind; [apply read_only_exists_|]. intros [|]; simpl; [|done].
  apply read_only_bind; [apply read_only_np_load|]. intros f.
  apply read_only_bind; [apply read_only_np_load|]. intros v.
  apply read_only_bind; [apply read_only_exists_|]. intros b.
  apply read_only_bind; [|done].
  destruct b; [apply read_only_json_load|done].
Qed.

(** What was saved is what is loaded. *)
Lemma save_load_roundtrip base u f v meta w w' :
  save_user_embeddings base u f v meta w = (Returns (), w') →
  load_user_embeddings base u w' =
  (Returns (f, v, <["username" := PyStr u]> (caller_dict meta (heap w))), w').
Proof.
  intros Hs.
  destruct (save_user_embeddings_returns _ _ _ _ _ _ _ Hs)
    as (w1 & l & _ & _ & _ & Hr & Hl & _ & _ & _ & Hf).
  apply (load_user_embeddings_at _ _ _ l); [done..| | |]; rewrite Hf.
  - do 2 (rewrite lookup_insert_ne by done). by rewrite lookup_insert_eq.
  - rewrite lookup_insert_ne by done. by rewrite lookup_insert_eq.
  - by rewrite lookup_insert_eq.
Qed.

(** ** The matcher *)

Section matcher.
Context `{Collaborators}.

Lemma read_only_get_face_encoding_from_image img :
  read_only (get_face_encoding_from_image img).
Proof.
  apply read_only_bind; [apply read_only_lift|]. intros [|? ?]; done.
Qed.

(** The temporary file: made under a name that is free, read by the model,
    removed.  The tree is then as it was before. *)
Lemma temporary_file_steps wav w :
  (temp_path <- NamedTemporaryFile wav ;;
   try_finally
     (sound <- read_bytes temp_path ;; lift (encode_file sound))
     (try_except (os_remove temp_path) (λ _, ret ()))) w =
  (match gettempdir w with
   | Some _ => encode_file wav
   | None => Raises (FileNotFoundError "No usable temporary directory found")
   end, w).
Proof.
  unfold bind at 1, NamedTemporaryFile.
  destruct (gettempdir w) as [d|]; [|done].
  set (n := fresh (dom (children (files w) d))).
  assert (files w !! (n :: d) = None) as Hfree.
  { rewrite <-lookup_children. apply not_elem_of_dom. apply is_fresh. }
  assert (files (set_files (<[n :: d := File (Raw wav)]>) w) !! (n :: d)
          = Some (File (Raw wav))) as Hnew by apply lookup_insert_eq.
  assert (set_files (delete (n :: d)) (set_files (<[n :: d := File (Raw wav)]>) w) = w)
    as Hback.
  { destruct w as [c t h s m o]. unfold set_files. simpl in *.
    by rewrite delete_insert_id. }
  unfold try_finally, bind, read_bytes, try_except, os_remove, lift.
  by rewrite !Hnew, Hback.
Qed.

(** A voice extraction asks for the speaker model, and then gives what the
    model computes from the clip; the world it leaves is the one the
    request for the model has left. *)
Lemma get_voice_embedding_from_wav_eq wav w :
  get_voice_embedding_from_wav wav w =
  (match result get_speaker_model w with
   | Returns _ =>
       match gettempdir (run get_speaker_model w) with
       | Some _ => encode_file wav
       | None => Raises (FileNotFoundError "No usable temporary directory found")
       end
   | Raises e => Raises e
   end, run get_speaker_model w).
Proof.
  unfold get_voice_embedding_from_wav, result, run. unfold bind at 1.
  destruct (get_speaker_model w) as [[[]|e] w1]; [|done].
  by rewrite temporary_file_steps.
Qed.

Lemma run_get_voice_embedding_from_wav wav w :
  run (get_voice_embedding_from_wav wav) w = run get_speaker_model w.
Proof. unfold run at 1. by rewrite get_voice_embedding_from_wav_eq. Qed.

Lemma write_file_env p c w o w' : write_file p c w = (o, w') → same_env w w'.
Proof.
  destruct o as [[]|e]; intros Hw.
  - apply write_file_returns in Hw as (l & _ & _ & ->). auto.
  - apply write_file_raises in Hw as ->. auto.
Qed.

Lemma from_hparams_env source savedir w o w' :
  from_hparams source savedir w = (o, w') → same_env w w'.
Proof.
  unfold from_hparams. unfold bind at 1.
  destruct (mkdir (PurePath.Path savedir) w) as [[[]|e] w1] eqn:Hm;
    apply mkdir_parents_env in Hm; [|by intros [= <- <-]].
  unfold bind, lift. destruct (fetch source hparams_file) as [hp|e];
    [|by intros [= <- <-]].
  intros Hw%write_file_env. by eapply same_env_trans.
Qed.

Lemma get_speaker_model_eq w :
  get_speaker_model w =
  if speaker_model w then (Returns (), w)
  else match from_hparams speaker_source speaker_savedir w with
       | (Returns _, w1) => (Returns (), set_speaker_model true w1)
       | (Raises e, w1) => (Raises e, w1)
       end.
Proof.
  unfold get_speaker_model. unfold bind at 1, gets.
  destruct (speaker_model w); [done|]. unfold bind, assign_speaker_model.
  by destruct (from_hparams speaker_source speaker_savedir w) as [[[]|e] w1].
Qed.

(** Asking for the model leaves working directory, heap, screen and the
    system's listing order as they are. *)
Lemma get_speaker_model_env w :
  cwd (run get_speaker_model w) = cwd w ∧
  heap (run get_speaker_model w) = heap w ∧
  screen (run get_speaker_model w) = screen w ∧
  scandir (run get_speaker_model w) = scandir w.
Proof.
  unfold run. rewrite get_speaker_model_eq.
  destruct (speaker_model w); [done|].
  destruct (from_hparams speaker_source speaker_savedir w) as [[[]|e] w1] eqn:Hf;
    apply from_hparams_env in Hf as (? & ? & ? & ? & ?); by split_and!.
Qed.

Lemma get_voice_embedding_from_wav_env wav w :
  cwd (run (get_voice_embedding_from_wav wav) w) = cwd w ∧
  heap (run (get_voice_embedding_from_wav wav) w) = heap w ∧
  screen (run (get_voice_embedding_from_wav wav) w) = screen w ∧
  scandir (run (get_voice_embedding_from_wav wav) w) = scandir w.
Proof. rewrite run_get_voice_embedding_from_wav. apply get_speaker_model_env. Qed.

Lemma read_only_is_face_match a b t : read_only (is_face_match a b t).
Proof. apply read_only_bind; [apply read_only_lift|done]. Qed.

Lemma read_only_is_voice_match a b t : read_only (is_voice_match a b t).
Proof. apply read_only_bind; [apply read_only_lift|done]. Qed.

Lemma is_face_match_eq a b t w :
  is_face_match a b t w =
  (match cosine_similarity a b with
   | Returns s => Returns (PrimFloat.leb t s, s)
   | Raises e => Raises e
   end, w).
Proof.
  unfold is_face_match, bind, cosine_score, lift.
  by destruct (cosine_similarity a b).
Qed.

Lemma is_voice_match_eq a b t w :
  is_voice_match a b t w =
  (match cosine_similarity a b with
   | Returns s => Returns (PrimFloat.leb t s, s)
   | Raises e => Raises e
   end, w).
Proof.
  unfold is_voice_match, bind, cosine_score, lift.
  by destruct (cosine_similarity a b).
Qed.

(** C8: for vectors of the same dimension whose cosine similarity the
    library computes as [s], both match functions return the pair of
    [t <= s] (as binary64 numbers) and [s]; the face threshold used by
    default is 0.55 and the voice threshold 0.6. *)
Theorem decide_is_score_at_least_threshold (a b : vec) (t s : float) (w : world) :
  length a = length b →
  cosine_similarity a b = Returns s →
  is_face_match a b t w = (Returns (PrimFloat.leb t s, s), w) ∧
  is_voice_match a b t w = (Returns (PrimFloat.leb t s, s), w) ∧
  cosine_score a b w = (Returns s, w) ∧
  face_threshold = 0.55%float ∧ voice_threshold = 0.6%float.
Proof.
  intros _ Hs. rewrite is_face_match_eq, is_voice_match_eq.
  unfold cosine_score, lift. by rewrite Hs.
Qed.

End matcher.

Lemma decide_is_score_at_least_threshold_witness :
  length [3; 4]%float = length [5; 0]%float ∧
  @is_face_match stub_models [3; 4]%float [5; 0]%float 0.55%float fresh_world =
    (Returns (true, 0.6%float), fresh_world) ∧
  @is_voice_match stub_models [3; 4]%float [5; 0]%float 0.6%float fresh_world =
    (Returns (true, 0.6%float), fresh_world).
Proof.
  split; [reflexivity|].
  destruct (@decide_is_score_at_least_threshold stub_models
              [3; 4]%float [5; 0]%float 0.55%float 0.6%float fresh_world)
    as (Hf & _); [reflexivity | vm_compute; reflexivity |].
  destruct (@decide_is_score_at_least_threshold stub_models
              [3; 4]%float [5; 0]%float 0.6%float 0.6%float fresh_world)
    as (_ & Hv & _); [reflexivity | vm_compute; reflexivity |].
  split; [exact Hf | exact Hv].
Defined.

(** ** Verification *)

Lemma shown_eq {A} (m : py A) w evs :
  screen (run m w) = (screen w ++ evs)%list → shown m w = evs.
Proof. unfold shown. intros ->. apply drop_app_length. Qed.

Lemma emit_eq e w : emit e w = (Returns (), set_screen (λ s, (s ++ [e])%list) w).
Proof. done. Qed.

Lemma show_match_results_eq fs fo vs vo w :
  show_match_results fs fo vs vo w =
  (Returns (),
   set_screen (λ s, (s ++ [st_write (FaceMatch fs fo); st_write (VoiceMatch vs vo);
                           if fo && vo then st_success AccessGranted
                           else st_error AccessDenied])%list) w).
Proof.
  unfold show_match_results, bind, emit, set_screen. simpl.
  destruct (fo && vo); simpl; by rewrite <-!app_assoc.
Qed.

Lemma bind_eq {A B} (m : py A) (k : A → py B) w :
  bind m k w =
  match result m w with
  | Returns a => k a (run m w)
  | Raises e => (Raises e, run m w)
  end.
Proof. unfold bind, result, run. by destruct (m w) as [[a|e] w']. Qed.

Section verification.
Context `{Collaborators}.

(** The three steps in the order of the source; the store is read in the
    world the voice extraction has left. *)
Lemma verify_steps_eq img wav user w :
  verify_steps img wav user w =
  match result (get_face_encoding_from_image img) w with
  | Raises e => (Raises e, w)
  | Returns fl =>
      match get_voice_embedding_from_wav wav w with
      | (Raises e, w1) => (Raises e, w1)
      | (Returns vl, w1) =>
          match result (load_user_embeddings BASE_USERS_DIR user) w1 with
          | Raises e => (Raises e, w1)
          | Returns stored => (Returns (fl, vl, stored), w1)
          end
      end
  end.
Proof.
  unfold verify_steps.
  rewrite bind_read_only by apply read_only_get_face_encoding_from_image.
  destruct (result (get_face_encoding_from_image img) w) as [fl|e]; [|done].
  unfold bind at 1.
  destruct (get_voice_embedding_from_wav wav w) as [[vl|e] w1]; [|done].
  rewrite bind_read_only by apply read_only_load_user_embeddings.
  by destruct (result (load_user_embeddings _ _) w1).
Qed.

Lemma authenticate_page_verify i img wav w :
  verify_button i = true → truthy (target_user i) = true →
  img_input i = Some img → audio_file i = Some wav →
  authenticate_page i w =
  (Returns (),
   set_screen (λ s, (s ++ verify_events img wav (target_user i) w)%list)
              (run (verify_steps img wav (target_user i)) w)).
Proof.
  intros Hb Hu Hi Ha. unfold authenticate_page, verify_events, result, run.
  rewrite Hb, Hu, Hi, Ha, verify_steps_eq. simpl.
  unfold try_except.
  rewrite bind_read_only by apply read_only_get_face_encoding_from_image.
  destruct (result (get_face_encoding_from_image img) w) as [fl|e]; [|done].
  unfold bind at 1.
  destruct (get_voice_embedding_from_wav wav w) as [[vl|e] w1]; [|done].
  rewrite bind_read_only by apply read_only_load_user_embeddings.
  destruct (result (load_user_embeddings _ _) w1) as [[[fs vs] m]|e]; [|done].
  simpl. unfold bind at 1. rewrite is_face_match_eq.
  destruct (cosine_similarity fl fs) as [sf|e]; [|done].
  unfold bind at 1. rewrite is_voice_match_eq.
  destruct (cosine_similarity vl vs) as [sv|e]; [|done].
  by rewrite show_match_results_eq.
Qed.

(** The three steps change the tree and the module global only. *)
Lemma verify_steps_env img wav user w :
  cwd (run (verify_steps img wav user) w) = cwd w ∧
  heap (run (verify_steps img wav user) w) = heap w ∧
  screen (run (verify_steps img wav user) w) = screen w ∧
  scandir (run (verify_steps img wav user) w) = scandir w.
Proof.
  unfold run at 1 2 3 4. rewrite verify_steps_eq.
  destruct (result (get_face_encoding_from_image img) w) as [fl|e]; [|done].
  pose proof (get_voice_embedding_from_wav_env wav w) as Henv. unfold run in Henv.
  destruct (get_voice_embedding_from_wav wav w) as [[vl|e] w1]; [|done].
  by destruct (result (load_user_embeddings _ _) w1).
Qed.

Lemma authenticate_page_shown i img wav w :
  verify_button i = true → truthy (target_user i) = true →
  img_input i = Some img → audio_file i = Some wav →
  shown (authenticate_page i) w = verify_events img wav (target_user i) w.
Proof.
  intros Hb Hu Hi Ha. unfold shown, run at 1.
  rewrite (authenticate_page_verify i img wav w Hb Hu Hi Ha). simpl.
  destruct (verify_steps_env img wav (target_user i) w) as (_ & _ & -> & _).
  apply drop_app_length.
Qed.

Lemma authenticate_page_idle i w :
  verify_button i = false ∨ truthy (target_user i) = false ∨
  img_input i = None ∨ audio_file i = None →
  st_success AccessGranted ∉ shown (authenticate_page i) w.
Proof.
  intros Hidle. unfold shown, run, authenticate_page, emit, ret.
  destruct (verify_button i); simpl;
    [|rewrite drop_all; apply not_elem_of_nil].
  destruct (truthy (target_user i)); simpl.
  - destruct (audio_file i), (img_input i); simpl;
      try (rewrite drop_app_length; by intros ?%list_elem_of_singleton).
    destruct Hidle as [?|[?|[?|?]]]; done.
  - rewrite drop_app_length. by intros ?%list_elem_of_singleton.
Qed.

End verification.

(** ** Saving under an ordinary name *)

Lemma set_files_id (k : location) w :
  files w !! k = Some Dir → set_files (<[k := Dir]>) w = w.
Proof.
  intros Hk. destruct w as [c t h s m o]. unfold set_files. simpl in *.
  by rewrite insert_id.
Qed.

Lemma is_dir_at_false t k : is_dir_at t k = false ↔ t !! k ≠ Some Dir.
Proof. unfold is_dir_at. destruct (t !! k) as [[|?]|]; naive_solver. Qed.

(** [mkdir] of an ordinary name where no regular file is in the way. *)
Lemma mkdir_child_ok anch ps n l w :
  resolve w (PurePath.Make anch ps) = Returns l →
  files w !! l = Some Dir →
  PurePath.plain_name n = true →
  is_file_at (files w) (n :: l) = false →
  mkdir (PurePath.Make anch (ps ++ [n])) w =
  (Returns (), set_files (<[n :: l := Dir]>) w).
Proof.
  intros Hr Hl Hn Hf.
  rewrite (mkdir_child anch ps n l w Hr Hl (plain_name_not_dotdot _ Hn)).
  unfold is_file_at in Hf.
  destruct (files w !! (n :: l)) as [[|?]|] eqn:Hnl; try done.
  by rewrite set_files_id.
Qed.

Lemma ensure_user_dir_plain b u w :
  PurePath.plain_name b = true → PurePath.plain_name u = true →
  files w !! cwd w = Some Dir →
  is_file_at (files w) (b :: cwd w) = false →
  is_file_at (files w) (u :: b :: cwd w) = false →
  ensure_user_dir b u w =
  (Returns (PurePath.Path b // u),
   set_files (λ t, <[u :: b :: cwd w := Dir]> (<[b :: cwd w := Dir]> t)) w).
Proof.
  intros Hb Hu Hc Hfb Hfu. unfold ensure_user_dir.
  rewrite (joinpath_plain _ _ Hu), (Path_plain _ Hb). simpl.
  pose proof (mkdir_child_ok false [] b (cwd w) w eq_refl Hc Hb Hfb) as Hm1.
  simpl in Hm1. unfold bind at 1. rewrite Hm1.
  set (w1 := set_files (<[b :: cwd w := Dir]>) w).
  assert (<[b :: cwd w := Dir]> (files w) !! cwd w = Some Dir) as Hc1.
  { rewrite lookup_insert_ne; [done|apply location_ne_child]. }
  assert (mkdir (PurePath.Make false ([b] ++ [u])) w1 =
          (Returns (), set_files (<[u :: b :: cwd w := Dir]>) w1)) as Hm2.
  { apply mkdir_child_ok; [| |done|].
    - unfold resolve. simpl. by rewrite Hc1, (plain_name_not_dotdot _ Hb).
    - simpl. by rewrite lookup_insert_eq.
    - unfold is_file_at in *. simpl.
      rewrite lookup_insert_ne; [done|]. intros Heq.
      by apply (location_ne_child u (b :: cwd w)). }
  simpl in Hm2. unfold bind at 1. by rewrite Hm2.
Qed.

(** The three writes and the dict steps in between, in a directory that
    exists and holds no directory under the artifacts' names. *)
Lemma save_artifacts ud l u f v meta w :
  resolve w ud = Returns l → files w !! l = Some Dir →
  is_dir_at (files w) ("face_enc.npy" :: l) = false →
  is_dir_at (files w) ("voice_enc.npy" :: l) = false →
  is_dir_at (files w) ("meta.json" :: l) = false →
  (np_save (ud // "face_enc.npy") f ;;
   np_save (ud // "voice_enc.npy") v ;;
   meta_data <- meta_or_empty meta ;;
   dict_update meta_data "username" (PyStr u) ;;
   d <- dict_read meta_data ;;
   write_file (ud // "meta.json") (Json d)) w =
  (Returns (),
   {| cwd := cwd w;
      files :=
        <["meta.json" :: l :=
            File (Json (<["username" := PyStr u]> (caller_dict meta (heap w))))]>
          (<["voice_enc.npy" :: l := File (Npy v)]>
             (<["face_enc.npy" :: l := File (Npy f)]> (files w)));
      heap := heap_after meta u (heap w);
      screen := screen w;
      speaker_model := speaker_model w; scandir := scandir w |}).
Proof.
  intros Hr Hl Hf Hv Hm. apply is_dir_at_false in Hf, Hv, Hm.
  unfold bind at 1, np_save.
  rewrite (write_child_at ud "face_enc.npy" (Npy f) w l eq_refl Hr Hl Hf).
  set (w1 := set_files _ w).
  assert (resolve w1 ud = Returns l) as Hr1.
  { apply (resolve_mono w); [done| |done]. simpl. by apply insert_keeps_dirs. }
  assert (files w1 !! l = Some Dir) as Hl1.
  { simpl. rewrite lookup_insert_ne; [done|apply location_ne_child]. }
  unfold bind at 1.
  rewrite (write_child_at ud "voice_enc.npy" (Npy v) w1 l eq_refl Hr1 Hl1);
    [|by simpl; rewrite lookup_insert_ne].
  set (w2 := set_files _ w1).
  assert (resolve w2 ud = Returns l) as Hr2.
  { apply (resolve_mono w1); [done| |done]. simpl. apply insert_keeps_dirs.
    by simpl; rewrite lookup_insert_ne. }
  assert (files w2 !! l = Some Dir) as Hl2.
  { simpl. rewrite lookup_insert_ne; [done|apply location_ne_child]. }
  rewrite meta_steps.
  rewrite (write_child_at ud "meta.json" _ _ l eq_refl); [done|done|done|].
  simpl. by rewrite !lookup_insert_ne.
Qed.

Lemma location_ne_grandchild (a b : string) (l : location) : a :: b :: l ≠ l.
Proof. intros Heq. apply (f_equal length) in Heq. simpl in Heq. lia. Qed.

Lemma saved_files_root_child lb u f v d t n :
  saved_files lb (u :: lb) f v d t !! (n :: lb) =
  if decide (n = u) then Some Dir else t !! (n :: lb).
Proof.
  unfold saved_files.
  do 3 (rewrite lookup_insert_ne
          by (intros Heq; apply (f_equal length) in Heq; simpl in Heq; lia)).
  destruct (decide (n = u)) as [->|Hne].
  - by rewrite lookup_insert_eq.
  - rewrite !lookup_insert_ne; [done|apply not_eq_sym, location_ne_child|congruence].
Qed.

Lemma resolve_root b w :
  PurePath.plain_name b = true → files w !! cwd w = Some Dir →
  resolve w (PurePath.Path b) = Returns (b :: cwd w).
Proof.
  intros Hb Hc. rewrite (Path_plain _ Hb). unfold resolve. simpl.
  by rewrite Hc, (plain_name_not_dotdot _ Hb).
Qed.

Lemma resolve_user_dir b u w :
  PurePath.plain_name b = true → PurePath.plain_name u = true →
  files w !! cwd w = Some Dir → files w !! (b :: cwd w) = Some Dir →
  resolve w (PurePath.Path b // u) = Returns (u :: b :: cwd w).
Proof.
  intros Hb Hu Hc Hlb. apply resolve_child; [done| |done].
  by apply resolve_root.
Qed.

Lemma save_user_embeddings_plain b u f v meta w :
  PurePath.plain_name b = true → PurePath.plain_name u = true →
  files w !! cwd w = Some Dir →
  is_file_at (files w) (b :: cwd w) = false →
  is_file_at (files w) (u :: b :: cwd w) = false →
  is_dir_at (files w) ("face_enc.npy" :: u :: b :: cwd w) = false →
  is_dir_at (files w) ("voice_enc.npy" :: u :: b :: cwd w) = false →
  is_dir_at (files w) ("meta.json" :: u :: b :: cwd w) = false →
  save_user_embeddings b u f v meta w =
  (Returns (),
   {| cwd := cwd w;
      files := saved_files (b :: cwd w) (u :: b :: cwd w) f v
                 (<["username" := PyStr u]> (caller_dict meta (heap w))) (files w);
      heap := heap_after meta u (heap w);
      screen := screen w;
      speaker_model := speaker_model w; scandir := scandir w |}).
Proof.
  intros Hb Hu Hc Hfb Hfu Hf Hv Hm. unfold save_user_embeddings.
  unfold bind at 1. rewrite (ensure_user_dir_plain b u w) by done.
  set (lb := b :: cwd w) in *. set (lu := u :: lb) in *.
  set (w1 := set_files _ w).
  assert (files w1 !! cwd w = Some Dir) as Hc1.
  { simpl. rewrite !lookup_insert_ne;
      [done|apply location_ne_child|apply location_ne_grandchild]. }
  assert (files w1 !! lb = Some Dir) as Hb1.
  { simpl. rewrite lookup_insert_ne; [|apply location_ne_child].
    by rewrite lookup_insert_eq. }
  assert (files w1 !! lu = Some Dir) as Hu1.
  { simpl. by rewrite lookup_insert_eq. }
  assert (∀ n, files w1 !! (n :: lu) = files w !! (n :: lu)) as Hn1.
  { intros n. simpl. rewrite !lookup_insert_ne; [done|..].
    - apply not_eq_sym, location_ne_grandchild.
    - apply not_eq_sym, location_ne_child. }
  rewrite (save_artifacts _ lu u f v meta w1); [done|..].
  - by apply (resolve_user_dir b u w1).
  - done.
  - unfold is_dir_at in *. by rewrite Hn1.
  - unfold is_dir_at in *. by rewrite Hn1.
  - unfold is_dir_at in *. by rewrite Hn1.
Qed.

(** C6: after [save_user_embeddings base u f v meta] has returned,
    [load_user_embeddings base u] returns exactly [f] and [v], and a
    metadata dict that has every key of the caller's dict, with the same
    value except under ["username"], which holds [u].  The save does
    return when the root and the username are ordinary names, the working
    directory exists, no regular file stands where the two directories go
    and no directory where the three artifacts go. *)
Theorem save_then_load (base u : string) (f v : vec) (meta : option ref) (w : world) :
  (∀ w', save_user_embeddings base u f v meta w = (Returns (), w') →
     ∃ m', load_user_embeddings base u w' = (Returns (f, v, m'), w') ∧
           m' !! "username" = Some (PyStr u) ∧
           (∀ k, is_Some (caller_dict meta (heap w) !! k) → is_Some (m' !! k)) ∧
           (∀ k, k ≠ "username" → m' !! k = caller_dict meta (heap w) !! k)) ∧
  (PurePath.plain_name base = true → PurePath.plain_name u = true →
   files w !! cwd w = Some Dir →
   is_file_at (files w) (base :: cwd w) = false →
   is_file_at (files w) (u :: base :: cwd w) = false →
   is_dir_at (files w) ("face_enc.npy" :: u :: base :: cwd w) = false →
   is_dir_at (files w) ("voice_enc.npy" :: u :: base :: cwd w) = false →
   is_dir_at (files w) ("meta.json" :: u :: base :: cwd w) = false →
   ∃ w', save_user_embeddings base u f v meta w = (Returns (), w')).
Proof.
  split.
  - intros w' Hs. eexists. split; [by apply save_load_roundtrip|].
    split; [by rewrite lookup_insert_eq|]. split.
    + intros k Hk. destruct (decide (k = "username")) as [->|Hne].
      * by rewrite lookup_insert_eq.
      * by rewrite lookup_insert_ne.
    + intros k Hne. by rewrite lookup_insert_ne.
  - intros Hb Hu Hc Hfb Hfu Hf Hv Hm. eexists.
    by apply save_user_embeddings_plain.
Qed.

Lemma save_then_load_witness :
  let w' := run (save_user_embeddings "users" "alice" [1; 0]%float [0; 1]%float None)
                fresh_world in
  (∃ m', load_user_embeddings "users" "alice" w' =
           (Returns ([1; 0]%float, [0; 1]%float, m'), w') ∧
         m' !! "username" = Some (PyStr "alice") ∧
         (∀ k, is_Some (caller_dict None (heap fresh_world) !! k) → is_Some (m' !! k)) ∧
         (∀ k, k ≠ "username" → m' !! k = caller_dict None (heap fresh_world) !! k)) ∧
  ∃ w'', save_user_embeddings "users" "alice" [1; 0]%float [0; 1]%float None fresh_world
         = (Returns (), w'').
Proof.
  destruct (save_then_load "users" "alice" [1; 0]%float [0; 1]%float None fresh_world)
    as [Hload Hsave].
  split.
  - apply Hload. vm_compute. reflexivity.
  - apply Hsave; vm_compute; reflexivity.
Defined.

(** A template that loads under ordinary names is laid out as expected. *)
Lemma load_user_embeddings_returns_plain b u w f0 v0 m0 :
  PurePath.plain_name b = true → PurePath.plain_name u = true →
  result (load_user_embeddings b u) w = Returns (f0, v0, m0) →
  files w !! cwd w = Some Dir ∧
  files w !! (b :: cwd w) = Some Dir ∧
  files w !! (u :: b :: cwd w) = Some Dir ∧
  files w !! ("face_enc.npy" :: u :: b :: cwd w) = Some (File (Npy f0)) ∧
  files w !! ("voice_enc.npy" :: u :: b :: cwd w) = Some (File (Npy v0)) ∧
  is_dir_at (files w) ("meta.json" :: u :: b :: cwd w) = false.
Proof.
  intros Hb Hu. unfold result, load_user_embeddings.
  rewrite (joinpath_plain _ u Hu), (Path_plain _ Hb). simpl.
  rewrite bind_read_only by apply read_only_exists_.
  unfold result at 1, exists_ at 1, gets, resolve at 1. simpl.
  rewrite (plain_name_not_dotdot _ Hb).
  destruct (files w !! cwd w) as [[|?]|] eqn:Hc; try done.
  destruct (files w !! (b :: cwd w)) as [[|?]|] eqn:Hlb; try done.
  rewrite (plain_name_not_dotdot _ Hu).
  destruct (files w !! (u :: b :: cwd w)) as [nu|] eqn:Hlu; [|done]. simpl.
  assert (∀ n, PurePath.plain_name n = true →
            resolve w (PurePath.Make false [b; u] // n) =
            match nu with
            | Dir => Returns (n :: u :: b :: cwd w)
            | File _ => Raises NotADirectoryError
            end) as Hres.
  { intros n Hn. rewrite (joinpath_plain _ n Hn). unfold resolve. simpl.
    rewrite Hc, (plain_name_not_dotdot _ Hb), Hlb, (plain_name_not_dotdot _ Hu), Hlu.
    destruct nu; [|done]. by rewrite (plain_name_not_dotdot _ Hn). }
  rewrite bind_read_only by apply read_only_np_load.
  unfold result at 1, np_load at 1, bind at 1, read_file at 1.
  rewrite (Hres "face_enc.npy" eq_refl).
  destruct nu as [|?]; [|done].
  destruct (files w !! ("face_enc.npy" :: u :: b :: cwd w)) as [[|[f1| |]]|]; try done.
  simpl. rewrite bind_read_only by apply read_only_np_load.
  unfold result at 1, np_load at 1, bind at 1, read_file at 1.
  rewrite (Hres "voice_enc.npy" eq_refl).
  destruct (files w !! ("voice_enc.npy" :: u :: b :: cwd w)) as [[|[v1| |]]|]; try done.
  simpl. rewrite bind_read_only by apply read_only_exists_.
  unfold result at 1, exists_ at 1, gets. rewrite (Hres "meta.json" eq_refl).
  unfold is_dir_at.
  destruct (files w !! ("meta.json" :: u :: b :: cwd w)) as [[|c]|] eqn:Hmeta; simpl.
  - unfold bind, json_load, bind, read_file.
    by rewrite (Hres "meta.json" eq_refl), Hmeta.
  - unfold bind at 1. destruct (json_load _ w) as [[?|?] ?]; [|done].
    by intros [= <- <- <-].
  - unfold bind, ret. by intros [= <- <- <-].
Qed.

(** ** Duplicate usernames *)

Section duplicates.
Context `{Collaborators}.

Lemma enroll_panel_duplicate i w face voice us :
  admin_flag i = true → enroll_button i = true →
  truthy (new_username i) = true →
  new_face i = Some face → new_voice i = Some voice →
  result (list_users BASE_USERS_DIR) w = Returns us →
  new_username i ∈ us →
  enroll_panel i w =
  (Returns (), set_screen (λ s, (s ++ [st_error UsernameAlreadyExists])%list) w).
Proof.
  intros Hflag Hbtn Hu Hf Hv Hus Hin. unfold enroll_panel.
  rewrite Hflag, Hbtn, Hu, Hf, Hv.
  rewrite bind_read_only by apply read_only_list_users.
  rewrite Hus. by rewrite bool_decide_eq_true_2.
Qed.

(** C2, as the code has it: [save_user_embeddings] called for a username
    whose template exists does not fail; it replaces both vectors and the
    metadata, and a following load returns the new values.  The duplicate
    check is made by the "Enroll New User" handler: for a username that
    [list_users] returns it reports that the username exists and leaves
    files and heap as they are. *)
Theorem create_on_existing_template_overwrites
    (b u : string) (f0 v0 f v : vec) (m0 : pydict) (meta : option ref)
    (i : admin_inputs) (face voice : bytes) (us : list string) (w : world) :
  (PurePath.plain_name b = true → PurePath.plain_name u = true →
   result (load_user_embeddings b u) w = Returns (f0, v0, m0) →
   ∃ w', save_user_embeddings b u f v meta w = (Returns (), w') ∧
         load_user_embeddings b u w' =
         (Returns (f, v, <["username" := PyStr u]> (caller_dict meta (heap w))), w')) ∧
  (admin_flag i = true → enroll_button i = true →
   truthy (new_username i) = true →
   new_face i = Some face → new_voice i = Some voice →
   result (list_users BASE_USERS_DIR) w = Returns us →
   new_username i ∈ us →
   enroll_panel i w =
   (Returns (), set_screen (λ s, (s ++ [st_error UsernameAlreadyExists])%list) w)).
Proof.
  split; [|apply enroll_panel_duplicate].
  intros Hb Hu Hld.
  destruct (load_user_embeddings_returns_plain _ _ _ _ _ _ Hb Hu Hld)
    as (Hc & Hlb & Hlu & Hf & Hv & Hm).
  eexists. split.
  - apply save_user_embeddings_plain; try done; unfold is_file_at, is_dir_at.
    + by rewrite Hlb.
    + by rewrite Hlu.
    + by rewrite Hf.
    + by rewrite Hv.
  - eapply save_load_roundtrip.
    apply save_user_embeddings_plain; try done; unfold is_file_at, is_dir_at.
    + by rewrite Hlb.
    + by rewrite Hlu.
    + by rewrite Hf.
    + by rewrite Hv.
Qed.

End duplicates.

Lemma create_on_existing_template_overwrites_witness :
  (∃ w', save_user_embeddings "users" "alice" [0; 1]%float [1; 0]%float None alice_world
           = (Returns (), w') ∧
         load_user_embeddings "users" "alice" w' =
         (Returns ([0; 1]%float, [1; 0]%float,
                   <["username" := PyStr "alice"]> (caller_dict None (heap alice_world))),
          w')) ∧
  @enroll_panel stub_models (enroll_unverified "alice" bob_face bob_voice) alice_world =
  (Returns (),
   set_screen (λ s, (s ++ [st_error UsernameAlreadyExists])%list) alice_world).
Proof.
  destruct (@create_on_existing_template_overwrites stub_models
              "users" "alice" [1; 0; 0; 0]%float [0; 1; 0; 0]%float
              [0; 1]%float [1; 0]%float
              {[ "role" := PyStr "admin"; "username" := PyStr "alice" ]} None
              (enroll_unverified "alice" bob_face bob_voice) bob_face bob_voice
              ["alice"] alice_world) as [Hsave Henroll].
  split.
  - apply Hsave; vm_compute; reflexivity.
  - apply Henroll; try (vm_compute; reflexivity).
    apply list_elem_of_singleton. reflexivity.
Defined.

(** C2 fails as stated: a second [save_user_embeddings] for alice returns,
    and the stored template is the second one. *)
Lemma second_create_replaces_template :
  result (load_user_embeddings "users" "alice") alice_world =
    Returns ([1; 0; 0; 0]%float, [0; 1; 0; 0]%float,
             {[ "role" := PyStr "admin"; "username" := PyStr "alice" ]}) ∧
  result (save_user_embeddings "users" "alice" [0; 1]%float [1; 0]%float None)
         alice_world = Returns () ∧
  result (load_user_embeddings "users" "alice")
         (run (save_user_embeddings "users" "alice" [0; 1]%float [1; 0]%float None)
              alice_world) =
    Returns ([0; 1]%float, [1; 0]%float, {[ "username" := PyStr "alice" ]}).
Proof. repeat split; vm_compute; reflexivity. Qed.

(** ** The caller's metadata dict *)

Lemma alter_present {A} (g : A → A) (h : gmap ref A) l x :
  h !! l = Some x → alter g l h = <[l := g x]> h.
Proof.
  intros Hl. apply map_eq. intros k. destruct (decide (l = k)) as [->|Hne].
  - by rewrite lookup_alter_eq, lookup_insert_eq, Hl.
  - by rewrite lookup_alter_ne, lookup_insert_ne.
Qed.

Lemma heap_after_nonempty l m u (h : gmap ref pydict) :
  h !! l = Some m → m ≠ ∅ →
  heap_after (Some l) u h = <[l := <["username" := PyStr u]> m]> h.
Proof.
  intros Hl Hm. unfold heap_after, meta_object, caller_dict. rewrite Hl. simpl.
  destruct (size m =? 0)%nat eqn:Hs.
  - apply Nat.eqb_eq, map_size_empty_inv in Hs. done.
  - simpl. by apply alter_present.
Qed.

Lemma heap_after_fresh meta u (h : gmap ref pydict) :
  caller_dict meta h = ∅ →
  heap_after meta u h = <[fresh (dom h) := {[ "username" := PyStr u ]}]> h.
Proof.
  intros He. unfold heap_after, meta_object. rewrite He, map_size_empty. simpl.
  by rewrite alter_insert_eq, insert_empty.
Qed.

(** C10, as the code has it: a call that returns has added (or
    overwritten) the key ["username"] in the caller's dict, and stored
    that dict, when the dict is not empty.  When the caller passes an empty
    dict or [None], a new dict holding only the username is stored, and an
    empty dict of the caller stays empty. *)
Theorem save_updates_nonempty_caller_dict
    (b u : string) (f v : vec) (meta : option ref) (w w' : world) :
  save_user_embeddings b u f v meta w = (Returns (), w') →
  (∀ l m, meta = Some l → heap w !! l = Some m → m ≠ ∅ →
     heap w' = <[l := <["username" := PyStr u]> m]> (heap w) ∧
     load_user_embeddings b u w' =
       (Returns (f, v, <["username" := PyStr u]> m), w')) ∧
  (∀ l, meta = Some l → heap w !! l = Some ∅ →
     heap w' !! l = Some ∅ ∧
     heap w' = <[fresh (dom (heap w)) := {[ "username" := PyStr u ]}]> (heap w) ∧
     load_user_embeddings b u w' =
       (Returns (f, v, {[ "username" := PyStr u ]}), w')) ∧
  (meta = None →
     heap w' = <[fresh (dom (heap w)) := {[ "username" := PyStr u ]}]> (heap w) ∧
     load_user_embeddings b u w' =
       (Returns (f, v, {[ "username" := PyStr u ]}), w')).
Proof.
  intros Hs. pose proof (save_load_roundtrip _ _ _ _ _ _ _ Hs) as Hld.
  destruct (save_user_embeddings_returns _ _ _ _ _ _ _ Hs)
    as (_ & _ & _ & _ & _ & _ & _ & _ & _ & Hh & _).
  split; [|split].
  - intros l m -> Hl Hm. simpl in Hld. rewrite Hl in Hld. simpl in Hld.
    split; [|done]. rewrite Hh. by apply heap_after_nonempty.
  - intros l -> Hl. simpl in Hld. rewrite Hl in Hld. simpl in Hld.
    rewrite insert_empty in Hld.
    assert (heap w' = <[fresh (dom (heap w)) := {[ "username" := PyStr u ]}]> (heap w))
      as Hh'.
    { rewrite Hh. apply heap_after_fresh. simpl. by rewrite Hl. }
    split; [|done]. rewrite Hh', lookup_insert_ne; [done|].
    intros Heq. apply (is_fresh (dom (heap w))). rewrite Heq.
    apply elem_of_dom. by rewrite Hl.
  - intros ->. simpl in Hld. rewrite insert_empty in Hld.
    split; [|done]. rewrite Hh. by apply heap_after_fresh.
Qed.

Lemma save_updates_nonempty_caller_dict_witness :
  let w := set_heap (<[1%positive := {[ "role" := PyStr "admin" ]}]>) fresh_world in
  let w' := run (save_user_embeddings "users" "alice" [1; 0]%float [0; 1]%float
                   (Some 1%positive)) w in
  heap w' = <[1%positive := <["username" := PyStr "alice"]> {[ "role" := PyStr "admin" ]}]>
              (heap w) ∧
  load_user_embeddings "users" "alice" w' =
    (Returns ([1; 0]%float, [0; 1]%float,
              <["username" := PyStr "alice"]> {[ "role" := PyStr "admin" ]}), w').
Proof.
  intros w w'.
  destruct (save_updates_nonempty_caller_dict "users" "alice" [1; 0]%float [0; 1]%float
              (Some 1%positive) w w') as (Hne & _ & _); [vm_compute; reflexivity|].
  apply (Hne 1%positive {[ "role" := PyStr "admin" ]}).
  - reflexivity.
  - vm_compute. reflexivity.
  - intros Heq. apply (f_equal (λ m : pydict, m !! "role")) in Heq.
    vm_compute in Heq. discriminate.
Defined.

(** C10 fails as stated: an empty dict is not [None], yet the call leaves
    it empty and stores a dict of its own. *)
Lemma empty_caller_dict_not_updated :
  heap empty_meta_world !! 1%positive = Some ∅ ∧
  result (save_user_embeddings "users" "alice" [1; 0]%float [0; 1]%float
            (Some 1%positive)) empty_meta_world = Returns () ∧
  heap (run (save_user_embeddings "users" "alice" [1; 0]%float [0; 1]%float
               (Some 1%positive)) empty_meta_world) !! 1%positive = Some ∅ ∧
  result (load_user_embeddings "users" "alice")
         (run (save_user_embeddings "users" "alice" [1; 0]%float [0; 1]%float
                 (Some 1%positive)) empty_meta_world) =
    Returns ([1; 0]%float, [0; 1]%float, {[ "username" := PyStr "alice" ]}).
Proof. repeat split; vm_compute; reflexivity. Qed.


(** ** Where the store reads and writes *)

Lemma unchanged_outside_refl K w : unchanged_outside K w w.
Proof. by intros k _. Qed.

Lemma unchanged_outside_trans K w1 w2 w3 :
  unchanged_outside K w1 w2 → unchanged_outside K w2 w3 →
  unchanged_outside K w1 w3.
Proof. intros H12 H23 k Hk. by rewrite H23, H12. Qed.

Lemma unchanged_outside_insert K w k0 nd :
  k0 ∈ K → unchanged_outside K w (set_files (<[k0 := nd]>) w).
Proof.
  intros Hk0 k Hk. simpl. rewrite lookup_insert_ne; [done|]. by intros ->.
Qed.

Lemma resolve_child_eq w p n :
  PurePath.plain_name n = true →
  resolve w (p // n) =
  match resolve w p with
  | Returns l =>
      match files w !! l with
      | Some Dir => Returns (n :: l)
      | Some (File _) => Raises NotADirectoryError
      | None => Raises ENOENT
      end
  | Raises e => Raises e
  end.
Proof.
  intros Hn. rewrite (joinpath_plain _ _ Hn). unfold resolve. simpl.
  rewrite walk_app. destruct (walk _ _ (PurePath.parts p)) as [l|e]; [|done].
  simpl. by rewrite (plain_name_not_dotdot _ Hn).
Qed.

Lemma resolve_root_eq b w :
  PurePath.plain_name b = true →
  resolve w (PurePath.Path b) =
  match files w !! cwd w with
  | Some Dir => Returns (b :: cwd w)
  | Some (File _) => Raises NotADirectoryError
  | None => Raises ENOENT
  end.
Proof.
  intros Hb. rewrite (Path_plain _ Hb). unfold resolve. simpl.
  by rewrite (plain_name_not_dotdot _ Hb).
Qed.

Lemma resolve_agree_user_dir b u w w2 :
  PurePath.plain_name b = true → PurePath.plain_name u = true →
  agree_on (cwd w :: template_locations b u w) w w2 →
  resolve w2 (PurePath.Path b // u) = resolve w (PurePath.Path b // u) ∧
  ∀ l, resolve w (PurePath.Path b // u) = Returns l → l = u :: b :: cwd w.
Proof.
  intros Hb Hu [Hc Hk].
  rewrite !(resolve_child_eq _ _ _ Hu), !(resolve_root_eq _ _ Hb), Hc.
  rewrite (Hk (cwd w)) by (by left).
  destruct (files w !! cwd w) as [[|?]|]; [|by split..].
  rewrite (Hk (b :: cwd w)) by (right; by left).
  destruct (files w !! (b :: cwd w)) as [[|?]|]; split; try done.
  by intros l [= <-].
Qed.

Lemma resolve_agree_artifact b u n w w2 :
  PurePath.plain_name b = true → PurePath.plain_name u = true →
  PurePath.plain_name n = true →
  agree_on (cwd w :: template_locations b u w) w w2 →
  resolve w2 (PurePath.Path b // u // n) = resolve w (PurePath.Path b // u // n) ∧
  ∀ l, resolve w (PurePath.Path b // u // n) = Returns l → l = n :: u :: b :: cwd w.
Proof.
  intros Hb Hu Hn Hag.
  destruct (resolve_agree_user_dir b u w w2 Hb Hu Hag) as [Heq Hl].
  rewrite !(resolve_child_eq _ _ _ Hn), Heq.
  destruct (resolve w (PurePath.Path b // u)) as [l|e]; [|by split].
  rewrite (Hl l eq_refl). destruct Hag as [_ Hk].
  rewrite (Hk (u :: b :: cwd w)) by (do 2 right; by left).
  destruct (files w !! (u :: b :: cwd w)) as [[|?]|]; split; try done.
  by intros l' [= <-].
Qed.

Lemma exists_agree p w w2 l0 :
  resolve w2 p = resolve w p →
  (∀ l, resolve w p = Returns l → l = l0) →
  files w2 !! l0 = files w !! l0 →
  result (exists_ p) w2 = result (exists_ p) w.
Proof.
  intros Hr Hl Hf. unfold result, exists_, gets. simpl. rewrite Hr.
  destruct (resolve w p) as [l|e]; [|done]. by rewrite (Hl l eq_refl), Hf.
Qed.

Lemma read_file_agree p w w2 l0 :
  resolve w2 p = resolve w p →
  (∀ l, resolve w p = Returns l → l = l0) →
  files w2 !! l0 = files w !! l0 →
  result (read_file p) w2 = result (read_file p) w.
Proof.
  intros Hr Hl Hf. unfold result, read_file. rewrite Hr.
  destruct (resolve w p) as [l|e]; [|done]. rewrite (Hl l eq_refl), Hf.
  by destruct (files w !! l0) as [[|?]|].
Qed.

Lemma np_load_agree p w w2 :
  result (read_file p) w2 = result (read_file p) w →
  result (np_load p) w2 = result (np_load p) w.
Proof.
  intros Hr. unfold np_load. unfold result at 1 2.
  rewrite !bind_read_only by apply read_only_read_file. rewrite Hr.
  by destruct (result (read_file p) w) as [[| |]|].
Qed.

Lemma json_load_agree p w w2 :
  result (read_file p) w2 = result (read_file p) w →
  result (json_load p) w2 = result (json_load p) w.
Proof.
  intros Hr. unfold json_load. unfold result at 1 2.
  rewrite !bind_read_only by apply read_only_read_file. rewrite Hr.
  by destruct (result (read_file p) w) as [[| |]|].
Qed.

(** The outcome of a load is decided by the working directory, the store
    root, the user's directory and the three artifacts in it. *)
Lemma load_user_embeddings_agree b u w w2 :
  PurePath.plain_name b = true → PurePath.plain_name u = true →
  agree_on (cwd w :: template_locations b u w) w w2 →
  result (load_user_embeddings b u) w2 = result (load_user_embeddings b u) w.
Proof.
  intros Hb Hu Hag.
  destruct (resolve_agree_user_dir b u w w2 Hb Hu Hag) as [Hud Hudl].
  destruct (resolve_agree_artifact b u "face_enc.npy" w w2 Hb Hu eq_refl Hag)
    as [Hface Hfacel].
  destruct (resolve_agree_artifact b u "voice_enc.npy" w w2 Hb Hu eq_refl Hag)
    as [Hvoice Hvoicel].
  destruct (resolve_agree_artifact b u "meta.json" w w2 Hb Hu eq_refl Hag)
    as [Hmeta Hmetal].
  destruct Hag as [_ Hk]. unfold template_locations in Hk.
  assert (result (exists_ (PurePath.Path b // u)) w2 =
          result (exists_ (PurePath.Path b // u)) w) as E1.
  { eapply exists_agree; [done..|]. apply Hk. do 2 right. by left. }
  assert (result (np_load (PurePath.Path b // u // "face_enc.npy")) w2 =
          result (np_load (PurePath.Path b // u // "face_enc.npy")) w) as E2.
  { apply np_load_agree. eapply read_file_agree; [done..|].
    apply Hk. do 3 right. by left. }
  assert (result (np_load (PurePath.Path b // u // "voice_enc.npy")) w2 =
          result (np_load (PurePath.Path b // u // "voice_enc.npy")) w) as E3.
  { apply np_load_agree. eapply read_file_agree; [done..|].
    apply Hk. do 4 right. by left. }
  assert (result (exists_ (PurePath.Path b // u // "meta.json")) w2 =
          result (exists_ (PurePath.Path b // u // "meta.json")) w) as E4.
  { eapply exists_agree; [done..|]. apply Hk. do 5 right. by left. }
  assert (result (json_load (PurePath.Path b // u // "meta.json")) w2 =
          result (json_load (PurePath.Path b // u // "meta.json")) w) as E5.
  { apply json_load_agree. eapply read_file_agree; [done..|].
    apply Hk. do 5 right. by left. }
  unfold load_user_embeddings. unfold result at 1 2.
  rewrite !(bind_read_only (exists_ (PurePath.Path b // u)))
    by apply read_only_exists_.
  rewrite E1. destruct (result (exists_ (PurePath.Path b // u)) w) as [[|]|]; try done.
  simpl.
  rewrite !(bind_read_only (np_load (PurePath.Path b // u // "face_enc.npy")))
    by apply read_only_np_load.
  rewrite E2. destruct (result (np_load _) w) as [fe|]; [|done].
  rewrite !(bind_read_only (np_load (PurePath.Path b // u // "voice_enc.npy")))
    by apply read_only_np_load.
  rewrite E3. destruct (result (np_load _) w) as [ve|]; [|done].
  rewrite !(bind_read_only (exists_ (PurePath.Path b // u // "meta.json")))
    by apply read_only_exists_.
  rewrite E4. destruct (result (exists_ _) w) as [[|]|]; try done.
  rewrite !(bind_read_only (json_load (PurePath.Path b // u // "meta.json")))
    by apply read_only_json_load.
  rewrite E5. by destruct (result (json_load _) w).
Qed.

Lemma unchanged_outside_weaken K K' w w' :
  (∀ k, k ∈ K → k ∈ K') → unchanged_outside K w w' → unchanged_outside K' w w'.
Proof. intros Hsub Hu k Hk. apply Hu. intros Hin. by apply Hk, Hsub. Qed.

Lemma mkdir_child_any anch ps n l w o w' :
  resolve w (PurePath.Make anch ps) = Returns l →
  files w !! l = Some Dir →
  PurePath.plain_name n = true →
  mkdir (PurePath.Make anch (ps ++ [n])) w = (o, w') →
  cwd w' = cwd w ∧ unchanged_outside [n :: l] w w' ∧
  (∀ k, files w !! k = Some Dir → files w' !! k = Some Dir) ∧
  (o = Returns () → files w' !! (n :: l) = Some Dir).
Proof.
  intros Hr Hl Hn.
  rewrite (mkdir_child anch ps n l w Hr Hl (plain_name_not_dotdot _ Hn)).
  destruct (files w !! (n :: l)) as [[|c]|] eqn:Hnl; intros [= <- <-].
  - split; [done|]. split; [apply unchanged_outside_refl|]. by split.
  - split; [done|]. split; [apply unchanged_outside_refl|]. by split.
  - split; [done|]. split; [apply unchanged_outside_insert; by left|].
    split; [apply insert_keeps_dirs; by rewrite Hnl|].
    intros _. simpl. by rewrite lookup_insert_eq.
Qed.

Lemma ensure_user_dir_plain_any b u w o w1 :
  PurePath.plain_name b = true → PurePath.plain_name u = true →
  files w !! cwd w = Some Dir →
  ensure_user_dir b u w = (o, w1) →
  cwd w1 = cwd w ∧
  unchanged_outside [b :: cwd w; u :: b :: cwd w] w w1 ∧
  (∀ ud, o = Returns ud →
     ud = PurePath.Path b // u ∧
     resolve w1 ud = Returns (u :: b :: cwd w) ∧
     files w1 !! (u :: b :: cwd w) = Some Dir).
Proof.
  intros Hb Hu Hc. unfold ensure_user_dir.
  assert (PurePath.Path b // u = PurePath.Make false [b; u]) as Hud.
  { by rewrite (joinpath_plain _ _ Hu), (Path_plain _ Hb). }
  rewrite Hud, (Path_plain _ Hb).
  unfold bind at 1.
  destruct (mkdir (PurePath.Make false [b]) w) as [o0 w0] eqn:Hm0.
  apply (mkdir_child_any false [] b (cwd w) w o0 w0 eq_refl Hc Hb) in Hm0
    as (Hc0 & Hu0 & Hd0 & Hr0).
  destruct o0 as [[]|e].
  - specialize (Hr0 eq_refl). unfold bind at 1.
    destruct (mkdir (PurePath.Make false [b; u]) w0) as [o1 w1'] eqn:Hm1.
    apply (mkdir_child_any false [b] u (b :: cwd w) w0 o1 w1') in Hm1
      as (Hc1 & Hu1 & Hd1 & Hr1); [| |done..].
    2:{ rewrite <-Hc0, <-(Path_plain _ Hb). apply resolve_root; [done|].
        rewrite Hc0. by apply Hd0. }
    assert (unchanged_outside [b :: cwd w; u :: b :: cwd w] w w1') as Hun.
    { eapply unchanged_outside_trans.
      - eapply unchanged_outside_weaken; [|exact Hu0].
        intros k ->%list_elem_of_singleton. by left.
      - eapply unchanged_outside_weaken; [|exact Hu1].
        intros k ->%list_elem_of_singleton. right. by left. }
    destruct o1 as [[]|e]; intros [= <- <-];
      (split; [congruence|]); (split; [done|]); [|done].
    intros ud [= <-]. split; [done|].
    specialize (Hr1 eq_refl). split; [|done].
    rewrite <-Hud, <-Hc0, <-Hc1. apply resolve_user_dir; [done..| |].
    + rewrite Hc1, Hc0. by apply Hd1, Hd0.
    + rewrite Hc1, Hc0. by apply Hd1.
  - intros [= <- <-]. split; [done|]. split; [|done].
    eapply unchanged_outside_weaken; [|exact Hu0].
    intros k ->%list_elem_of_singleton. by left.
Qed.

Lemma write_child_any ud n c w l o w' :
  PurePath.plain_name n = true →
  resolve w ud = Returns l → files w !! l = Some Dir →
  write_file (ud // n) c w = (o, w') →
  cwd w' = cwd w ∧ heap w' = heap w ∧ unchanged_outside [n :: l] w w' ∧
  resolve w' ud = Returns l ∧ files w' !! l = Some Dir.
Proof.
  intros Hn Hr Hl Hw. destruct o as [[]|e].
  - apply (write_child_returns _ _ _ _ _ l Hn Hr Hl) in Hw as (_ & -> & Hr' & Hl').
    split_and!; try done. apply unchanged_outside_insert. by left.
  - apply write_file_raises in Hw as ->.
    split_and!; try done.
Qed.

Ltac sublist_tac :=
  let k := fresh "k" in
  let Hk := fresh "Hk" in
  intros k Hk; unfold template_locations;
  rewrite !elem_of_cons in Hk; rewrite !elem_of_cons; tauto.

(** Whatever its outcome, a save under ordinary names changes nothing but
    the store root, the user's directory and the three artifacts. *)
Lemma save_user_embeddings_confined b u f v meta w o w' :
  PurePath.plain_name b = true → PurePath.plain_name u = true →
  files w !! cwd w = Some Dir →
  save_user_embeddings b u f v meta w = (o, w') →
  cwd w' = cwd w ∧ unchanged_outside (template_locations b u w) w w'.
Proof.
  intros Hb Hu Hc. unfold save_user_embeddings. unfold bind at 1.
  destruct (ensure_user_dir b u w) as [o0 w1] eqn:He.
  apply ensure_user_dir_plain_any in He as (Hc1 & Hu1 & Hret); [|done..].
  assert (unchanged_outside (template_locations b u w) w w1) as Hun1.
  { eapply unchanged_outside_weaken; [|exact Hu1].
    sublist_tac. }
  destruct o0 as [ud|e]; [|by intros [= <- <-]].
  destruct (Hret ud eq_refl) as (-> & Hr1 & Hl1).
  unfold bind at 1, np_save.
  destruct (write_file _ (Npy f) w1) as [o1 w2] eqn:H1.
  apply (write_child_any _ _ _ _ (u :: b :: cwd w)) in H1
    as (Hc2 & _ & Hu2 & Hr2 & Hl2); [|done..].
  assert (unchanged_outside (template_locations b u w) w w2) as Hun2.
  { eapply unchanged_outside_trans; [exact Hun1|].
    eapply unchanged_outside_weaken; [|exact Hu2].
    sublist_tac. }
  destruct o1 as [[]|e]; [|intros [= <- <-]; split; [congruence|done]].
  unfold bind at 1.
  destruct (write_file _ (Npy v) w2) as [o2 w3] eqn:H2.
  apply (write_child_any _ _ _ _ (u :: b :: cwd w)) in H2
    as (Hc3 & _ & Hu3 & Hr3 & Hl3); [|done..].
  assert (unchanged_outside (template_locations b u w) w w3) as Hun3.
  { eapply unchanged_outside_trans; [exact Hun2|].
    eapply unchanged_outside_weaken; [|exact Hu3].
    sublist_tac. }
  destruct o2 as [[]|e]; [|intros [= <- <-]; split; [congruence|done]].
  rewrite meta_steps. intros H3.
  apply (write_child_any _ _ _ _ (u :: b :: cwd w)) in H3
    as (Hc4 & _ & Hu4 & _ & _); [|done|exact Hr3|exact Hl3].
  split; [simpl in Hc4; congruence|].
  eapply unchanged_outside_trans; [exact Hun3|].
  eapply unchanged_outside_weaken; [|exact Hu4].
  sublist_tac.
Qed.




(** ** Enrollment *)

Ltac length_ne :=
  let Heq := fresh "Heq" in
  intros Heq; apply (f_equal length) in Heq; simpl in Heq; lia.

Lemma saved_files_cwd (b u : string) (c : location) (f v : vec) (d : pydict)
    (t : gmap location node) :
  saved_files (b :: c) (u :: b :: c) f v d t !! c = t !! c.
Proof. unfold saved_files. by rewrite !lookup_insert_ne by length_ne. Qed.

Lemma saved_files_root (lb : location) (u : string) (f v : vec) (d : pydict)
    (t : gmap location node) :
  saved_files lb (u :: lb) f v d t !! lb = Some Dir.
Proof.
  unfold saved_files. do 4 (rewrite lookup_insert_ne by length_ne).
  by rewrite lookup_insert_eq.
Qed.

Lemma saved_files_user (lb : location) (u : string) (f v : vec) (d : pydict)
    (t : gmap location node) :
  saved_files lb (u :: lb) f v d t !! (u :: lb) = Some Dir.
Proof. rewrite saved_files_root_child. by rewrite decide_True. Qed.

Lemma saved_files_face (lb lu : location) (f v : vec) (d : pydict)
    (t : gmap location node) :
  saved_files lb lu f v d t !! ("face_enc.npy" :: lu) = Some (File (Npy f)).
Proof.
  unfold saved_files. do 2 (rewrite lookup_insert_ne by done).
  by rewrite lookup_insert_eq.
Qed.

Lemma saved_files_voice (lb lu : location) (f v : vec) (d : pydict)
    (t : gmap location node) :
  saved_files lb lu f v d t !! ("voice_enc.npy" :: lu) = Some (File (Npy v)).
Proof.
  unfold saved_files. rewrite lookup_insert_ne by done.
  by rewrite lookup_insert_eq.
Qed.

Lemma saved_files_meta (lb lu : location) (f v : vec) (d : pydict)
    (t : gmap location node) :
  saved_files lb lu f v d t !! ("meta.json" :: lu) = Some (File (Json d)).
Proof. unfold saved_files. by rewrite lookup_insert_eq. Qed.

(** Loading from a tree in which a template has just been stored. *)
Lemma load_user_embeddings_saved b u f v d w w' :
  PurePath.plain_name b = true → PurePath.plain_name u = true →
  files w !! cwd w = Some Dir →
  cwd w' = cwd w →
  files w' = saved_files (b :: cwd w) (u :: b :: cwd w) f v d (files w) →
  load_user_embeddings b u w' = (Returns (f, v, d), w').
Proof.
  intros Hb Hu Hc Hc' Hf.
  apply (load_user_embeddings_at _ _ _ (u :: b :: cwd w)).
  - rewrite <-Hc'. apply resolve_user_dir; [done..| |]; rewrite Hc', Hf.
    + by rewrite saved_files_cwd.
    + apply saved_files_root.
  - rewrite Hf. apply saved_files_user.
  - rewrite Hf. apply saved_files_face.
  - rewrite Hf. apply saved_files_voice.
  - rewrite Hf. apply saved_files_meta.
Qed.


(** The users listed once a template is stored. *)
Lemma list_users_saved b u f v d w w' :
  PurePath.plain_name b = true →
  files w !! cwd w = Some Dir →
  cwd w' = cwd w →
  files w' = saved_files (b :: cwd w) (u :: b :: cwd w) f v d (files w) →
  ∃ us, list_users b w' = (Returns us, w') ∧ NoDup us ∧
        ∀ n, n ∈ us ↔ n = u ∨ files w !! (n :: b :: cwd w) = Some Dir.
Proof.
  intros Hb Hc Hc' Hf. rewrite list_users_eq, (resolve_root_eq _ _ Hb), Hc', Hf.
  rewrite saved_files_cwd, Hc, saved_files_root.
  eexists. split; [done|]. split; [apply NoDup_subdirectories|].
  intros n. rewrite elem_of_subdirectories, Hf, saved_files_root_child.
  destruct (decide (n = u)) as [->|Hne].
  - split; [by left|done].
  - split; [by right|by intros [?|?]].
Qed.

Lemma wf_tree_parent (t : gmap location node) n d x :
  wf_tree t → t !! (n :: d) = Some x → t !! d = Some Dir.
Proof.
  intros Hwf Hn. apply (map_Forall_lookup_1 _ _ _ _ Hwf) in Hn. simpl in Hn.
  by destruct (t !! d) as [[|?]|].
Qed.


Lemma plain_name_truthy u : PurePath.plain_name u = true → truthy u = true.
Proof.
  unfold PurePath.plain_name, PurePath.kept, truthy. intros Hu.
  apply andb_prop in Hu as [Hu _]. apply andb_prop in Hu as [_ Hu].
  by apply andb_prop in Hu as [Hu _].
Qed.

(** ** Properties kept by every step *)

Lemma preserves_ret (P : world → Prop) {A} (a : A) : preserves P (ret a).
Proof. by intros w o w' HP [= <- <-]. Qed.

Lemma preserves_raise (P : world → Prop) {A} e : preserves P (@raise A e).
Proof. by intros w o w' HP [= <- <-]. Qed.

Lemma preserves_read_only (P : world → Prop) {A} (m : py A) :
  read_only m → preserves P m.
Proof. intros Hm w o w' HP Hrun. specialize (Hm w). rewrite Hrun in Hm. by subst. Qed.

Lemma preserves_bind (P : world → Prop) {A B} (m : py A) (k : A → py B) :
  preserves P m → (∀ a, preserves P (k a)) → preserves P (bind m k).
Proof.
  intros Hm Hk w o w' HP. unfold bind.
  destruct (m w) as [[a|e] w1] eqn:Hrun.
  - apply (Hk a). by apply (Hm w (Returns a) w1).
  - intros [= <- <-]. by apply (Hm w (Raises e) w1).
Qed.

Lemma preserves_try_except (P : world → Prop) {A} (m : py A) (h : exn → py A) :
  preserves P m → (∀ e, preserves P (h e)) → preserves P (try_except m h).
Proof.
  intros Hm Hh w o w' HP. unfold try_except.
  destruct (m w) as [[a|e] w1] eqn:Hrun.
  - intros [= <- <-]. by apply (Hm w (Returns a) w1).
  - apply (Hh e). by apply (Hm w (Raises e) w1).
Qed.

(** Whatever is kept by [os.mkdir] and by writing a file, and does not
    depend on the heap, is kept by a save. *)
Section kept_by_store.
Variable P : world → Prop.
Hypothesis P_heap : ∀ w f, P w → P (set_heap f w).
Hypothesis P_mkdir : ∀ p, preserves P (os_mkdir p).
Hypothesis P_write : ∀ p c, preserves P (write_file p c).
#[local] Set Default Proof Using "All".

Lemma preserves_new_dict d : preserves P (new_dict d).
Proof. intros w o w' HP [= <- <-]. by apply P_heap. Qed.

Lemma preserves_dict_update l k v : preserves P (dict_update l k v).
Proof. intros w o w' HP [= <- <-]. by apply P_heap. Qed.

Lemma preserves_is_dir p : preserves P (is_dir p).
Proof. by apply preserves_read_only. Qed.

Lemma preserves_mkdir_exist_ok p : preserves P (mkdir_exist_ok p).
Proof.
  apply preserves_try_except; [apply P_mkdir|]. intros e.
  destruct (is_FileNotFoundError e); [apply preserves_raise|].
  apply preserves_bind; [apply preserves_is_dir|].
  intros [|]; [apply preserves_ret|apply preserves_raise].
Qed.

Lemma preserves_mkdir_parents anch rparts : preserves P (mkdir_parents anch rparts).
Proof.
  induction rparts as [|c up IH]; rewrite mkdir_parents_eq; cbv zeta;
    (apply preserves_try_except; [apply P_mkdir|]); intros e;
    (destruct (is_FileNotFoundError e);
     [|apply preserves_bind; [apply preserves_is_dir|];
       intros [|]; [apply preserves_ret|apply preserves_raise]]).
  - apply preserves_raise.
  - apply preserves_bind; [exact IH|]. intros _. apply preserves_mkdir_exist_ok.
Qed.

Lemma preserves_mkdir p : preserves P (mkdir p).
Proof. apply preserves_mkdir_parents. Qed.

Lemma preserves_ensure_user_dir base u : preserves P (ensure_user_dir base u).
Proof.
  apply preserves_bind; [apply preserves_mkdir|]. intros _.
  apply preserves_bind; [apply preserves_mkdir|]. intros _. apply preserves_ret.
Qed.

Lemma preserves_meta_or_empty meta : preserves P (meta_or_empty meta).
Proof.
  destruct meta as [l|]; [|apply preserves_new_dict].
  apply preserves_bind; [by apply preserves_read_only|].
  intros [|]; [apply preserves_ret|apply preserves_new_dict].
Qed.

Lemma preserves_save_user_embeddings base u f v meta :
  preserves P (save_user_embeddings base u f v meta).
Proof.
  apply preserves_bind; [apply preserves_ensure_user_dir|]. intros ud.
  apply preserves_bind; [apply P_write|]. intros _.
  apply preserves_bind; [apply P_write|]. intros _.
  apply preserves_bind; [apply preserves_meta_or_empty|]. intros l.
  apply preserves_bind; [apply preserves_dict_update|]. intros _.
  apply preserves_bind; [by apply preserves_read_only|]. intros d.
  apply P_write.
Qed.

End kept_by_store.

(** Whatever is kept by [os.mkdir] and by writing a file, and does not
    depend on the heap, the screen and the module global, is kept by
    loading the speaker model, by a voice extraction and by every run of
    the Admin page. *)
Section kept_by_pages.
Variable P : world → Prop.
Hypothesis P_heap : ∀ w f, P w → P (set_heap f w).
Hypothesis P_screen : ∀ w f, P w → P (set_screen f w).
Hypothesis P_model : ∀ w b, P w → P (set_speaker_model b w).
Hypothesis P_mkdir : ∀ p, preserves P (os_mkdir p).
Hypothesis P_write : ∀ p c, preserves P (write_file p c).
Context `{Collaborators}.
#[local] Set Default Proof Using "All".

Lemma preserves_emit e : preserves P (emit e).
Proof. intros w o w' HP [= <- <-]. by apply P_screen. Qed.

Lemma preserves_from_hparams source savedir :
  preserves P (from_hparams source savedir).
Proof.
  apply preserves_bind; [by apply preserves_mkdir|]. intros _.
  apply preserves_bind; [apply preserves_read_only, read_only_lift|]. intros hp.
  apply P_write.
Qed.

Lemma preserves_get_speaker_model : preserves P get_speaker_model.
Proof.
  apply preserves_bind; [apply preserves_read_only, read_only_gets|]. intros loaded.
  destruct loaded; [apply preserves_ret|].
  apply preserves_bind; [apply preserves_from_hparams|]. intros _.
  intros w o w' HP [= <- <-]. by apply P_model.
Qed.

Lemma preserves_get_voice_embedding_from_wav wav :
  preserves P (get_voice_embedding_from_wav wav).
Proof.
  intros w o w' HP Hrun. rewrite get_voice_embedding_from_wav_eq in Hrun.
  injection Hrun as _ <-.
  apply (preserves_get_speaker_model w (result get_speaker_model w)); [done|].
  unfold result, run. by destruct (get_speaker_model w).
Qed.

Lemma P_new_dict d : preserves P (new_dict d).
Proof. by apply preserves_new_dict. Qed.

Lemma P_save base u f v meta : preserves P (save_user_embeddings base u f v meta).
Proof. by apply preserves_save_user_embeddings. Qed.

Lemma preserves_admin_verify i : preserves P (admin_verify i).
Proof.
  unfold admin_verify. destruct (admin_verify_button i); [|apply preserves_ret].
  destruct (truthy (admin_user i)), (admin_img i) as [img|], (admin_audio i) as [audio|];
    try (apply preserves_bind; [apply preserves_emit|intros _; apply preserves_ret]).
  apply preserves_try_except.
  - apply preserves_bind;
      [apply preserves_read_only, read_only_get_face_encoding_from_image|]. intros fl.
    apply preserves_bind;
      [apply preserves_get_voice_embedding_from_wav|]. intros vl.
    apply preserves_bind;
      [apply preserves_read_only, read_only_load_user_embeddings|]. intros [[fs vs] m].
    apply preserves_bind; [apply preserves_read_only, read_only_is_face_match|]. intros fm.
    apply preserves_bind; [apply preserves_read_only, read_only_is_voice_match|]. intros vm.
    destruct (fst fm && fst vm);
      (apply preserves_bind; [apply preserves_emit|intros _; apply preserves_ret]).
  - intros e. apply preserves_bind; [apply preserves_emit|intros _; apply preserves_ret].
Qed.

(** The body shared by the two enrollment handlers. *)
Lemma preserves_enroll_body d0 msg u face voice :
  preserves P
    (try_except
       (fenc <- get_face_encoding_from_image face ;;
        venc <- get_voice_embedding_from_wav voice ;;
        meta <- new_dict d0 ;;
        save_user_embeddings BASE_USERS_DIR u fenc venc (Some meta) ;;
        emit (st_success msg))
       (λ e, emit (st_exception e))).
Proof.
  apply preserves_try_except; [|intros e; apply preserves_emit].
  apply preserves_bind;
    [apply preserves_read_only, read_only_get_face_encoding_from_image|]. intros fenc.
  apply preserves_bind;
    [apply preserves_get_voice_embedding_from_wav|]. intros venc.
  apply preserves_bind; [apply P_new_dict|]. intros meta.
  apply preserves_bind; [apply P_save|]. intros _.
  apply preserves_emit.
Qed.

Lemma preserves_initialize_admin i : preserves P (initialize_admin i).
Proof.
  apply preserves_bind; [apply preserves_read_only, read_only_list_users|]. intros us.
  destruct (Nat.eqb (length us) 0); [|apply preserves_emit].
  apply preserves_bind; [apply preserves_emit|]. intros _.
  destruct (create_admin_button i); [|apply preserves_ret].
  destruct (truthy (init_user i)), (init_face i), (init_voice i);
    try apply preserves_emit.
  apply preserves_enroll_body.
Qed.

Lemma preserves_enroll_panel i : preserves P (enroll_panel i).
Proof.
  unfold enroll_panel. destruct (admin_flag i); [|apply preserves_ret].
  destruct (enroll_button i); [|apply preserves_ret].
  destruct (truthy (new_username i)), (new_face i), (new_voice i);
    try apply preserves_emit.
  apply preserves_bind; [apply preserves_read_only, read_only_list_users|]. intros us.
  destruct (bool_decide (new_username i ∈ us)); [apply preserves_emit|].
  apply preserves_enroll_body.
Qed.

Lemma preserves_admin_page i : preserves P (admin_page i).
Proof.
  apply preserves_bind; [apply preserves_admin_verify|]. intros _.
  apply preserves_bind; [apply preserves_initialize_admin|]. intros _.
  apply preserves_enroll_panel.
Qed.

End kept_by_pages.

(** ** Nothing is deleted, nothing changes its kind *)

Lemma kind_kept_refl w : kind_kept w w.
Proof.
  split; [done|]. intros k. destruct (files w !! k) as [[|c]|]; eauto.
Qed.

Lemma kind_kept_insert w0 w l nd :
  kind_kept w0 w →
  match files w !! l with
  | Some Dir => nd = Dir
  | Some (File _) => ∃ c, nd = File c
  | None => True
  end →
  kind_kept w0 (set_files (<[l := nd]>) w).
Proof.
  intros [Hc Hk] Hl. split; [done|]. intros k. specialize (Hk k). simpl.
  destruct (decide (l = k)) as [->|Hne]; [|by rewrite lookup_insert_ne].
  rewrite lookup_insert_eq.
  destruct (files w0 !! k) as [[|c0]|]; [| |done].
  - rewrite Hk in Hl. by subst.
  - destruct Hk as [c Hk]. rewrite Hk in Hl. destruct Hl as [c' ->]. eauto.
Qed.

Lemma kind_kept_os_mkdir w0 p : preserves (kind_kept w0) (os_mkdir p).
Proof.
  intros w o w' HP Hrun. destruct o as [[]|e].
  - apply os_mkdir_returns in Hrun as (l & _ & Hl & ->).
    apply kind_kept_insert; [done|]. by rewrite Hl.
  - by apply os_mkdir_raises in Hrun as ->.
Qed.

Lemma kind_kept_write_file w0 p c : preserves (kind_kept w0) (write_file p c).
Proof.
  intros w o w' HP Hrun. destruct o as [[]|e].
  - apply write_file_returns in Hrun as (l & _ & Hl & ->).
    apply kind_kept_insert; [done|].
    destruct (files w !! l) as [[|c0]|]; [done|eauto|done].
  - by apply write_file_raises in Hrun as ->.
Qed.

Lemma kind_kept_set_heap w0 w f : kind_kept w0 w → kind_kept w0 (set_heap f w).
Proof. by intros [Hc Hk]. Qed.

Lemma kind_kept_set_screen w0 w f : kind_kept w0 w → kind_kept w0 (set_screen f w).
Proof. by intros [Hc Hk]. Qed.

Lemma kind_kept_set_speaker_model w0 w b :
  kind_kept w0 w → kind_kept w0 (set_speaker_model b w).
Proof. by intros [Hc Hk]. Qed.

Lemma kind_kept_save w0 base u f v meta :
  preserves (kind_kept w0) (save_user_embeddings base u f v meta).
Proof.
  apply preserves_save_user_embeddings.
  - apply kind_kept_set_heap.
  - apply kind_kept_os_mkdir.
  - apply kind_kept_write_file.
Qed.

(** Whatever the username and whatever the outcome, a save deletes
    nothing: what was a directory is still a directory, what was a regular
    file is still a regular file, and the working directory is the same. *)
Theorem save_user_embeddings_deletes_nothing
    (base u : string) (f v : vec) (meta : option ref) (w : world) :
  kind_kept w (run (save_user_embeddings base u f v meta) w).
Proof.
  unfold run.
  destruct (save_user_embeddings base u f v meta w) as [o w'] eqn:Hrun.
  apply (kind_kept_save w base u f v meta w o w'); [apply kind_kept_refl|done].
Qed.

(** No run of the Admin page, whatever is typed and pressed, deletes a
    file or a directory or turns one into the other. *)
Theorem admin_page_deletes_nothing `{Collaborators} (i : admin_inputs) (w : world) :
  kind_kept w (run (admin_page i) w).
Proof.
  unfold run. destruct (admin_page i w) as [o w'] eqn:Hrun.
  apply (preserves_admin_page (kind_kept w)) in Hrun; [done|..|apply kind_kept_refl].
  - apply kind_kept_set_heap.
  - apply kind_kept_set_screen.
  - apply kind_kept_set_speaker_model.
  - apply kind_kept_os_mkdir.
  - apply kind_kept_write_file.
Qed.

(** ** The tree stays well formed *)

Lemma wf_tree_present (t : gmap location node) k x :
  wf_tree t → t !! k = Some x → parent_is_dir t k = true.
Proof. intros Hwf Hk. by apply (map_Forall_lookup_1 _ _ _ _ Hwf) in Hk. Qed.

(** Where resolution ends, there is a directory above. *)
Lemma walk_parent_is_dir (t : gmap location node) start ps l :
  wf_tree t → parent_is_dir t start = true →
  walk t start ps = Returns l → parent_is_dir t l = true.
Proof.
  intros Hwf. revert start. induction ps as [|c rest IH]; intros start Hs; simpl.
  - by intros [= <-].
  - destruct (t !! start) as [[|?]|] eqn:Hstart; try done.
    apply IH. destruct (String.eqb c "..").
    + destruct start as [|a s]; [done|]. simpl in *.
      destruct (t !! s) as [[|?]|] eqn:Hsl; try done.
      by apply (wf_tree_present _ _ Dir).
    + simpl. by rewrite Hstart.
Qed.

Lemma resolve_parent_is_dir w p l :
  good_world w → resolve w p = Returns l → parent_is_dir (files w) l = true.
Proof.
  intros [Hwf Hc]. unfold resolve. apply walk_parent_is_dir; [done|].
  destruct (PurePath.anchored p); [done|]. by apply (wf_tree_present _ _ Dir).
Qed.

Lemma parent_is_dir_insert (t : gmap location node) l nd k :
  t !! l ≠ Some Dir → parent_is_dir t k = true →
  parent_is_dir (<[l := nd]> t) k = true.
Proof.
  intros Hl. destruct k as [|n d]; [done|]. simpl.
  destruct (t !! d) as [[|?]|] eqn:Hd; try done. intros _.
  rewrite lookup_insert_ne; [by rewrite Hd|]. intros ->. by rewrite Hd in Hl.
Qed.

Lemma wf_tree_insert (t : gmap location node) l nd :
  wf_tree t → t !! l ≠ Some Dir → parent_is_dir t l = true →
  wf_tree (<[l := nd]> t).
Proof.
  intros Hwf Hl Hp. unfold wf_tree. apply map_Forall_lookup. intros k x Hk.
  apply parent_is_dir_insert; [done|].
  destruct (decide (l = k)) as [->|Hne]; [done|].
  rewrite lookup_insert_ne in Hk by done. by apply (wf_tree_present _ _ x).
Qed.

Lemma good_world_insert w l nd :
  good_world w → files w !! l ≠ Some Dir → parent_is_dir (files w) l = true →
  good_world (set_files (<[l := nd]>) w).
Proof.
  intros [Hwf Hc] Hl Hp. split; simpl.
  - by apply wf_tree_insert.
  - rewrite lookup_insert_ne; [done|]. intros ->. by rewrite Hc in Hl.
Qed.

Lemma good_world_os_mkdir p : preserves good_world (os_mkdir p).
Proof.
  intros w o w' HP Hrun. destruct o as [[]|e].
  - apply os_mkdir_returns in Hrun as (l & Hr & Hl & ->).
    apply good_world_insert; [done|by rewrite Hl|by apply (resolve_parent_is_dir w p)].
  - by apply os_mkdir_raises in Hrun as ->.
Qed.

Lemma good_world_write_file p c : preserves good_world (write_file p c).
Proof.
  intros w o w' HP Hrun. destruct o as [[]|e].
  - apply write_file_returns in Hrun as (l & Hr & Hl & ->).
    apply good_world_insert; [done|done|by apply (resolve_parent_is_dir w p)].
  - by apply write_file_raises in Hrun as ->.
Qed.

Lemma good_world_set_heap w f : good_world w → good_world (set_heap f w).
Proof. by intros [Hwf Hc]. Qed.

Lemma good_world_set_screen w f : good_world w → good_world (set_screen f w).
Proof. by intros [Hwf Hc]. Qed.

Lemma good_world_set_speaker_model w b :
  good_world w → good_world (set_speaker_model b w).
Proof. by intros [Hwf Hc]. Qed.

Lemma good_world_save base u f v meta :
  preserves good_world (save_user_embeddings base u f v meta).
Proof.
  apply preserves_save_user_embeddings.
  - apply good_world_set_heap.
  - apply good_world_os_mkdir.
  - apply good_world_write_file.
Qed.

(** A save started in a well-formed tree whose working directory exists
    ends in one, whatever the username and whatever the outcome: every
    file and directory it leaves behind hangs in a directory. *)
Theorem save_user_embeddings_keeps_tree_well_formed
    (base u : string) (f v : vec) (meta : option ref) (w : world) :
  good_world w → good_world (run (save_user_embeddings base u f v meta) w).
Proof.
  intros Hg. unfold run.
  destruct (save_user_embeddings base u f v meta w) as [o w'] eqn:Hrun.
  by apply (good_world_save base u f v meta w o w').
Qed.

Lemma save_user_embeddings_keeps_tree_well_formed_witness :
  good_world fresh_world ∧
  good_world (run (save_user_embeddings "users" "../a/b" [1; 0]%float [0; 1]%float None)
                  fresh_world).
Proof.
  assert (good_world fresh_world) as Hg.
  { split; [apply (bool_decide_eq_true_1 _)|]; vm_compute; reflexivity. }
  split; [exact Hg|].
  by apply (save_user_embeddings_keeps_tree_well_formed
              "users" "../a/b" [1; 0]%float [0; 1]%float None fresh_world).
Defined.

(** Every run of the Admin page started in a well-formed tree whose
    working directory exists ends in one. *)
Theorem admin_page_keeps_tree_well_formed `{Collaborators}
    (i : admin_inputs) (w : world) :
  good_world w → good_world (run (admin_page i) w).
Proof.
  intros Hg. unfold run. destruct (admin_page i w) as [o w'] eqn:Hrun.
  apply (preserves_admin_page good_world) in Hrun; [done|..|done].
  - apply good_world_set_heap.
  - apply good_world_set_screen.
  - apply good_world_set_speaker_model.
  - apply good_world_os_mkdir.
  - apply good_world_write_file.
Qed.

Lemma admin_page_keeps_tree_well_formed_witness :
  good_world fresh_world ∧
  good_world (run (@admin_page stub_models (create_admin "alice" alice_face alice_voice))
                  fresh_world).
Proof.
  assert (good_world fresh_world) as Hg.
  { split; [apply (bool_decide_eq_true_1 _)|]; vm_compute; reflexivity. }
  split; [exact Hg|].
  by apply (@admin_page_keeps_tree_well_formed stub_models
              (create_admin "alice" alice_face alice_voice) fresh_world).
Defined.

(** ** Where the speaker model goes *)

Lemma walk_plain (t : gmap location node) cur ps l :
  Forall (λ c, String.eqb c ".." = false) ps →
  walk t cur ps = Returns l → l = (rev ps ++ cur)%list.
Proof.
  intros Hps. revert cur. induction Hps as [|c ps Hc _ IH]; intros cur; simpl.
  - by intros [= <-].
  - destruct (t !! cur) as [[|?]|]; try done. rewrite Hc.
    intros ->%IH. by rewrite <-app_assoc.
Qed.

Lemma exist_ok_check_same p e w o w' :
  (d <- is_dir p ;; if d then ret () else raise e) w = (o, w') → w' = w.
Proof.
  rewrite bind_read_only by apply read_only_gets.
  destruct (result (is_dir p) w) as [[|]|e0]; by intros [= _ <-].
Qed.

Lemma mkdir_exist_ok_raises p w e w' :
  mkdir_exist_ok p w = (Raises e, w') → w' = w.
Proof.
  unfold mkdir_exist_ok, try_except.
  destruct (os_mkdir p w) as [[[]|e0] w1] eqn:Hos; [done|].
  apply os_mkdir_raises in Hos as ->.
  destruct (is_FileNotFoundError e0); [by intros [= _ <-]|].
  by intros ->%exist_ok_check_same.
Qed.

Lemma elem_of_uppers_self (rparts : list string) : rparts ∈ uppers rparts.
Proof. destruct rparts; by left. Qed.

(** [mkdir(parents=True, exist_ok=True)] of a path without [".."] changes
    nothing but the location it names and the locations above it. *)
Lemma mkdir_parents_confined anch rparts w o w' :
  Forall (λ c, String.eqb c ".." = false) rparts →
  mkdir_parents anch rparts w = (o, w') →
  ∀ k, k ∉ (λ r, (r ++ (if anch then [] else cwd w))%list) <$> uppers rparts →
       files w' !! k = files w !! k.
Proof.
  revert w o w'. induction rparts as [|c up IH]; intros w o w' Hpl Hrun k Hk.
  - rewrite mkdir_parents_eq in Hrun. cbv zeta in Hrun. unfold try_except in Hrun.
    destruct (os_mkdir _ w) as [[[]|e] w1] eqn:Hos.
    + injection Hrun as _ <-.
      apply os_mkdir_returns in Hos as (l & Hr & _ & ->). simpl.
      rewrite lookup_insert_ne; [done|]. intros <-. apply Hk.
      unfold resolve in Hr. simpl in Hr. injection Hr as <-. by left.
    + apply os_mkdir_raises in Hos as ->.
      destruct (is_FileNotFoundError e); [by injection Hrun as _ <-|].
      by apply exist_ok_check_same in Hrun as ->.
  - assert (Forall (λ c, String.eqb c ".." = false) up) as Hup
      by (by apply Forall_cons in Hpl as [_ ?]).
    rewrite mkdir_parents_eq in Hrun. cbv zeta in Hrun. unfold try_except in Hrun.
    set (self := PurePath.Make anch (rev (c :: up))) in *.
    assert (∀ w0 l, cwd w0 = cwd w → resolve w0 self = Returns l →
                    l = ((c :: up) ++ (if anch then [] else cwd w))%list) as Hself.
    { intros w0 l Hc0 Hr. unfold resolve, self in Hr.
      cbn [PurePath.anchored PurePath.parts] in Hr. rewrite Hc0 in Hr.
      apply walk_plain in Hr; [|by apply Forall_rev in Hpl].
      by rewrite rev_involutive in Hr. }
    destruct (os_mkdir self w) as [[[]|e] w1] eqn:Hos.
    + injection Hrun as _ <-.
      apply os_mkdir_returns in Hos as (l & Hr & _ & ->). simpl.
      rewrite lookup_insert_ne; [done|]. intros <-. apply Hk.
      rewrite (Hself w l eq_refl Hr). apply list_elem_of_fmap.
      exists (c :: up). split; [done|by left].
    + apply os_mkdir_raises in Hos as ->.
      destruct (is_FileNotFoundError e).
      * unfold bind in Hrun.
        destruct (mkdir_parents anch up w) as [[[]|e2] w2] eqn:Hpar.
        -- pose proof (mkdir_parents_env _ _ _ _ _ Hpar) as (Hc2 & _).
           assert (files w2 !! k = files w !! k) as H2.
           { apply (IH _ _ _ Hup Hpar). intros Hin. apply Hk.
             apply list_elem_of_fmap in Hin as (r & -> & Hr).
             apply list_elem_of_fmap. exists r. split; [done|by right]. }
           destruct o as [[]|e3].
           ++ apply mkdir_exist_ok_returns in Hrun
                as (_ & _ & _ & l & Hr & _ & [->|[_ ->]]); [done|].
              simpl. rewrite lookup_insert_ne; [done|]. intros <-. apply Hk.
              rewrite (Hself w2 l Hc2 Hr). apply list_elem_of_fmap.
              exists (c :: up). split; [done|by left].
           ++ by apply mkdir_exist_ok_raises in Hrun as ->.
        -- injection Hrun as _ <-.
           apply (IH _ _ _ Hup Hpar). intros Hin. apply Hk.
           apply list_elem_of_fmap in Hin as (r & -> & Hr).
           apply list_elem_of_fmap. exists r. split; [done|by right].
      * by apply exist_ok_check_same in Hrun as ->.
Qed.

(** A location is not in the directory of the speaker model. *)
Ltac not_model :=
  let k := fresh "k" in
  let Hk := fresh "Hk" in
  let Hlen := fresh "Hlen" in
  unfold in_model_dir, model_dir; intros [k Hk];
  pose proof (f_equal length Hk) as Hlen;
  rewrite length_app in Hlen; simpl in Hlen;
  destruct k as [|? [|? [|? [|? ?]]]]; simpl in Hlen; try lia;
  simpl in Hk; by simplify_eq.

Lemma model_locations_in_model_dir w k :
  k ∈ model_locations w → in_model_dir w k.
Proof.
  unfold model_locations, in_model_dir, model_dir. intros Hin.
  repeat (apply elem_of_cons in Hin as [->|Hin];
          [first [by exists [] | by eexists [_] | by eexists [_; _]]|]).
  by apply not_elem_of_nil in Hin.
Qed.

Lemma same_but_model_refl w : same_but_model w w.
Proof. by split_and!. Qed.

Lemma same_but_model_trans w1 w2 w3 :
  same_but_model w1 w2 → same_but_model w2 w3 → same_but_model w1 w3.
Proof.
  intros (Hc & Hh & Ho & Hf) (Hc' & Hh' & Ho' & Hf').
  split_and!; try congruence.
  intros k Hk. rewrite Hf', Hf; [done..|]. unfold in_model_dir, model_dir in *.
  by rewrite Hc.
Qed.


Section speaker_model.
Context `{Collaborators}.

Lemma get_speaker_model_kind_kept w : kind_kept w (run get_speaker_model w).
Proof.
  unfold run. destruct (get_speaker_model w) as [o w'] eqn:Hrun.
  apply (preserves_get_speaker_model (kind_kept w)) in Hrun;
    [done|..|apply kind_kept_refl].
  - apply kind_kept_set_heap.
  - apply kind_kept_set_screen.
  - apply kind_kept_set_speaker_model.
  - apply kind_kept_os_mkdir.
  - apply kind_kept_write_file.
Qed.

Lemma get_speaker_model_good_world w :
  good_world w → good_world (run get_speaker_model w).
Proof.
  intros Hg. unfold run. destruct (get_speaker_model w) as [o w'] eqn:Hrun.
  apply (preserves_get_speaker_model good_world) in Hrun; [done|..|done].
  - apply good_world_set_heap.
  - apply good_world_set_screen.
  - apply good_world_set_speaker_model.
  - apply good_world_os_mkdir.
  - apply good_world_write_file.
Qed.

(** Fetching the model changes nothing but its two directories and its
    hyperparameter file, whatever the outcome. *)
Lemma from_hparams_confined w o w' :
  files w !! cwd w = Some Dir →
  from_hparams speaker_source speaker_savedir w = (o, w') →
  unchanged_outside (model_locations w) w w'.
Proof.
  intros Hc Hrun k Hk.
  destruct (decide (k = cwd w)) as [->|Hne].
  { assert (kind_kept w w') as [_ Hkk].
    { apply (preserves_from_hparams (kind_kept w)) in Hrun;
        [done|..|apply kind_kept_refl].
      - apply kind_kept_set_heap.
      - apply kind_kept_set_screen.
      - apply kind_kept_set_speaker_model.
      - apply kind_kept_os_mkdir.
      - apply kind_kept_write_file. }
    specialize (Hkk (cwd w)). rewrite Hc in Hkk. by rewrite Hkk. }
  unfold from_hparams in Hrun. cbv zeta in Hrun.
  change (PurePath.Path speaker_savedir)
    with (PurePath.Make false ["pretrained_models"; "spkrec-ecapa-voxceleb"]) in Hrun.
  change (PurePath.Make false ["pretrained_models"; "spkrec-ecapa-voxceleb"] // hparams_file)
    with (PurePath.Make false
            ["pretrained_models"; "spkrec-ecapa-voxceleb"; "hyperparams.yaml"]) in Hrun.
  unfold bind at 1 in Hrun.
  destruct (mkdir _ w) as [o1 w1] eqn:Hm.
  assert (cwd w1 = cwd w ∧ files w1 !! k = files w !! k) as [Hc1 H1].
  { unfold mkdir in Hm. cbn [PurePath.anchored PurePath.parts rev app] in Hm.
    split; [by apply mkdir_parents_env in Hm as (? & _)|].
    assert (Forall (λ c, String.eqb c ".." = false)
              ["spkrec-ecapa-voxceleb"; "pretrained_models"]) as Hpl
      by (by repeat constructor).
    apply (mkdir_parents_confined _ _ _ _ _ Hpl Hm).
    simpl. intros Hin. apply Hk. unfold model_locations.
    repeat (apply elem_of_cons in Hin as [->|Hin]; [set_solver|]).
    by apply not_elem_of_nil in Hin. }
  destruct o1 as [[]|e]; [|by injection Hrun as _ <-].
  unfold bind, lift in Hrun.
  destruct (fetch speaker_source hparams_file) as [hp|e]; [|by injection Hrun as _ <-].
  destruct o as [[]|e].
  - apply write_file_returns in Hrun as (l & Hr & _ & ->). simpl.
    rewrite lookup_insert_ne; [done|]. intros <-. apply Hk.
    unfold resolve in Hr. cbn [PurePath.anchored PurePath.parts] in Hr.
    apply walk_plain in Hr; [|by repeat constructor].
    rewrite Hc1 in Hr. subst l. unfold model_locations. simpl. set_solver.
  - by apply write_file_raises in Hrun as ->.
Qed.

Lemma get_speaker_model_same_but_model w :
  files w !! cwd w = Some Dir → same_but_model w (run get_speaker_model w).
Proof.
  intros Hc. destruct (get_speaker_model_env w) as (Hcw & Hh & _ & Ho).
  split_and!; [done..|].
  unfold run. rewrite get_speaker_model_eq.
  destruct (speaker_model w); [done|].
  intros k Hk.
  assert (k ∉ model_locations w) as Hk'
    by (intros Hin; by apply Hk, model_locations_in_model_dir).
  destruct (from_hparams speaker_source speaker_savedir w) as [[[]|e] w1] eqn:Hf;
    by apply (from_hparams_confined _ _ _ Hc Hf).
Qed.

(** A voice extraction changes nothing but the module global and what is
    at the locations of the speaker model: the temporary file is gone. *)
Lemma get_voice_embedding_from_wav_same_but_model wav w :
  files w !! cwd w = Some Dir →
  same_but_model w (run (get_voice_embedding_from_wav wav) w).
Proof.
  rewrite run_get_voice_embedding_from_wav. apply get_speaker_model_same_but_model.
Qed.

Lemma get_voice_embedding_from_wav_good_world wav w :
  good_world w → good_world (run (get_voice_embedding_from_wav wav) w).
Proof.
  rewrite run_get_voice_embedding_from_wav. apply get_speaker_model_good_world.
Qed.

End speaker_model.

(** The store does not see the speaker model. *)
Lemma load_user_embeddings_same_but_model b u w w' :
  PurePath.plain_name b = true → PurePath.plain_name u = true →
  b ≠ "pretrained_models" →
  same_but_model w w' →
  result (load_user_embeddings b u) w' = result (load_user_embeddings b u) w.
Proof.
  intros Hb Hu Hne (Hc & _ & _ & Hf).
  apply load_user_embeddings_agree; [done..|]. split; [done|].
  intros k Hk. apply Hf. unfold template_locations in Hk.
  repeat (apply elem_of_cons in Hk as [->|Hk]; [not_model|]).
  by apply not_elem_of_nil in Hk.
Qed.


Lemma lookup_same_but_model w w' k :
  same_but_model w w' → ¬ in_model_dir w k → files w' !! k = files w !! k.
Proof. intros (_ & _ & _ & Hf). apply Hf. Qed.

(** ** The screen plays no part in a voice extraction *)

Lemma screen_blind_ret {A} (a : A) : screen_blind (ret a).
Proof. done. Qed.

Lemma screen_blind_raise {A} e : screen_blind (@raise A e).
Proof. done. Qed.

Lemma screen_blind_lift {A} (o : outcome A) : screen_blind (lift o).
Proof. done. Qed.

Lemma screen_blind_bind {A B} (m : py A) (k : A → py B) :
  screen_blind m → (∀ a, screen_blind (k a)) → screen_blind (bind m k).
Proof.
  intros Hm Hk f w. unfold bind. rewrite Hm.
  destruct (m w) as [[a|e] w1]; simpl; [|done]. by rewrite Hk.
Qed.

Lemma screen_blind_try_except {A} (m : py A) (h : exn → py A) :
  screen_blind m → (∀ e, screen_blind (h e)) → screen_blind (try_except m h).
Proof.
  intros Hm Hh f w. unfold try_except. rewrite Hm.
  destruct (m w) as [[a|e] w1]; simpl; [done|]. by rewrite Hh.
Qed.

Lemma screen_blind_os_mkdir p : screen_blind (os_mkdir p).
Proof.
  intros f w. unfold os_mkdir, resolve. simpl.
  destruct (walk _ _ _) as [l|e]; [|done]. by destruct (files w !! l).
Qed.

Lemma screen_blind_is_dir p : screen_blind (is_dir p).
Proof. done. Qed.

Lemma screen_blind_mkdir_exist_ok p : screen_blind (mkdir_exist_ok p).
Proof.
  apply screen_blind_try_except; [apply screen_blind_os_mkdir|]. intros e.
  destruct (is_FileNotFoundError e); [apply screen_blind_raise|].
  apply screen_blind_bind; [apply screen_blind_is_dir|].
  intros [|]; [apply screen_blind_ret|apply screen_blind_raise].
Qed.

Lemma screen_blind_mkdir_parents anch rparts :
  screen_blind (mkdir_parents anch rparts).
Proof.
  induction rparts as [|c up IH]; rewrite mkdir_parents_eq; cbv zeta;
    (apply screen_blind_try_except; [apply screen_blind_os_mkdir|]); intros e;
    destruct (is_FileNotFoundError e);
    try apply screen_blind_raise;
    try (apply screen_blind_bind; [apply screen_blind_is_dir|];
         intros [|]; [apply screen_blind_ret|apply screen_blind_raise]).
  apply screen_blind_bind; [done|]. intros _. apply screen_blind_mkdir_exist_ok.
Qed.

Lemma screen_blind_write_file p c : screen_blind (write_file p c).
Proof.
  intros f w. unfold write_file, resolve. simpl.
  destruct (walk _ _ _) as [l|e]; [|done]. by destruct (files w !! l) as [[|?]|].
Qed.

Section screen_blind_voice.
Context `{Collaborators}.

Lemma screen_blind_get_speaker_model : screen_blind get_speaker_model.
Proof.
  intros f w. rewrite !get_speaker_model_eq. simpl.
  destruct (speaker_model w); [done|].
  assert (screen_blind (from_hparams speaker_source speaker_savedir)) as Hf.
  { apply screen_blind_bind; [apply screen_blind_mkdir_parents|]. intros _.
    apply screen_blind_bind; [apply screen_blind_lift|]. intros hp.
    apply screen_blind_write_file. }
  rewrite Hf.
  by destruct (from_hparams speaker_source speaker_savedir w) as [[[]|e] w1].
Qed.

Lemma screen_blind_get_voice_embedding_from_wav wav :
  screen_blind (get_voice_embedding_from_wav wav).
Proof.
  intros f w. rewrite !get_voice_embedding_from_wav_eq. unfold result, run.
  rewrite !(screen_blind_get_speaker_model f w). simpl.
  by destruct (get_speaker_model w) as [[[]|e] w1].
Qed.

Lemma result_get_voice_set_screen wav f w :
  result (get_voice_embedding_from_wav wav) (set_screen f w) =
  result (get_voice_embedding_from_wav wav) w.
Proof. unfold result. by rewrite screen_blind_get_voice_embedding_from_wav. Qed.

Lemma run_get_voice_set_screen wav f w :
  run (get_voice_embedding_from_wav wav) (set_screen f w) =
  set_screen f (run (get_voice_embedding_from_wav wav) w).
Proof. unfold run. by rewrite screen_blind_get_voice_embedding_from_wav. Qed.

End screen_blind_voice.

(** ** Verification: the decision *)

Section decision.
Context `{Collaborators}.

Lemma verify_events_scores img wav user w fl vl w1 fs vs m sf sv :
  result (get_face_encoding_from_image img) w = Returns fl →
  get_voice_embedding_from_wav wav w = (Returns vl, w1) →
  result (load_user_embeddings BASE_USERS_DIR user) w1 = Returns (fs, vs, m) →
  cosine_similarity fl fs = Returns sf →
  cosine_similarity vl vs = Returns sv →
  verify_events img wav user w =
  [st_write (FaceMatch sf (PrimFloat.leb 0.55 sf));
   st_write (VoiceMatch sv (PrimFloat.leb 0.6 sv));
   if PrimFloat.leb 0.55 sf && PrimFloat.leb 0.6 sv
   then st_success AccessGranted else st_error AccessDenied].
Proof.
  intros Hfl Hvl Hld Hsf Hsv. unfold verify_events. unfold result at 1.
  rewrite verify_steps_eq, Hfl, Hvl, Hld. simpl. by rewrite Hsf, Hsv.
Qed.

(** C4: when the two live encodings were extracted and the template
    loaded, the page shows the two cosine scores, each with the verdict of
    its threshold (0.55 for the face, 0.6 for the voice), and grants
    access exactly when both scores reach their thresholds; scores 0.7 and
    0.5 give a denial.  Access is granted in no other run of the page. *)
Theorem granted_iff_both_modalities_pass (i : authenticate_inputs) (w : world) :
  (∀ img wav fl vl w1 fs vs m sf sv,
     verify_button i = true → truthy (target_user i) = true →
     img_input i = Some img → audio_file i = Some wav →
     result (get_face_encoding_from_image img) w = Returns fl →
     get_voice_embedding_from_wav wav w = (Returns vl, w1) →
     result (load_user_embeddings BASE_USERS_DIR (target_user i)) w1
       = Returns (fs, vs, m) →
     cosine_similarity fl fs = Returns sf →
     cosine_similarity vl vs = Returns sv →
     shown (authenticate_page i) w =
       [st_write (FaceMatch sf (PrimFloat.leb 0.55 sf));
        st_write (VoiceMatch sv (PrimFloat.leb 0.6 sv));
        if PrimFloat.leb 0.55 sf && PrimFloat.leb 0.6 sv
        then st_success AccessGranted else st_error AccessDenied] ∧
     (st_success AccessGranted ∈ shown (authenticate_page i) w ↔
      PrimFloat.leb 0.55 sf = true ∧ PrimFloat.leb 0.6 sv = true) ∧
     (sf = 0.7%float → sv = 0.5%float →
      st_error AccessDenied ∈ shown (authenticate_page i) w ∧
      st_success AccessGranted ∉ shown (authenticate_page i) w)) ∧
  (st_success AccessGranted ∈ shown (authenticate_page i) w →
   ∃ img wav fl vl w1 fs vs m sf sv,
     verify_button i = true ∧ truthy (target_user i) = true ∧
     img_input i = Some img ∧ audio_file i = Some wav ∧
     result (get_face_encoding_from_image img) w = Returns fl ∧
     get_voice_embedding_from_wav wav w = (Returns vl, w1) ∧
     result (load_user_embeddings BASE_USERS_DIR (target_user i)) w1
       = Returns (fs, vs, m) ∧
     cosine_similarity fl fs = Returns sf ∧
     cosine_similarity vl vs = Returns sv ∧
     PrimFloat.leb 0.55 sf = true ∧ PrimFloat.leb 0.6 sv = true).
Proof.
  split.
  - intros img wav fl vl w1 fs vs m sf sv Hb Hu Hi Ha Hfl Hvl Hld Hsf Hsv.
    rewrite (authenticate_page_shown i img wav w Hb Hu Hi Ha).
    rewrite (verify_events_scores _ _ _ _ _ _ _ _ _ _ _ _ Hfl Hvl Hld Hsf Hsv).
    split; [done|]. split.
    + destruct (PrimFloat.leb 0.55 sf), (PrimFloat.leb 0.6 sv);
        simpl; (split; [intros Hin|intros [? ?]; try done]);
        repeat (apply elem_of_cons in Hin as [Hin|Hin]; [done|]);
        try (by apply not_elem_of_nil in Hin).
      do 2 right. left.
    + intros -> ->.
      replace (PrimFloat.leb 0.55 0.7 && PrimFloat.leb 0.6 0.5)
        with false by reflexivity.
      split; [do 2 right; left|].
      intros Hin. repeat (apply elem_of_cons in Hin as [Hin|Hin]; [done|]).
      by apply not_elem_of_nil in Hin.
  - intros Hin.
    destruct (verify_button i) eqn:Hb;
      [|exfalso; revert Hin; apply authenticate_page_idle; auto].
    destruct (truthy (target_user i)) eqn:Hu;
      [|exfalso; revert Hin; apply authenticate_page_idle; auto].
    destruct (img_input i) as [img|] eqn:Hi;
      [|exfalso; revert Hin; apply authenticate_page_idle; auto].
    destruct (audio_file i) as [wav|] eqn:Ha;
      [|exfalso; revert Hin; apply authenticate_page_idle; auto].
    rewrite (authenticate_page_shown i img wav w Hb Hu Hi Ha) in Hin.
    unfold verify_events in Hin. unfold result at 1 in Hin.
    rewrite verify_steps_eq in Hin.
    destruct (result (get_face_encoding_from_image img) w) as [fl|e] eqn:Hfl;
      [|by apply list_elem_of_singleton in Hin].
    destruct (get_voice_embedding_from_wav wav w) as [[vl|e] w1] eqn:Hvl;
      [|by apply list_elem_of_singleton in Hin].
    destruct (result (load_user_embeddings _ _) w1) as [[[fs vs] m]|e] eqn:Hld;
      [|by apply list_elem_of_singleton in Hin].
    simpl in Hin.
    destruct (cosine_similarity fl fs) as [sf|] eqn:Hsf;
      [|by apply list_elem_of_singleton in Hin].
    destruct (cosine_similarity vl vs) as [sv|] eqn:Hsv;
      [|by apply list_elem_of_singleton in Hin].
    assert (PrimFloat.leb 0.55 sf = true ∧ PrimFloat.leb 0.6 sv = true) as [Hf Hv].
    { change face_threshold with 0.55%float in Hin.
      change voice_threshold with 0.6%float in Hin.
      destruct (PrimFloat.leb 0.55 sf), (PrimFloat.leb 0.6 sv);
        simpl in Hin; [done|..];
        repeat (apply elem_of_cons in Hin as [Hin|Hin]; [done|]);
        by apply not_elem_of_nil in Hin. }
    exists img, wav, fl, vl, w1, fs, vs, m, sf, sv. by split_and!.
Qed.

End decision.

Lemma granted_iff_both_modalities_pass_witness :
  shown (@authenticate_page stub_models (verify_with "alice" tilted_face mixed_voice))
        alice_world =
    [st_write (FaceMatch 0.7%float true); st_write (VoiceMatch 0.5%float false);
     st_error AccessDenied] ∧
  (st_success AccessGranted ∈
     shown (@authenticate_page stub_models (verify_with "alice" tilted_face mixed_voice))
           alice_world ↔
   PrimFloat.leb 0.55 0.7 = true ∧ PrimFloat.leb 0.6 0.5 = true).
Proof.
  destruct (proj1 (@granted_iff_both_modalities_pass stub_models
                     (verify_with "alice" tilted_face mixed_voice) alice_world)
              tilted_face mixed_voice
              [7; 7; 1; 1]%float [1; 1; 1; 1]%float
              (run (@get_voice_embedding_from_wav stub_models mixed_voice) alice_world)
              [1; 0; 0; 0]%float [0; 1; 0; 0]%float
              {[ "role" := PyStr "admin"; "username" := PyStr "alice" ]}
              0.7%float 0.5%float)
    as (Hs & Hg & _); try (vm_compute; reflexivity).
  split; [exact Hs | exact Hg].
Defined.

(** ** Verification of an unknown user *)

Section unknown_user.
Context `{Collaborators}.

Lemma load_user_embeddings_missing base u w :
  fst (exists_ (PurePath.Path base // u) w) = Returns false →
  load_user_embeddings base u w = (Raises (FileNotFoundError "User not found"), w).
Proof.
  unfold load_user_embeddings, bind, exists_, gets. simpl.
  intros [= ->]. done.
Qed.

(** A username that is one ordinary name and has no directory before a
    voice extraction has none after it. *)
Lemma exists_user_dir_after_voice u wav w :
  PurePath.plain_name u = true → files w !! cwd w = Some Dir →
  fst (exists_ (PurePath.Path BASE_USERS_DIR // u)
               (run (get_voice_embedding_from_wav wav) w)) =
  fst (exists_ (PurePath.Path BASE_USERS_DIR // u) w).
Proof.
  intros Hu Hc.
  pose proof (get_voice_embedding_from_wav_same_but_model wav w Hc) as (Hcw & _ & _ & Hf).
  set (w1 := run (get_voice_embedding_from_wav wav) w) in *.
  assert (agree_on (cwd w :: template_locations BASE_USERS_DIR u w) w w1) as Hag.
  { split; [done|]. intros k Hk. apply Hf. unfold template_locations in Hk.
    repeat (apply elem_of_cons in Hk as [->|Hk]; [not_model|]).
    by apply not_elem_of_nil in Hk. }
  destruct (resolve_agree_user_dir BASE_USERS_DIR u w w1 eq_refl Hu Hag) as [Hr Hl].
  apply (exists_agree _ w w1 (u :: BASE_USERS_DIR :: cwd w) Hr Hl).
  apply Hf. not_model.
Qed.

(** C5, as the code has it: the page extracts the live face, then the live
    voice, and only then reads the store.  For a username that has no
    directory when the store is read, it reports the failure of the face
    extraction if there is one, else that of the voice extraction, and
    "User not found" only when both extractions succeed.  A username that
    is one ordinary name and has no directory before the run has none when
    the store is read. *)
Theorem unknown_user_reported_after_extraction
    (i : authenticate_inputs) (w : world) (img wav : bytes) :
  verify_button i = true → truthy (target_user i) = true →
  img_input i = Some img → audio_file i = Some wav →
  (fst (exists_ (PurePath.Path BASE_USERS_DIR // target_user i)
                (run (get_voice_embedding_from_wav wav) w)) = Returns false →
   result (authenticate_page i) w = Returns () ∧
   shown (authenticate_page i) w =
     [st_exception
        match result (get_face_encoding_from_image img) w with
        | Raises e => e
        | Returns _ =>
            match result (get_voice_embedding_from_wav wav) w with
            | Raises e => e
            | Returns _ => FileNotFoundError "User not found"
            end
        end]) ∧
  (PurePath.plain_name (target_user i) = true → files w !! cwd w = Some Dir →
   fst (exists_ (PurePath.Path BASE_USERS_DIR // target_user i) w) = Returns false →
   fst (exists_ (PurePath.Path BASE_USERS_DIR // target_user i)
                (run (get_voice_embedding_from_wav wav) w)) = Returns false).
Proof.
  intros Hb Hu Hi Ha. split.
  - intros Hex. split.
    { unfold result. by rewrite (authenticate_page_verify i img wav w Hb Hu Hi Ha). }
    rewrite (authenticate_page_shown i img wav w Hb Hu Hi Ha).
    unfold verify_events. unfold result at 1. rewrite verify_steps_eq.
    destruct (result (get_face_encoding_from_image img) w); [|done].
    unfold run in Hex. unfold result.
    destruct (get_voice_embedding_from_wav wav w) as [[vl|e] w1]; [|done].
    simpl in Hex. unfold result. by rewrite (load_user_embeddings_missing _ _ _ Hex).
  - intros Hpl Hc Hex. by rewrite exists_user_dir_after_voice.
Qed.

End unknown_user.

Lemma unknown_user_reported_after_extraction_witness :
  result (@authenticate_page stub_models (verify_with "ghost" alice_face alice_voice))
         fresh_world = Returns () ∧
  shown (@authenticate_page stub_models (verify_with "ghost" alice_face alice_voice))
        fresh_world = [st_exception (FileNotFoundError "User not found")].
Proof.
  apply (proj1 (@unknown_user_reported_after_extraction stub_models
                  (verify_with "ghost" alice_face alice_voice) fresh_world
                  alice_face alice_voice eq_refl eq_refl eq_refl eq_refl)).
  vm_compute; reflexivity.
Defined.

(** C5 fails as stated: for a username nobody enrolled and an image without
    a face, the failure reported is the missing face, not the unknown user. *)
Lemma unknown_user_missing_face_reported_first :
  result (load_user_embeddings BASE_USERS_DIR "ghost") fresh_world =
    Raises (FileNotFoundError "User not found") ∧
  shown (@authenticate_page stub_models (verify_with "ghost" [] alice_voice))
        fresh_world =
    [st_exception
       (ValueError "No face found in the image. Please upload a clear face image.")] ∧
  st_exception (FileNotFoundError "User not found") ∉
    shown (@authenticate_page stub_models (verify_with "ghost" [] alice_voice))
          fresh_world.
Proof.
  split; [vm_compute; reflexivity|].
  assert (shown (@authenticate_page stub_models (verify_with "ghost" [] alice_voice))
                fresh_world =
          [st_exception
             (ValueError "No face found in the image. Please upload a clear face image.")])
    as Hs by (vm_compute; reflexivity).
  split; [exact Hs|]. rewrite Hs. by intros ?%list_elem_of_singleton.
Qed.

(** ** The body of the two enrollment handlers *)

Section enrollment.
Context `{Collaborators}.

(** The body shared by "Create Admin" and "Enroll New User": extract both
    embeddings, make the metadata dict [d0], save, report [msg].  The
    template is stored in the tree the voice extraction has left. *)
Lemma enroll_returns (d0 : pydict) (msg : message) u face voice fenc rest venc w :
  PurePath.plain_name u = true →
  wf_tree (files w) → files w !! cwd w = Some Dir →
  is_file_at (files w) (BASE_USERS_DIR :: cwd w) = false →
  files w !! (u :: BASE_USERS_DIR :: cwd w) = None →
  face_encodings face = Returns (fenc :: rest) →
  result (get_voice_embedding_from_wav voice) w = Returns venc →
  try_except
    (fenc <- get_face_encoding_from_image face ;;
     venc <- get_voice_embedding_from_wav voice ;;
     meta <- new_dict d0 ;;
     save_user_embeddings BASE_USERS_DIR u fenc venc (Some meta) ;;
     emit (st_success msg))
    (λ e, emit (st_exception e)) w =
  (Returns (),
   {| cwd := cwd w;
      files := saved_files (BASE_USERS_DIR :: cwd w) (u :: BASE_USERS_DIR :: cwd w)
                 fenc venc (<["username" := PyStr u]> d0)
                 (files (run (get_voice_embedding_from_wav voice) w));
      heap := heap_after (Some (fresh (dom (heap w)))) u
                (<[fresh (dom (heap w)) := d0]> (heap w));
      screen := (screen w ++ [st_success msg])%list;
      speaker_model := speaker_model (run (get_voice_embedding_from_wav voice) w);
      scandir := scandir w |}).
Proof.
  intros Hu Hwf Hc Hlb Hlu Hface Hvoice.
  pose proof (get_voice_embedding_from_wav_same_but_model voice w Hc) as Hsame.
  pose proof (get_voice_embedding_from_wav_good_world voice w (conj Hwf Hc)) as [Hwf1 _].
  destruct (get_voice_embedding_from_wav_env voice w) as (Hcw & Hh & Hs & Ho).
  unfold result in Hvoice. unfold run in *.
  destruct (get_voice_embedding_from_wav voice w) as [o w1] eqn:Hv.
  simpl in *. subst o.
  assert (∀ k, ¬ in_model_dir w k → files w1 !! k = files w !! k) as Hout
    by (intros k; by apply lookup_same_but_model).
  assert (files w1 !! (u :: BASE_USERS_DIR :: cwd w) = None) as Hlu1
    by (rewrite Hout by not_model; done).
  assert (∀ n, is_dir_at (files w1) (n :: u :: BASE_USERS_DIR :: cwd w) = false) as Hart.
  { intros n. apply is_dir_at_false. intros Hn.
    apply (wf_tree_parent _ _ _ _ Hwf1) in Hn. congruence. }
  unfold try_except. unfold bind at 1.
  unfold get_face_encoding_from_image, bind at 1, lift. rewrite Hface. unfold ret at 1.
  unfold bind at 1. rewrite Hv.
  unfold bind at 1. unfold new_dict at 1. rewrite Hh.
  set (r := fresh (dom (heap w))).
  set (w2 := set_heap (<[r := d0]>) w1).
  unfold bind at 1.
  rewrite (save_user_embeddings_plain BASE_USERS_DIR u fenc venc (Some r) w2); simpl;
    rewrite ?Hcw, ?Hout by not_model; try done.
  - unfold emit, set_screen. simpl. by rewrite Hh, Hs, Ho, lookup_insert_eq.
  - unfold is_file_at in *. by rewrite Hout by not_model.
  - unfold is_file_at. by rewrite Hlu1.
Qed.

End enrollment.

(** ** Bootstrapping the first admin *)

Section bootstrap.
Context `{Collaborators}.




End bootstrap.



(** ** Admin Verify and the tree *)

Lemma list_users_same_store b w w' :
  same_store w w' → result (list_users b) w' = result (list_users b) w.
Proof.
  intros (Hc & Hf & _ & Ho). unfold result. rewrite !list_users_eq. simpl.
  unfold resolve, entries. by rewrite Hc, Hf, Ho.
Qed.

Lemma list_users_populated b w us :
  PurePath.plain_name b = true →
  result (list_users b) w = Returns us → us ≠ [] →
  files w !! cwd w = Some Dir ∧ files w !! (b :: cwd w) = Some Dir.
Proof.
  intros Hb. unfold result. rewrite list_users_eq, (resolve_root_eq _ _ Hb). simpl.
  destruct (files w !! cwd w) as [[|?]|]; try by intros [= <-].
  destruct (files w !! (b :: cwd w)) as [[|?]|]; try done.
  by intros [= <-].
Qed.

Section admin_login.
Context `{Collaborators}.



Lemma admin_verify_complete i img audio w :
  admin_verify_button i = true → truthy (admin_user i) = true →
  admin_img i = Some img → admin_audio i = Some audio →
  admin_verify i w =
  (Returns (fst (admin_verdict img audio (admin_user i) w)),
   set_screen (λ s, (s ++ [snd (admin_verdict img audio (admin_user i) w)])%list)
              (run (verify_steps img audio (admin_user i)) w)).
Proof.
  intros Hb Hu Hi Ha. unfold admin_verify, admin_verdict. rewrite Hb, Hu, Hi, Ha.
  unfold result, run. rewrite verify_steps_eq. unfold try_except.
  rewrite bind_read_only by apply read_only_get_face_encoding_from_image.
  destruct (result (get_face_encoding_from_image img) w) as [fl|e]; [|done].
  unfold bind at 1.
  destruct (get_voice_embedding_from_wav audio w) as [[vl|e] w1]; [|done].
  rewrite bind_read_only by apply read_only_load_user_embeddings.
  destruct (result (load_user_embeddings _ _) w1) as [[[fs vs] m]|e]; [|done].
  simpl. unfold bind at 1. rewrite is_face_match_eq.
  destruct (cosine_similarity fl fs) as [sf|e]; [|done].
  unfold bind at 1. rewrite is_voice_match_eq.
  destruct (cosine_similarity vl vs) as [sv|e]; [|done].
  simpl. by destruct (PrimFloat.leb face_threshold sf && PrimFloat.leb voice_threshold sv).
Qed.





End admin_login.

(** ** The checkbox in front of enrollment *)

Section checkbox.
Context `{Collaborators}.

Lemma enroll_panel_enrolls i w us face voice fenc rest venc :
  admin_flag i = true → enroll_button i = true →
  PurePath.plain_name (new_username i) = true →
  result (list_users BASE_USERS_DIR) w = Returns us → us ≠ [] →
  new_username i ∉ us →
  new_face i = Some face → new_voice i = Some voice →
  face_encodings face = Returns (fenc :: rest) →
  result (get_voice_embedding_from_wav voice) w = Returns venc →
  wf_tree (files w) →
  files w !! (new_username i :: BASE_USERS_DIR :: cwd w) = None →
  enroll_panel i w =
  (Returns (),
   {| cwd := cwd w;
      files := saved_files (BASE_USERS_DIR :: cwd w)
                 (new_username i :: BASE_USERS_DIR :: cwd w) fenc venc
                 (<["username" := PyStr (new_username i)]>
                    {[ "created_by" := PyStr "admin" ]})
                 (files (run (get_voice_embedding_from_wav voice) w));
      heap := heap_after (Some (fresh (dom (heap w)))) (new_username i)
                (<[fresh (dom (heap w)) := {[ "created_by" := PyStr "admin" ]}]> (heap w));
      screen := (screen w ++ [st_success (UserEnrolled (new_username i))])%list;
      speaker_model := speaker_model (run (get_voice_embedding_from_wav voice) w);
      scandir := scandir w |}).
Proof.
  intros Hflag Hbtn Hu Hus Hne Hnew Hface Hvoice Hfe Hve Hwf Hfree.
  destruct (list_users_populated BASE_USERS_DIR _ _ eq_refl Hus Hne) as [Hc Hlb].
  unfold enroll_panel.
  rewrite Hflag, Hbtn, (plain_name_truthy _ Hu), Hface, Hvoice.
  rewrite bind_read_only by apply read_only_list_users. rewrite Hus.
  rewrite bool_decide_eq_false_2 by done.
  apply (enroll_returns _ _ _ _ _ fenc rest venc); try done.
  unfold is_file_at. by rewrite Hlb.
Qed.

(** The world "Enroll New User" leaves: the template saved on top of what
    the voice extraction has left. *)
Lemma enroll_panel_enrolled_world i w us face voice fenc rest venc :
  admin_flag i = true → enroll_button i = true →
  PurePath.plain_name (new_username i) = true →
  result (list_users BASE_USERS_DIR) w = Returns us → us ≠ [] →
  new_username i ∉ us →
  new_face i = Some face → new_voice i = Some voice →
  face_encodings face = Returns (fenc :: rest) →
  result (get_voice_embedding_from_wav voice) w = Returns venc →
  wf_tree (files w) →
  files w !! (new_username i :: BASE_USERS_DIR :: cwd w) = None →
  ∃ w1, result (enroll_panel i) w = Returns () ∧
        files w1 !! cwd w1 = Some Dir ∧
        cwd (run (enroll_panel i) w) = cwd w1 ∧
        files (run (enroll_panel i) w) =
          saved_files (BASE_USERS_DIR :: cwd w1)
            (new_username i :: BASE_USERS_DIR :: cwd w1) fenc venc
            (<["username" := PyStr (new_username i)]>
               {[ "created_by" := PyStr "admin" ]})
            (files w1).
Proof.
  intros Hflag Hbtn Hu Hus Hne Hnew Hface Hvoice Hfe Hve Hwf Hfree.
  pose proof (enroll_panel_enrolls i w us face voice fenc rest venc
                Hflag Hbtn Hu Hus Hne Hnew Hface Hvoice Hfe Hve Hwf Hfree) as Hrun.
  destruct (list_users_populated BASE_USERS_DIR _ _ eq_refl Hus Hne) as [Hc _].
  pose proof (get_voice_embedding_from_wav_same_but_model voice w Hc)
    as (Hcw & _ & _ & Hout).
  exists (run (get_voice_embedding_from_wav voice) w).
  set (w1 := run (get_voice_embedding_from_wav voice) w) in *.
  unfold result, run. rewrite Hrun. simpl.
  split; [done|]. split; [|by rewrite Hcw].
  rewrite Hcw, Hout by not_model. done.
Qed.



End checkbox.



(** ** Loading incomplete templates *)

Lemma exists_child_missing ud n w l :
  PurePath.plain_name n = true →
  resolve w ud = Returns l → files w !! l = Some Dir →
  files w !! (n :: l) = None →
  exists_ (ud // n) w = (Returns false, w).
Proof.
  intros Hn Hr Hl Hf. unfold exists_, gets.
  by rewrite (resolve_child _ _ _ _ Hn Hr Hl), Hf.
Qed.

Lemma read_child_missing ud n w l :
  PurePath.plain_name n = true →
  resolve w ud = Returns l → files w !! l = Some Dir →
  files w !! (n :: l) = None →
  read_file (ud // n) w = (Raises ENOENT, w).
Proof.
  intros Hn Hr Hl Hf. unfold read_file.
  by rewrite (resolve_child _ _ _ _ Hn Hr Hl), Hf.
Qed.

(** A template stored without [meta.json] loads with an empty metadata
    dict, whatever the base directory and the username. *)
Theorem load_without_meta_gives_empty_dict
    (base u : string) (w : world) (l : location) (f v : vec) :
  resolve w (PurePath.Path base // u) = Returns l →
  files w !! l = Some Dir →
  files w !! ("face_enc.npy" :: l) = Some (File (Npy f)) →
  files w !! ("voice_enc.npy" :: l) = Some (File (Npy v)) →
  files w !! ("meta.json" :: l) = None →
  load_user_embeddings base u w = (Returns (f, v, ∅), w).
Proof.
  intros Hr Hl Hf Hv Hm. unfold load_user_embeddings.
  unfold bind at 1. unfold exists_ at 1, gets. rewrite Hr, Hl. simpl.
  unfold bind at 1, np_load, bind at 1.
  rewrite (read_child_at _ "face_enc.npy" _ _ l eq_refl Hr Hl Hf). unfold ret at 1.
  unfold bind at 1, bind at 1.
  rewrite (read_child_at _ "voice_enc.npy" _ _ l eq_refl Hr Hl Hv). unfold ret at 1.
  unfold bind at 1.
  by rewrite (exists_child_missing _ "meta.json" _ l eq_refl Hr Hl Hm).
Qed.

Lemma load_without_meta_gives_empty_dict_witness :
  let w := set_files (delete ["meta.json"; "alice"; "users"; "app"]) alice_world in
  load_user_embeddings "users" "alice" w =
  (Returns ([1; 0; 0; 0]%float, [0; 1; 0; 0]%float, ∅), w).
Proof.
  apply (load_without_meta_gives_empty_dict "users" "alice" _ ["alice"; "users"; "app"]);
    vm_compute; reflexivity.
Defined.

(** A user directory that lacks one of the two vectors does not load: the
    failure is the system's "no such file", raised before any template is
    returned, and it is not the "User not found" of an unknown user. *)
Theorem load_with_missing_vector_fails
    (base u : string) (w : world) (l : location) :
  resolve w (PurePath.Path base // u) = Returns l →
  files w !! l = Some Dir →
  (files w !! ("face_enc.npy" :: l) = None ∨
   (∃ f, files w !! ("face_enc.npy" :: l) = Some (File (Npy f))) ∧
   files w !! ("voice_enc.npy" :: l) = None) →
  load_user_embeddings base u w = (Raises ENOENT, w) ∧
  ENOENT ≠ FileNotFoundError "User not found".
Proof.
  intros Hr Hl Hmiss. split; [|done]. unfold load_user_embeddings.
  unfold bind at 1. unfold exists_ at 1, gets. rewrite Hr, Hl. simpl.
  unfold bind at 1, np_load, bind at 1.
  destruct Hmiss as [Hf|[[f Hf] Hv]].
  - by rewrite (read_child_missing _ "face_enc.npy" _ l eq_refl Hr Hl Hf).
  - rewrite (read_child_at _ "face_enc.npy" _ _ l eq_refl Hr Hl Hf). unfold ret at 1.
    unfold bind at 1, bind at 1.
    by rewrite (read_child_missing _ "voice_enc.npy" _ l eq_refl Hr Hl Hv).
Qed.

Lemma load_with_missing_vector_fails_witness :
  let w := set_files (delete ["voice_enc.npy"; "alice"; "users"; "app"]) alice_world in
  load_user_embeddings "users" "alice" w = (Raises ENOENT, w) ∧
  ENOENT ≠ FileNotFoundError "User not found".
Proof.
  apply (load_with_missing_vector_fails "users" "alice" _ ["alice"; "users"; "app"]);
    try (vm_compute; reflexivity).
  right. split; [eexists|]; vm_compute; reflexivity.
Defined.

(** ** A store root that is not a directory *)




(** ** Pages that only read *)


Section reading_pages.
Context `{Collaborators}.




End reading_pages.


Lemma resolve_same_store w w' p : same_store w w' → resolve w' p = resolve w p.
Proof. intros (Hc & Hf & _). unfold resolve. by rewrite Hc, Hf. Qed.

Lemma exists_same_store w w' p :
  same_store w w' → result (exists_ p) w' = result (exists_ p) w.
Proof.
  intros Hs. unfold result, exists_, gets. simpl.
  rewrite (resolve_same_store w w' p Hs). destruct Hs as (_ & -> & _). done.
Qed.

Lemma read_file_same_store w w' p :
  same_store w w' → result (read_file p) w' = result (read_file p) w.
Proof.
  intros Hs. unfold result, read_file.
  rewrite (resolve_same_store w w' p Hs). destruct Hs as (_ & -> & _).
  destruct (resolve w p) as [l|]; [|done]. by destruct (files w !! l) as [[|?]|].
Qed.

(** The outcome of a load depends on the working directory and the files
    only. *)
Lemma load_user_embeddings_same_store base u w w' :
  same_store w w' →
  result (load_user_embeddings base u) w' = result (load_user_embeddings base u) w.
Proof.
  intros Hs. unfold load_user_embeddings. unfold result at 1 2.
  rewrite !(bind_read_only (exists_ (PurePath.Path base // u)))
    by apply read_only_exists_.
  rewrite (exists_same_store w w' _ Hs).
  destruct (result (exists_ (PurePath.Path base // u)) w) as [[|]|]; try done. simpl.
  rewrite !(bind_read_only (np_load (PurePath.Path base // u // "face_enc.npy")))
    by apply read_only_np_load.
  rewrite (np_load_agree _ w w' (read_file_same_store w w' _ Hs)).
  destruct (result (np_load _) w) as [fe|]; [|done].
  rewrite !(bind_read_only (np_load (PurePath.Path base // u // "voice_enc.npy")))
    by apply read_only_np_load.
  rewrite (np_load_agree _ w w' (read_file_same_store w w' _ Hs)).
  destruct (result (np_load _) w) as [ve|]; [|done].
  rewrite !(bind_read_only (exists_ (PurePath.Path base // u // "meta.json")))
    by apply read_only_exists_.
  rewrite (exists_same_store w w' _ Hs).
  destruct (result (exists_ _) w) as [[|]|]; try done.
  rewrite !(bind_read_only (json_load (PurePath.Path base // u // "meta.json")))
    by apply read_only_json_load.
  rewrite (json_load_agree _ w w' (read_file_same_store w w' _ Hs)).
  by destruct (result (json_load _) w).
Qed.

Lemma show_user_details_from users w s0 :
  show_user_details users (set_screen (λ _, s0) w) =
  (Returns (), set_screen (λ _, (s0 ++ (user_line w <$> users))%list) w).
Proof.
  revert s0. induction users as [|u rest IH]; intros s0.
  - simpl. unfold ret, set_screen. simpl. by rewrite app_nil_r.
  - simpl. unfold bind at 1. unfold try_except.
    rewrite bind_read_only by apply read_only_load_user_embeddings.
    rewrite (load_user_embeddings_same_store _ _ w (set_screen (λ _, s0) w)) by done.
    unfold user_line at 1.
    destruct (result (load_user_embeddings BASE_USERS_DIR u) w) as [r|e];
      unfold emit; simpl;
      change (set_screen (λ s, (s ++ ?x)%list) (set_screen (λ _, s0) w))
        with (set_screen (λ _, (s0 ++ x)%list) w);
      rewrite IH; unfold set_screen; simpl; by rewrite <-app_assoc.
Qed.

(** The List Users page with "Show user details" pressed: one line for the
    list, then one line per listed user in order, with the metadata when
    the template loads and with the exception when it does not.  A
    template that cannot be read neither stops the listing nor makes the
    page fail, and nothing but the screen changes. *)
Theorem list_users_page_reports_every_user (us : list string) (w : world) :
  result (list_users BASE_USERS_DIR) w = Returns us →
  list_users_page true w =
  (Returns (),
   set_screen (λ s,
     (s ++ match us with
           | [] => [st_info NoUsersEnrolled]
           | _ => st_write (UserList us) :: (user_line w <$> us)
           end)%list) w).
Proof.
  intros Hus. unfold list_users_page.
  rewrite bind_read_only by apply read_only_list_users. rewrite Hus.
  destruct us as [|u rest]; [done|].
  cbn [length Nat.eqb]. unfold bind at 1, emit.
  change (set_screen (λ s, (s ++ [st_write (UserList (u :: rest))])%list) w)
    with (set_screen (λ _, (screen w ++ [st_write (UserList (u :: rest))])%list) w).
  rewrite show_user_details_from. unfold set_screen. simpl.
  by rewrite <-app_assoc.
Qed.

Lemma list_users_page_reports_every_user_witness :
  let w := set_files (delete ["face_enc.npy"; "alice"; "users"; "app"]) alice_world in
  list_users_page true w =
  (Returns (),
   set_screen (λ s, (s ++ [st_write (UserList ["alice"]);
                           st_write (UserMetaError "alice" ENOENT)])%list) w).
Proof.
  intros w.
  pose proof (list_users_page_reports_every_user ["alice"] w) as Hpage.
  rewrite Hpage; [|vm_compute; reflexivity].
  do 2 f_equal.
Defined.

(** ** Admin Verify *)

Section admin_decision.
Context `{Collaborators}.


End admin_decision.


(** ** Enrollment with unusable biometric input *)

Section unusable_input.
Context `{Collaborators}.

Lemma get_face_encoding_from_image_any_world face w w' :
  result (get_face_encoding_from_image face) w' =
  result (get_face_encoding_from_image face) w.
Proof.
  unfold result, get_face_encoding_from_image, bind, lift.
  by destruct (face_encodings face) as [[|? ?]|].
Qed.

Lemma enroll_body_extraction_fails (d0 : pydict) (msg : message) u face voice e w :
  (result (get_face_encoding_from_image face) w = Raises e ∨
   (∃ fenc, result (get_face_encoding_from_image face) w = Returns fenc) ∧
   result (get_voice_embedding_from_wav voice) w = Raises e) →
  try_except
    (fenc <- get_face_encoding_from_image face ;;
     venc <- get_voice_embedding_from_wav voice ;;
     meta <- new_dict d0 ;;
     save_user_embeddings BASE_USERS_DIR u fenc venc (Some meta) ;;
     emit (st_success msg))
    (λ e, emit (st_exception e)) w =
  (Returns (),
   set_screen (λ s, (s ++ [st_exception e])%list) (after_extractions face voice w)).
Proof.
  intros Hfail. unfold try_except, after_extractions.
  rewrite bind_read_only by apply read_only_get_face_encoding_from_image.
  destruct Hfail as [Hf|[[fenc Hf] Hv]]; rewrite Hf; [done|].
  unfold bind at 1. unfold result, run in *.
  destruct (get_voice_embedding_from_wav voice w) as [o w1]. simpl in *. by subst o.
Qed.

Lemma after_extractions_set_screen face voice f w :
  after_extractions face voice (set_screen f w) =
  set_screen f (after_extractions face voice w).
Proof.
  unfold after_extractions.
  rewrite (get_face_encoding_from_image_any_world face w).
  destruct (result (get_face_encoding_from_image face) w); [|done].
  apply run_get_voice_set_screen.
Qed.

(** Both enrollment handlers extract the two embeddings before they touch
    the store and the heap.  When the image shows no face or the encoder
    fails, the handler reports that exception and changes nothing but the
    screen.  When the face was extracted and the voice extraction fails,
    the handler reports that exception and leaves the world the voice
    extraction has left: no dict is made, and where the working directory
    exists nothing has changed but the screen, the module global and what
    is in [pretrained_models], so no user directory is created. *)
Theorem enrollment_with_unusable_input_stores_nothing
    (i : admin_inputs) (w : world) (us : list string) (face voice : bytes) (e : exn) :
  result (list_users BASE_USERS_DIR) w = Returns us →
  (result (get_face_encoding_from_image face) w = Raises e ∨
   (∃ fenc, result (get_face_encoding_from_image face) w = Returns fenc) ∧
   result (get_voice_embedding_from_wav voice) w = Raises e) →
  (us = [] → create_admin_button i = true → truthy (init_user i) = true →
   init_face i = Some face → init_voice i = Some voice →
   initialize_admin i w =
   (Returns (),
    set_screen (λ s, (s ++ [st_warning NoUsersFound; st_exception e])%list)
               (after_extractions face voice w))) ∧
  (admin_flag i = true → enroll_button i = true → truthy (new_username i) = true →
   new_face i = Some face → new_voice i = Some voice → new_username i ∉ us →
   enroll_panel i w =
   (Returns (),
    set_screen (λ s, (s ++ [st_exception e])%list) (after_extractions face voice w))) ∧
  (result (get_face_encoding_from_image face) w = Raises e →
   after_extractions face voice w = w) ∧
  heap (after_extractions face voice w) = heap w ∧
  (files w !! cwd w = Some Dir → same_but_model w (after_extractions face voice w)).
Proof.
  intros Hus Hfail. split_and!.
  - intros -> Hbtn Hu Hface Hvoice. unfold initialize_admin.
    rewrite bind_read_only by apply read_only_list_users. rewrite Hus. simpl.
    unfold bind at 1. rewrite emit_eq, Hbtn, Hu, Hface, Hvoice.
    rewrite (enroll_body_extraction_fails _ _ _ _ _ e).
    + rewrite after_extractions_set_screen. unfold set_screen. simpl.
      by rewrite <-app_assoc.
    + rewrite !(get_face_encoding_from_image_any_world face w).
      by rewrite result_get_voice_set_screen.
  - intros Hflag Hbtn Hu Hface Hvoice Hnew. unfold enroll_panel.
    rewrite Hflag, Hbtn, Hu, Hface, Hvoice.
    rewrite bind_read_only by apply read_only_list_users. rewrite Hus.
    rewrite bool_decide_eq_false_2 by done.
    by apply enroll_body_extraction_fails.
  - intros Hf. unfold after_extractions. by rewrite Hf.
  - unfold after_extractions.
    destruct (result (get_face_encoding_from_image face) w); [|done].
    by destruct (get_voice_embedding_from_wav_env voice w) as (_ & ? & _).
  - intros Hc. unfold after_extractions.
    destruct (result (get_face_encoding_from_image face) w);
      [|apply same_but_model_refl].
    by apply get_voice_embedding_from_wav_same_but_model.
Qed.

End unusable_input.

Lemma enrollment_with_unusable_input_stores_nothing_witness :
  @enroll_panel stub_models (enroll_unverified "bob" [] bob_voice) alice_world =
  (Returns (),
   set_screen (λ s,
     (s ++ [st_exception
              (ValueError "No face found in the image. Please upload a clear face image.")])%list)
     alice_world).
Proof.
  destruct (@enrollment_with_unusable_input_stores_nothing stub_models
              (enroll_unverified "bob" [] bob_voice) alice_world ["alice"] [] bob_voice
              (ValueError "No face found in the image. Please upload a clear face image."))
    as (_ & Henroll & _); [vm_compute; reflexivity | left; vm_compute; reflexivity |].
  apply Henroll; try reflexivity.
  intros Hin. apply list_elem_of_singleton in Hin. discriminate.
Defined.

(** ** After an enrollment *)

Section after_enrollment.
Context `{Collaborators}.

(** Once "Enroll New User" has stored a user, a verification of that
    username compares the live encodings with exactly the two vectors
    extracted at enrollment (the first face of the enrollment image): the
    scores shown are the cosine similarities against them, and access is
    granted exactly when both reach the default thresholds. *)
Theorem enrolled_user_is_matched_against_enrolled_vectors
    (i : admin_inputs) (w : world) (us : list string)
    (face voice : bytes) (fenc : vec) (rest : list vec) (venc : vec)
    (img wav : bytes) (fl : vec) (rest' : list vec) (vl : vec) (sf sv : float) :
  admin_flag i = true → enroll_button i = true →
  PurePath.plain_name (new_username i) = true →
  result (list_users BASE_USERS_DIR) w = Returns us → us ≠ [] →
  new_username i ∉ us →
  new_face i = Some face → new_voice i = Some voice →
  face_encodings face = Returns (fenc :: rest) →
  result (get_voice_embedding_from_wav voice) w = Returns venc →
  wf_tree (files w) →
  files w !! (new_username i :: BASE_USERS_DIR :: cwd w) = None →
  face_encodings img = Returns (fl :: rest') →
  result (get_voice_embedding_from_wav wav) (run (enroll_panel i) w) = Returns vl →
  cosine_similarity fl fenc = Returns sf →
  cosine_similarity vl venc = Returns sv →
  shown (authenticate_page (verify_with (new_username i) img wav))
        (run (enroll_panel i) w) =
  [st_write (FaceMatch sf (PrimFloat.leb face_threshold sf));
   st_write (VoiceMatch sv (PrimFloat.leb voice_threshold sv));
   if PrimFloat.leb face_threshold sf && PrimFloat.leb voice_threshold sv
   then st_success AccessGranted else st_error AccessDenied].
Proof.
  intros Hflag Hbtn Hu Hus Hne Hnew Hface Hvoice Hfe Hve Hwf Hfree Himg Hwav Hsf Hsv.
  destruct (enroll_panel_enrolled_world i w us face voice fenc rest venc
              Hflag Hbtn Hu Hus Hne Hnew Hface Hvoice Hfe Hve Hwf Hfree)
    as (w1 & _ & Hc1 & Hcw & Hfw).
  pose proof (load_user_embeddings_saved BASE_USERS_DIR (new_username i) fenc venc
                _ w1 _ eq_refl Hu Hc1 Hcw Hfw) as Hload.
  set (w' := run (enroll_panel i) w) in *.
  assert (files w' !! cwd w' = Some Dir) as Hc'
    by (by rewrite Hcw, Hfw, saved_files_cwd).
  rewrite (authenticate_page_shown _ img wav);
    [|done|by apply plain_name_truthy|done|done].
  cbn [target_user verify_with].
  apply (verify_events_scores img wav _ w' fl vl
           (run (get_voice_embedding_from_wav wav) w') fenc venc
           (<["username" := PyStr (new_username i)]>
              {[ "created_by" := PyStr "admin" ]})); try done.
  - unfold result, get_face_encoding_from_image, bind at 1, lift. by rewrite Himg.
  - unfold result in Hwav. unfold run.
    destruct (get_voice_embedding_from_wav wav w'). simpl in *. by subst.
  - rewrite (load_user_embeddings_same_but_model _ _ w') ; [|done..|].
    + unfold result. by rewrite Hload.
    + by apply get_voice_embedding_from_wav_same_but_model.
Qed.


End after_enrollment.

Lemma enrolled_user_is_matched_against_enrolled_vectors_witness :
  shown (@authenticate_page stub_models (verify_with "bob" bob_face bob_voice))
        (run (@enroll_panel stub_models (enroll_unverified "bob" bob_face bob_voice))
             alice_world) =
  [st_write (FaceMatch 1%float true); st_write (VoiceMatch 1%float true);
   st_success AccessGranted].
Proof.
  apply (@enrolled_user_is_matched_against_enrolled_vectors stub_models
           (enroll_unverified "bob" bob_face bob_voice) alice_world ["alice"]
           bob_face bob_voice [0; 0; 1; 0]%float [] [0; 0; 0; 1]%float
           bob_face bob_voice [0; 0; 1; 0]%float [] [0; 0; 0; 1]%float 1%float 1%float);
    try (vm_compute; reflexivity).
  - discriminate.
  - intros Hin. apply list_elem_of_singleton in Hin. discriminate.
  - apply (bool_decide_eq_true_1 _). vm_compute. reflexivity.
Defined.


(** ** One user's save and the other users *)

Ltac not_in_template :=
  unfold template_locations; rewrite !elem_of_cons, elem_of_nil;
  let Hk := fresh "Hk" in
  intros Hk;
  repeat (destruct Hk as [Hk|Hk];
          [first [congruence | apply (f_equal length) in Hk; simpl in Hk; lia]|]);
  done.

(** Saving a template for one username leaves every other username's
    template as it loads: for ordinary names and an existing store root,
    the outcome of loading [u'] is the same before and after a save for
    [u], whatever the outcome of that save. *)
Theorem save_leaves_other_users_alone
    (b u u' : string) (f v : vec) (meta : option ref) (w : world) :
  PurePath.plain_name b = true → PurePath.plain_name u = true →
  PurePath.plain_name u' = true → u ≠ u' →
  files w !! cwd w = Some Dir → files w !! (b :: cwd w) = Some Dir →
  result (load_user_embeddings b u') (run (save_user_embeddings b u f v meta) w) =
  result (load_user_embeddings b u') w.
Proof.
  intros Hb Hu Hu' Hne Hc Hlb. unfold run.
  destruct (save_user_embeddings b u f v meta w) as [o w'] eqn:Hsave. cbn [snd].
  destruct (save_user_embeddings_confined b u f v meta w o w' Hb Hu Hc Hsave)
    as [Hc' Hout].
  pose proof (kind_kept_save w b u f v meta w o w' (kind_kept_refl w) Hsave) as [_ Hkind].
  apply load_user_embeddings_agree; [done..|]. split; [done|].
  intros k Hk. apply elem_of_cons in Hk as [->|Hk].
  - apply Hout. not_in_template.
  - unfold template_locations in Hk. apply elem_of_cons in Hk as [->|Hk].
    + specialize (Hkind (b :: cwd w)). rewrite Hlb in Hkind. by rewrite Hkind, Hlb.
    + apply Hout. revert Hk. rewrite !elem_of_cons, elem_of_nil.
      intros [->|[->|[->|[->|[]]]]]; not_in_template.
Qed.

Lemma save_leaves_other_users_alone_witness :
  result (load_user_embeddings "users" "alice")
         (run (save_user_embeddings "users" "bob" [0; 1]%float [1; 0]%float None)
              alice_world) =
  result (load_user_embeddings "users" "alice") alice_world.
Proof.
  apply (save_leaves_other_users_alone "users" "bob" "alice");
    try (vm_compute; reflexivity).
  discriminate.
Defined.

(** ** Saves that fail half-way or at once *)

(** When a directory stands where [voice_enc.npy] should go, the save
    raises [IsADirectoryError] after it has already written
    [face_enc.npy]: the store is left with the new face vector, the old
    rest, no new [meta.json], and the caller's dict untouched. *)
Theorem save_stops_after_face_when_voice_is_a_directory
    (b u : string) (f v : vec) (meta : option ref) (w : world) :
  PurePath.plain_name b = true → PurePath.plain_name u = true →
  files w !! cwd w = Some Dir →
  is_file_at (files w) (b :: cwd w) = false →
  is_file_at (files w) (u :: b :: cwd w) = false →
  is_dir_at (files w) ("face_enc.npy" :: u :: b :: cwd w) = false →
  files w !! ("voice_enc.npy" :: u :: b :: cwd w) = Some Dir →
  save_user_embeddings b u f v meta w =
  (Raises IsADirectoryError,
   set_files (λ t, <["face_enc.npy" :: u :: b :: cwd w := File (Npy f)]>
                     (<[u :: b :: cwd w := Dir]> (<[b :: cwd w := Dir]> t))) w).
Proof.
  intros Hb Hu Hc Hfb Hfu Hf Hv. unfold save_user_embeddings.
  unfold bind at 1. rewrite (ensure_user_dir_plain b u w) by done.
  set (lb := b :: cwd w) in *. set (lu := u :: lb) in *.
  set (w1 := set_files _ w).
  assert (files w1 !! cwd w = Some Dir) as Hc1.
  { simpl. rewrite !lookup_insert_ne;
      [done|apply location_ne_child|apply location_ne_grandchild]. }
  assert (files w1 !! lb = Some Dir) as Hb1.
  { simpl. rewrite lookup_insert_ne; [|apply location_ne_child].
    by rewrite lookup_insert_eq. }
  assert (files w1 !! lu = Some Dir) as Hu1.
  { simpl. by rewrite lookup_insert_eq. }
  assert (∀ n, files w1 !! (n :: lu) = files w !! (n :: lu)) as Hn1.
  { intros n. simpl. rewrite !lookup_insert_ne; [done|..].
    - apply not_eq_sym, location_ne_grandchild.
    - apply not_eq_sym, location_ne_child. }
  assert (resolve w1 (PurePath.Path b // u) = Returns lu) as Hr1.
  { by apply (resolve_user_dir b u w1). }
  unfold bind at 1, np_save.
  rewrite (write_child_at _ "face_enc.npy" (Npy f) w1 lu eq_refl Hr1 Hu1);
    [|apply is_dir_at_false in Hf; by rewrite Hn1].
  set (w2 := set_files _ w1).
  assert (resolve w2 (PurePath.Path b // u) = Returns lu) as Hr2.
  { apply (resolve_mono w1); [done| |done]. simpl. apply insert_keeps_dirs.
    apply is_dir_at_false in Hf. by rewrite Hn1. }
  assert (files w2 !! lu = Some Dir) as Hu2.
  { simpl. rewrite lookup_insert_ne; [done|apply location_ne_child]. }
  unfold bind at 1, write_file at 1.
  rewrite (resolve_child w2 _ "voice_enc.npy" lu eq_refl Hr2 Hu2).
  assert (files w2 !! ("voice_enc.npy" :: lu) = Some Dir) as ->.
  { simpl. rewrite lookup_insert_ne by done. by rewrite Hn1. }
  done.
Qed.

(** When a regular file stands where the user's directory should go, the
    save raises [FileExistsError] and changes nothing, in an existing
    store root. *)
Theorem save_fails_when_a_file_has_the_username
    (b u : string) (f v : vec) (meta : option ref) (w : world) (c : content) :
  PurePath.plain_name b = true → PurePath.plain_name u = true →
  files w !! cwd w = Some Dir → files w !! (b :: cwd w) = Some Dir →
  files w !! (u :: b :: cwd w) = Some (File c) →
  save_user_embeddings b u f v meta w = (Raises FileExistsError, w).
Proof.
  intros Hb Hu Hc Hlb Hlu. unfold save_user_embeddings, ensure_user_dir.
  rewrite (joinpath_plain _ _ Hu), (Path_plain _ Hb). simpl.
  pose proof (mkdir_child false [] b (cwd w) w eq_refl Hc (plain_name_not_dotdot _ Hb))
    as Hm1.
  simpl in Hm1. rewrite Hlb in Hm1.
  assert (resolve w (PurePath.Make false [b]) = Returns (b :: cwd w)) as Hr.
  { rewrite <-(Path_plain _ Hb). by apply resolve_root. }
  pose proof (mkdir_child false [b] u (b :: cwd w) w Hr Hlb (plain_name_not_dotdot _ Hu))
    as Hm2.
  simpl in Hm2. rewrite Hlu in Hm2.
  unfold bind at 1. unfold bind at 1. rewrite Hm1.
  unfold bind at 1. by rewrite Hm2.
Qed.

Lemma save_stops_after_face_when_voice_is_a_directory_witness :
  let w := run (save_user_embeddings "users" "bob/voice_enc.npy"
                  [1; 0]%float [0; 1]%float None) alice_world in
  save_user_embeddings "users" "bob" [0; 1]%float [1; 0]%float None w =
  (Raises IsADirectoryError,
   set_files (λ t, <["face_enc.npy" :: "bob" :: "users" :: cwd w := File (Npy [0; 1]%float)]>
                     (<["bob" :: "users" :: cwd w := Dir]>
                        (<["users" :: cwd w := Dir]> t))) w).
Proof.
  apply (save_stops_after_face_when_voice_is_a_directory "users" "bob");
    vm_compute; reflexivity.
Defined.

Lemma save_fails_when_a_file_has_the_username_witness :
  let w := run (save_user_embeddings "users" "." [1; 0]%float [0; 1]%float None)
               fresh_world in
  save_user_embeddings "users" "face_enc.npy" [0; 1]%float [1; 0]%float None w =
  (Raises FileExistsError, w).
Proof.
  apply (save_fails_when_a_file_has_the_username "users" "face_enc.npy" _ _ _ _
           (Npy [1; 0]%float));
    vm_compute; reflexivity.
Defined.

(** ** Making the directories twice *)

Lemma mkdir_existing p w l :
  resolve w p = Returns l → files w !! l = Some Dir →
  mkdir p w = (Returns (), w).
Proof.
  intros Hr Hl. unfold mkdir. rewrite mkdir_parents_eq. cbv zeta.
  rewrite rev_involutive. destruct p as [anch ps]. simpl.
  unfold try_except, os_mkdir. rewrite Hr, Hl. simpl.
  unfold bind, is_dir, gets. by rewrite Hr, Hl.
Qed.

(** [ensure_user_dir] is idempotent, whatever the base directory and the
    username: once it has returned, calling it again returns the same
    path and changes nothing. *)
Theorem ensure_user_dir_idempotent (base u : string) (w w1 : world) (ud : PurePath.t) :
  ensure_user_dir base u w = (Returns ud, w1) →
  ensure_user_dir base u w1 = (Returns ud, w1).
Proof.
  unfold ensure_user_dir, bind.
  destruct (mkdir (PurePath.Path base) w) as [[[]|e] w0] eqn:Hb; [|done].
  destruct (mkdir (PurePath.Path base // u) w0) as [[[]|e] w0'] eqn:Hu; [|done].
  intros [= <- <-].
  destruct (mkdir_returns _ _ _ Hb) as [_ (lb & Hrb & Hlb)].
  destruct (mkdir_returns _ _ _ Hu) as [_ (lu & Hru & Hlu)].
  assert (kind_kept w0 w0') as [Hc Hk].
  { apply (preserves_mkdir (kind_kept w0) (kind_kept_set_heap w0) (kind_kept_os_mkdir w0)
             (kind_kept_write_file w0) (PurePath.Path base // u) w0 (Returns ()) w0');
      [apply kind_kept_refl|done]. }
  rewrite (mkdir_existing _ w0' lb).
  - by rewrite (mkdir_existing _ w0' lu).
  - apply (resolve_mono w0); [done| |done]. intros k Hdir.
    specialize (Hk k). by rewrite Hdir in Hk.
  - specialize (Hk lb). by rewrite Hlb in Hk.
Qed.

Lemma ensure_user_dir_idempotent_witness :
  let w1 := run (ensure_user_dir "users" "a/../b") fresh_world in
  ensure_user_dir "users" "a/../b" w1 =
  (Returns (PurePath.Path "users" // "a/../b"), w1).
Proof.
  apply (ensure_user_dir_idempotent "users" "a/../b" fresh_world).
  vm_compute. reflexivity.
Defined.

(** ** A save and the listing *)

Lemma elem_of_list_users b w us n :
  PurePath.plain_name b = true → good_world w →
  result (list_users b) w = Returns us →
  n ∈ us ↔ files w !! (n :: b :: cwd w) = Some Dir.
Proof.
  intros Hb [Hwf Hc]. unfold result.
  rewrite list_users_eq, (resolve_root_eq _ _ Hb), Hc. simpl.
  destruct (files w !! (b :: cwd w)) as [[|?]|] eqn:Hlb; [|done|].
  - intros [= <-]. apply elem_of_subdirectories.
  - intros [= <-]. split; [by intros ?%not_elem_of_nil|].
    intros Hn. apply (wf_tree_parent _ _ _ _ Hwf) in Hn. congruence.
Qed.

(** A save that goes through adds exactly its username to the listing:
    afterwards [list_users] returns, without duplicates, the username just
    saved and the usernames it returned before. *)
Theorem save_adds_the_username_to_the_listing
    (b u : string) (f v : vec) (meta : option ref) (w : world) (us : list string) :
  PurePath.plain_name b = true → PurePath.plain_name u = true →
  good_world w →
  is_file_at (files w) (b :: cwd w) = false →
  is_file_at (files w) (u :: b :: cwd w) = false →
  is_dir_at (files w) ("face_enc.npy" :: u :: b :: cwd w) = false →
  is_dir_at (files w) ("voice_enc.npy" :: u :: b :: cwd w) = false →
  is_dir_at (files w) ("meta.json" :: u :: b :: cwd w) = false →
  result (list_users b) w = Returns us →
  ∃ us', result (list_users b) (run (save_user_embeddings b u f v meta) w) = Returns us' ∧
         NoDup us' ∧ ∀ n, n ∈ us' ↔ n = u ∨ n ∈ us.
Proof.
  intros Hb Hu Hg Hfb Hfu Hf Hv Hm Hus. pose proof Hg as [Hwf Hc].
  unfold run. rewrite (save_user_embeddings_plain b u f v meta w) by done. cbn [snd].
  match goal with |- ∃ _, result _ ?w' = _ ∧ _ =>
    destruct (list_users_saved b u f v
                (<["username" := PyStr u]> (caller_dict meta (heap w)))
                w w' Hb Hc eq_refl eq_refl) as (us' & Hus' & Hnd & Hin)
  end.
  exists us'. split; [unfold result; by rewrite Hus'|]. split; [done|].
  intros n. by rewrite Hin, (elem_of_list_users b w us n Hb Hg Hus).
Qed.

Lemma save_adds_the_username_to_the_listing_witness :
  ∃ us', result (list_users "users")
                (run (save_user_embeddings "users" "bob" [0; 1]%float [1; 0]%float None)
                     alice_world) = Returns us' ∧
         NoDup us' ∧ ∀ n, n ∈ us' ↔ n = "bob" ∨ n ∈ ["alice"].
Proof.
  apply (save_adds_the_username_to_the_listing "users" "bob");
    try (vm_compute; reflexivity).
  split; [apply (bool_decide_eq_true_1 _)|]; vm_compute; reflexivity.
Defined.

(** ** A username with a slash *)

Lemma split_slash_app a b :
  PurePath.no_slash_nul a = true →
  PurePath.split_slash (a ++ String "/"%char b) = a :: PurePath.split_slash b.
Proof.
  induction a as [|c r IH]; simpl; [done|].
  intros Hs. apply andb_prop in Hs as [Hc Hr].
  apply andb_prop in Hc as [Hc _]. apply negb_true_iff in Hc.
  by rewrite Hc, (IH Hr).
Qed.

Lemma Path_nested a c :
  PurePath.plain_name a = true → PurePath.plain_name c = true →
  PurePath.Path (a ++ String "/"%char c) = PurePath.Make false [a; c].
Proof.
  intros Ha Hc. pose proof Ha as Ha'. pose proof Hc as Hc'.
  unfold PurePath.plain_name in Ha', Hc'.
  apply andb_prop in Ha' as [Ha' _]. apply andb_prop in Ha' as [Hsa Hka].
  apply andb_prop in Hc' as [Hc' _]. apply andb_prop in Hc' as [Hsc Hkc].
  unfold PurePath.Path. rewrite (split_slash_app _ _ Hsa), (split_slash_plain _ Hsc).
  simpl. rewrite Hka, Hkc. f_equal.
  destruct a as [|x r]; [done|]. simpl in *.
  apply andb_prop in Hsa as [Hx _]. apply andb_prop in Hx as [Hx _].
  by apply negb_true_iff in Hx.
Qed.

Lemma wf_tree_below_missing (t : gmap location node) n d :
  wf_tree t → t !! d = None → t !! (n :: d) = None.
Proof.
  intros Hwf Hd. destruct (t !! (n :: d)) as [x|] eqn:Hn; [|done].
  apply (wf_tree_parent _ _ _ _ Hwf) in Hn. congruence.
Qed.

(** Making [base/a/c] where [base] exists and [a] does not: [a] is made
    first, then [c] in it. *)
Lemma mkdir_nested b a c w :
  PurePath.plain_name b = true → PurePath.plain_name a = true →
  PurePath.plain_name c = true →
  good_world w → files w !! (b :: cwd w) = Some Dir →
  files w !! (a :: b :: cwd w) = None →
  mkdir (PurePath.Make false [b; a; c]) w =
  (Returns (),
   set_files (λ t, <[c :: a :: b :: cwd w := Dir]> (<[a :: b :: cwd w := Dir]> t)) w).
Proof.
  intros Hb Ha Hc [Hwf Hcwd] Hlb Hla.
  pose proof (plain_name_not_dotdot _ Hb) as Hb'.
  pose proof (plain_name_not_dotdot _ Ha) as Ha'.
  pose proof (plain_name_not_dotdot _ Hc) as Hc'.
  set (self := PurePath.Make false [b; a; c]).
  assert (resolve w (PurePath.Make false [b]) = Returns (b :: cwd w)) as Hrb.
  { unfold resolve. simpl. by rewrite Hcwd, Hb'. }
  assert (os_mkdir self w = (Raises ENOENT, w)) as Hos.
  { unfold os_mkdir, resolve. simpl. by rewrite Hcwd, Hb', Hlb, Ha', Hla. }
  assert (mkdir (PurePath.Make false ([b] ++ [a])) w =
          (Returns (), set_files (<[a :: b :: cwd w := Dir]>) w)) as Hup.
  { apply mkdir_child_ok; [done..|]. unfold is_file_at. by rewrite Hla. }
  set (w1 := set_files (<[a :: b :: cwd w := Dir]>) w) in *.
  assert (mkdir_exist_ok self w1 =
          (Returns (), set_files (<[c :: a :: b :: cwd w := Dir]>) w1)) as Hself.
  { unfold mkdir_exist_ok, try_except, os_mkdir, resolve. simpl.
    rewrite (lookup_insert_ne _ (a :: b :: cwd w) (cwd w)) by length_ne.
    rewrite Hcwd, Hb'.
    rewrite (lookup_insert_ne _ (a :: b :: cwd w) (b :: cwd w)) by length_ne.
    rewrite Hlb, Ha', lookup_insert_eq, Hc'.
    rewrite (lookup_insert_ne _ (a :: b :: cwd w) (c :: a :: b :: cwd w)) by length_ne.
    by rewrite (wf_tree_below_missing _ c _ Hwf Hla). }
  unfold mkdir. change (rev (PurePath.parts self)) with [c; a; b].
  rewrite mkdir_parents_eq. cbv zeta.
  change (PurePath.Make (PurePath.anchored self) (rev [c; a; b])) with self.
  unfold try_except. rewrite Hos. cbn [is_FileNotFoundError ENOENT].
  unfold bind at 1.
  change (mkdir_parents (PurePath.anchored self) [a; b])
    with (mkdir (PurePath.Make false ([b] ++ [a]))).
  rewrite Hup. by rewrite Hself.
Qed.

(** A username [a/c] made of two ordinary names, in a store that has no
    entry [a] yet: the save makes the directory [a] and the directory [c]
    in it, stores the template there, and the template loads under
    [a/c]; but what the listing gains is the name [a], the only new
    subdirectory of the store root. *)
Theorem slash_username_is_stored_nested
    (b a c : string) (f v : vec) (meta : option ref) (w : world) :
  PurePath.plain_name b = true → PurePath.plain_name a = true →
  PurePath.plain_name c = true →
  good_world w → files w !! (b :: cwd w) = Some Dir →
  files w !! (a :: b :: cwd w) = None →
  let u := a ++ String "/"%char c in
  let w' := run (save_user_embeddings b u f v meta) w in
  result (save_user_embeddings b u f v meta) w = Returns () ∧
  load_user_embeddings b u w' =
    (Returns (f, v, <["username" := PyStr u]> (caller_dict meta (heap w))), w') ∧
  files w' !! (c :: a :: b :: cwd w) = Some Dir ∧
  ∃ us', result (list_users b) w' = Returns us' ∧ a ∈ us' ∧
         ∀ n, n ∈ us' ↔ n = a ∨ files w !! (n :: b :: cwd w) = Some Dir.
Proof.
  intros Hb Ha Hc Hg Hlb Hla u w'. pose proof Hg as [Hwf Hcwd].
  set (lb := b :: cwd w) in *. set (la := a :: lb) in *. set (lc := c :: la).
  assert (PurePath.Path b // u = PurePath.Make false [b; a; c]) as Hud.
  { unfold PurePath.joinpath, u. by rewrite (Path_nested a c Ha Hc), (Path_plain b Hb). }
  assert (∀ n, files w !! (n :: lc) = None) as Hbelow.
  { intros n. by do 2 apply (wf_tree_below_missing _ _ _ Hwf). }
  set (w2 := set_files (λ t, <[lc := Dir]> (<[la := Dir]> t)) w).
  assert (ensure_user_dir b u w = (Returns (PurePath.Path b // u), w2)) as Hens.
  { unfold ensure_user_dir, bind.
    rewrite (mkdir_existing (PurePath.Path b) w lb (resolve_root b w Hb Hcwd) Hlb).
    rewrite Hud. by rewrite (mkdir_nested b a c w). }
  assert (files w2 !! cwd w = Some Dir) as Hc2.
  { simpl. by rewrite !lookup_insert_ne by length_ne. }
  assert (files w2 !! lb = Some Dir) as Hlb2.
  { simpl. by rewrite !lookup_insert_ne by length_ne. }
  assert (files w2 !! la = Some Dir) as Hla2.
  { simpl. rewrite lookup_insert_ne by length_ne. by rewrite lookup_insert_eq. }
  assert (files w2 !! lc = Some Dir) as Hlc2.
  { simpl. by rewrite lookup_insert_eq. }
  assert (resolve w2 (PurePath.Path b // u) = Returns lc) as Hr2.
  { rewrite Hud. unfold resolve. simpl.
    change (<[lc:=Dir]> (<[la:=Dir]> (files w))) with (files w2).
    rewrite Hc2, (plain_name_not_dotdot _ Hb).
    fold lb. rewrite Hlb2, (plain_name_not_dotdot _ Ha).
    fold la. by rewrite Hla2, (plain_name_not_dotdot _ Hc). }
  assert (∀ n, is_dir_at (files w2) (n :: lc) = false) as Hart.
  { intros n. unfold is_dir_at. simpl.
    rewrite !lookup_insert_ne by length_ne. by rewrite Hbelow. }
  assert (save_user_embeddings b u f v meta w =
          (Returns (),
           {| cwd := cwd w;
              files :=
                <["meta.json" :: lc :=
                    File (Json (<["username" := PyStr u]> (caller_dict meta (heap w))))]>
                  (<["voice_enc.npy" :: lc := File (Npy v)]>
                     (<["face_enc.npy" :: lc := File (Npy f)]> (files w2)));
              heap := heap_after meta u (heap w);
              screen := screen w;
      speaker_model := speaker_model w; scandir := scandir w |})) as Hsave.
  { unfold save_user_embeddings. unfold bind at 1. rewrite Hens.
    by rewrite (save_artifacts _ lc u f v meta w2). }
  assert (∀ n, files w' !! (n :: lb) =
               if decide (n = a) then Some Dir else files w !! (n :: lb)) as Hroot.
  { intros n. unfold w', run. rewrite Hsave. simpl.
    do 4 (rewrite lookup_insert_ne by length_ne).
    destruct (decide (n = a)) as [->|Hne].
    - by rewrite lookup_insert_eq.
    - rewrite lookup_insert_ne; [done|]. unfold la. congruence. }
  split; [unfold result; by rewrite Hsave|].
  split; [apply save_load_roundtrip; unfold w', run; by rewrite Hsave|].
  split.
  { unfold w', run. rewrite Hsave. simpl.
    by do 3 (rewrite lookup_insert_ne by length_ne). }
  assert (cwd w' = cwd w) as Hcw' by (unfold w', run; by rewrite Hsave).
  assert (files w' !! cwd w = Some Dir) as Hc'.
  { unfold w', run. rewrite Hsave. simpl.
    by do 3 (rewrite lookup_insert_ne by length_ne). }
  assert (files w' !! lb = Some Dir) as Hlb'.
  { unfold w', run. rewrite Hsave. simpl.
    by do 3 (rewrite lookup_insert_ne by length_ne). }
  eexists. split.
  { unfold result. rewrite list_users_eq, (resolve_root_eq _ _ Hb), Hcw', Hc'.
    fold lb. by rewrite Hlb'. }
  assert (∀ n, n ∈ omap subdirectory (entries w' lb) ↔
               n = a ∨ files w !! (n :: lb) = Some Dir) as Hin.
  { intros n. rewrite elem_of_subdirectories, Hroot.
    destruct (decide (n = a)) as [->|Hne].
    - split; [by left|done].
    - split; [by right|by intros [?|?]]. }
  split; [apply Hin; by left|exact Hin].
Qed.

Lemma slash_username_is_stored_nested_witness :
  let u := "team" ++ String "/"%char "bob" in
  let w' := run (save_user_embeddings "users" u [0; 1]%float [1; 0]%float None)
                alice_world in
  result (save_user_embeddings "users" u [0; 1]%float [1; 0]%float None) alice_world
    = Returns () ∧
  load_user_embeddings "users" u w' =
    (Returns ([0; 1]%float, [1; 0]%float,
              <["username" := PyStr u]> (caller_dict None (heap alice_world))), w') ∧
  files w' !! ("bob" :: "team" :: "users" :: cwd alice_world) = Some Dir ∧
  ∃ us', result (list_users "users") w' = Returns us' ∧ "team" ∈ us' ∧
         ∀ n, n ∈ us' ↔
              n = "team" ∨ files alice_world !! (n :: "users" :: cwd alice_world) = Some Dir.
Proof.
  apply (slash_username_is_stored_nested "users" "team" "bob");
    try (vm_compute; reflexivity).
  split; [apply (bool_decide_eq_true_1 _)|]; vm_compute; reflexivity.
Defined.

(** ** The metadata plays no part in a verification *)

Section metadata_unused.
Context `{Collaborators}.

Lemma verify_steps_same_steps img wav user w w' :
  result (get_voice_embedding_from_wav wav) w' =
    result (get_voice_embedding_from_wav wav) w →
  same_vectors
    (result (load_user_embeddings BASE_USERS_DIR user)
            (run (get_voice_embedding_from_wav wav) w))
    (result (load_user_embeddings BASE_USERS_DIR user)
            (run (get_voice_embedding_from_wav wav) w')) →
  same_steps (result (verify_steps img wav user) w)
             (result (verify_steps img wav user) w').
Proof.
  intros Hvoice Hload. unfold result at 1 2. rewrite !verify_steps_eq.
  rewrite (get_face_encoding_from_image_any_world img w w').
  destruct (result (get_face_encoding_from_image img) w) as [fl|e]; [|done].
  unfold result in Hvoice. unfold run in Hload.
  destruct (get_voice_embedding_from_wav wav w) as [o1 w1],
           (get_voice_embedding_from_wav wav w') as [o1' w1'].
  simpl in *. subst o1'. destruct o1 as [vl|e]; [|done].
  unfold same_vectors in Hload.
  destruct (result (load_user_embeddings BASE_USERS_DIR user) w1) as [[[fs vs] m]|e],
           (result (load_user_embeddings BASE_USERS_DIR user) w1') as [[[fs' vs'] m']|e'];
    try done.
Qed.

Lemma verify_events_same_steps img wav user w w' :
  same_steps (result (verify_steps img wav user) w)
             (result (verify_steps img wav user) w') →
  verify_events img wav user w' = verify_events img wav user w ∧
  admin_verdict img wav user w' = admin_verdict img wav user w.
Proof.
  unfold verify_events, admin_verdict, same_steps.
  destruct (result (verify_steps img wav user) w) as [[[fl vl] [[fs vs] m]]|e],
           (result (verify_steps img wav user) w') as [[[fl' vl'] [[fs' vs'] m']]|e'];
    try done.
  - by intros (-> & -> & -> & ->).
  - by intros ->.
Qed.

Lemma admin_verify_shown i img audio w :
  admin_verify_button i = true → truthy (admin_user i) = true →
  admin_img i = Some img → admin_audio i = Some audio →
  shown (admin_verify i) w = [snd (admin_verdict img audio (admin_user i) w)].
Proof.
  intros Hb Hu Hi Ha. apply shown_eq. unfold run at 1.
  rewrite (admin_verify_complete i img audio w Hb Hu Hi Ha). simpl.
  by destruct (verify_steps_env img audio (admin_user i) w) as (_ & _ & -> & _).
Qed.

(** Neither "Admin Verify" nor the Authenticate page looks at the stored
    metadata.  Take two worlds in which the voice extraction gives the
    same, and in which the loads that follow it give the same two vectors
    for the username (or fail with the same exception), whatever
    [meta.json] says: the verdict and what is shown are the same.  A role
    recorded at enrollment is therefore never consulted. *)
Theorem verification_ignores_stored_metadata
    (i : admin_inputs) (j : authenticate_inputs) (w w' : world) :
  (∀ wav, result (get_voice_embedding_from_wav wav) w' =
          result (get_voice_embedding_from_wav wav) w) →
  (∀ wav, same_vectors
            (result (load_user_embeddings BASE_USERS_DIR (admin_user i))
                    (run (get_voice_embedding_from_wav wav) w))
            (result (load_user_embeddings BASE_USERS_DIR (admin_user i))
                    (run (get_voice_embedding_from_wav wav) w'))) →
  (∀ wav, same_vectors
            (result (load_user_embeddings BASE_USERS_DIR (target_user j))
                    (run (get_voice_embedding_from_wav wav) w))
            (result (load_user_embeddings BASE_USERS_DIR (target_user j))
                    (run (get_voice_embedding_from_wav wav) w'))) →
  result (admin_verify i) w' = result (admin_verify i) w ∧
  shown (admin_verify i) w' = shown (admin_verify i) w ∧
  shown (authenticate_page j) w' = shown (authenticate_page j) w.
Proof.
  intros Hvoice Hadmin Huser.
  assert (result (admin_verify i) w' = result (admin_verify i) w ∧
          shown (admin_verify i) w' = shown (admin_verify i) w) as [Hres Hshown].
  { destruct (admin_verify_button i) eqn:Hb;
      [|unfold result, shown, run, admin_verify; rewrite Hb; simpl;
        by rewrite !drop_all].
    destruct (truthy (admin_user i)) eqn:Hu;
      [|unfold result, shown, run, admin_verify, bind, emit, ret; rewrite Hb, Hu; simpl;
        by rewrite !drop_app_length].
    destruct (admin_img i) as [img|] eqn:Hi;
      [|unfold result, shown, run, admin_verify, bind, emit, ret; rewrite Hb, Hu, Hi; simpl;
        by rewrite !drop_app_length].
    destruct (admin_audio i) as [audio|] eqn:Ha;
      [|unfold result, shown, run, admin_verify, bind, emit, ret;
        rewrite Hb, Hu, Hi, Ha; simpl; by rewrite !drop_app_length].
    rewrite !(admin_verify_shown i img audio) by done.
    unfold result. rewrite !(admin_verify_complete i img audio _ Hb Hu Hi Ha). simpl.
    destruct (verify_events_same_steps img audio (admin_user i) w w') as [_ ->]; [|done].
    by apply verify_steps_same_steps. }
  split; [done|]. split; [done|].
  destruct (verify_button j) eqn:Hb;
    [|unfold shown, run, authenticate_page; rewrite Hb; simpl; by rewrite !drop_all].
  destruct (truthy (target_user j)) eqn:Hu;
    [|unfold shown, run, authenticate_page, emit; rewrite Hb, Hu; simpl;
      by rewrite !drop_app_length].
  destruct (img_input j) as [img|] eqn:Hi.
  - destruct (audio_file j) as [wav|] eqn:Ha.
    + rewrite !(authenticate_page_shown j img wav) by done.
      destruct (verify_events_same_steps img wav (target_user j) w w') as [-> _]; [|done].
      by apply verify_steps_same_steps.
    + unfold shown, run, authenticate_page, emit. rewrite Hb, Hu, Ha. simpl.
      by rewrite !drop_app_length.
  - unfold shown, run, authenticate_page, emit. rewrite Hb, Hu, Hi.
    destruct (audio_file j); simpl; by rewrite !drop_app_length.
Qed.

End metadata_unused.

Lemma verification_ignores_stored_metadata_witness :
  let i := {| admin_verify_button := true; admin_user := "alice";
              admin_img := Some alice_face; admin_audio := Some alice_voice;
              create_admin_button := false; init_user := "";
              init_face := None; init_voice := None;
              admin_flag := false; enroll_button := false; new_username := "";
              new_face := None; new_voice := None |} in
  let j := verify_with "alice" alice_face alice_voice in
  let w' := set_files (<["meta.json" :: "alice" :: "users" :: cwd alice_world :=
                           File (Json {[ "role" := PyStr "guest" ]})]>) alice_world in
  result (@admin_verify stub_models i) w' = result (@admin_verify stub_models i) alice_world ∧
  shown (@admin_verify stub_models i) w' = shown (@admin_verify stub_models i) alice_world ∧
  shown (@authenticate_page stub_models j) w' =
  shown (@authenticate_page stub_models j) alice_world.
Proof.
  apply (@verification_ignores_stored_metadata stub_models);
    intros wav; rewrite ?(@run_get_voice_embedding_from_wav stub_models),
                        ?(@get_voice_embedding_from_wav_eq stub_models);
    vm_compute; try split; reflexivity.
Defined.
